(** * PiSP Back End driver: scheduling, sanitising, dispatch, completion

    A shallow embedding of the job scheduler of
    [drivers/media/platform/raspberrypi/pisp_be/pisp_be.c]: the ready
    queues of the nodes, the admission of a job
    ([pispbe_schedule_internal]), the sanitiser of enables and plane
    addresses ([fixup_addrs_enables], [get_addr_3]), the register
    programming sequence ([hw_queue_job]) and the interrupt handler
    ([pispbe_isr]).

    Conventions.  C integers are [Z] with the wrap-around of their type
    written out ([u8], [u32], [u64]).  Arrays are lists read by index and
    written with [<[i:=x]>]; a [NULL] pointer is [None].  The device state
    is threaded explicitly.  Register accesses are recorded in a
    chronological trace, and what the device answers to a read is a
    function of that trace. *)

From Stdlib Require Import ZArith Lia List Bool.
From stdpp Require Import base tactics option list.

Import ListNotations.
Local Open Scope Z_scope.

(** ** Machine integers *)

Definition u8 (x : Z) : Z := x mod 2 ^ 8.
Definition u32 (x : Z) : Z := x mod 2 ^ 32.
Definition u64 (x : Z) : Z := x mod 2 ^ 64.

(** [BIT(n)] of the kernel. *)
Definition BIT (n : nat) : Z := Z.shiftl 1 (Z.of_nat n).

(** C truth value of an integer. *)
Definition nz (x : Z) : bool := negb (x =? 0).

(** [x &= ~m] on an unsigned 32-bit value. *)
Definition clear_bits (x m : Z) : Z := Z.land x (Z.lnot m).

(** ** Constants of the file *)

Definition PISPBE_NUM_NODE_GROUPS : nat := 2.

Definition PISP_BE_CONTROL_OFFSET : Z := 0x4.
Definition PISP_BE_TILE_ADDR_LO_OFFSET : Z := 0x8.
Definition PISP_BE_TILE_ADDR_HI_OFFSET : Z := 0xc.
Definition PISP_BE_STATUS_OFFSET : Z := 0x10.
Definition PISP_BE_BATCH_STATUS_OFFSET : Z := 0x14.
Definition PISP_BE_INTERRUPT_STATUS_OFFSET : Z := 0x1c.
Definition PISP_BE_CONFIG_BASE_OFFSET : Z := 0x40.
Definition PISP_BE_IO_INPUT_ADDR0_LO_OFFSET : Z := PISP_BE_CONFIG_BASE_OFFSET.
Definition PISP_BE_GLOBAL_BAYER_ENABLE_OFFSET : Z := PISP_BE_CONFIG_BASE_OFFSET + 0x70.
Definition PISP_BE_GLOBAL_RGB_ENABLE_OFFSET : Z := PISP_BE_CONFIG_BASE_OFFSET + 0x74.
Definition N_HW_ADDRESSES : nat := 14.
Definition N_HW_ENABLES : nat := 2.

(** [enum node_ids]. *)
Definition MAIN_INPUT_NODE : nat := 0.
Definition TDN_INPUT_NODE : nat := 1.
Definition STITCH_INPUT_NODE : nat := 2.
Definition HOG_OUTPUT_NODE : nat := 3.
Definition OUTPUT0_NODE : nat := 4.
Definition OUTPUT1_NODE : nat := 5.
Definition TDN_OUTPUT_NODE : nat := 6.
Definition STITCH_OUTPUT_NODE : nat := 7.
Definition CONFIG_NODE : nat := 8.
Definition PISPBE_NUM_NODES : nat := 9.

(** Modelled from the spec: [MAX_PLANES] is declared in pisp_be_formats.h,
    which is not among the sources.  The spec speaks of 3-plane inputs and
    outputs, and [get_addr_3] receives an array [addr[3]]. *)
Definition MAX_PLANES : nat := 3.

(** Modelled from the spec: [PISP_BACK_END_NUM_OUTPUTS] is declared in
    pisp_be_config.h, which is not among the sources.  The spec gives "up to
    two main outputs", and the 14 address slots are 3 + 2 + 2 + 2 * 3 + 1. *)
Definition PISP_BACK_END_NUM_OUTPUTS : nat := 2.

(** The remaining names of pisp_be_config.h that the scheduler uses: the
    enable bits, the tile bound and the layout of the configuration
    structures.  Their values are not in the sources; the development is
    parametric in them. *)
Class pisp_be_config_h := {
  PISP_BE_BAYER_ENABLE_INPUT : Z;
  PISP_BE_BAYER_ENABLE_TDN_INPUT : Z;
  PISP_BE_BAYER_ENABLE_TDN_DECOMPRESS : Z;
  PISP_BE_BAYER_ENABLE_TDN : Z;
  PISP_BE_BAYER_ENABLE_TDN_COMPRESS : Z;
  PISP_BE_BAYER_ENABLE_TDN_OUTPUT : Z;
  PISP_BE_BAYER_ENABLE_STITCH_INPUT : Z;
  PISP_BE_BAYER_ENABLE_STITCH_DECOMPRESS : Z;
  PISP_BE_BAYER_ENABLE_STITCH : Z;
  PISP_BE_BAYER_ENABLE_STITCH_COMPRESS : Z;
  PISP_BE_BAYER_ENABLE_STITCH_OUTPUT : Z;
  PISP_BE_RGB_ENABLE_OUTPUT0 : Z;
  PISP_BE_RGB_ENABLE_OUTPUT1 : Z;
  PISP_BE_RGB_ENABLE_HOG : Z;
  PISP_BACK_END_NUM_TILES : Z;
  (** [offsetof(struct pisp_be_config, global.bayer_order) / sizeof(u32)] *)
  config_begin : nat;
  (** [offsetof(struct pisp_be_config, axi) / sizeof(u32)] *)
  config_end : nat;
  (** [sizeof(struct pisp_be_tiles_config)] *)
  sizeof_tiles_config : Z;
  (** [offsetof(struct pisp_be_tiles_config, tiles)] *)
  offsetof_tiles : Z
}.

(** ** Data model *)

Inductive vb2_buffer_state := VB2_BUF_STATE_DONE | VB2_BUF_STATE_ERROR.

(** [struct pispbe_buffer] with the fields of the embedded
    [vb2_v4l2_buffer] that the scheduler reads or writes. *)
Record pispbe_buffer := {
  vb2_index : nat;            (* vb.vb2_buf.index *)
  plane_dma_addr : list Z;    (* DMA address of each plane *)
  vb2_timestamp : Z;          (* vb.vb2_buf.timestamp *)
  vb_sequence : Z             (* vb.sequence *)
}.

(** [struct pisp_be_format], as far as [get_addr_3] reads it. *)
Record pisp_be_format := {
  plane_factor : list Z
}.

(** [struct pispbe_node]: the ready queue and the negotiated format. *)
Record pispbe_node := {
  ready_queue : list pispbe_buffer;
  fmt_num_planes : Z;         (* format.fmt.pix_mp.num_planes *)
  fmt_bytesperline : Z;       (* format.fmt.pix_mp.plane_fmt[0].bytesperline *)
  fmt_height : Z;             (* format.fmt.pix_mp.height *)
  pisp_format : option pisp_be_format
}.

(** [vb2_dma_contig_plane_dma_addr]. *)
Definition vb2_dma_contig_plane_dma_addr (b : pispbe_buffer) (p : nat) : Z :=
  nth p (plane_dma_addr b) 0.

(** ** Plane addresses: [get_addr_3] *)

Definition factor_at (f : pisp_be_format) (p : nat) : Z := nth p (plane_factor f) 0.

(** First loop of [get_addr_3]:
    [for (p = 0; p < num_planes && p < 3; p++)].  The array [addr] of the
    C function is the window of [a] starting at [off]. *)
Fixpoint filled_planes (fuel : nat) (num_planes : Z) (b : pispbe_buffer)
    (f : pisp_be_format) (off p : nat) (a : list Z) (pf : Z) : nat * list Z * Z :=
  match fuel with
  | O => (p, a, pf)
  | S fuel' =>
      if (Z.of_nat p <? num_planes) && (Z.of_nat p <? 3) then
        filled_planes fuel' num_planes b f off (S p)
          (<[(off + p)%nat := vb2_dma_contig_plane_dma_addr b p]> a)
          (u32 (pf + factor_at f p))
      else (p, a, pf)
  end.

(** Second loop of [get_addr_3]:
    [for (; p < MAX_PLANES && plane_factor[p]; p++)]. *)
Fixpoint derived_planes (fuel : nat) (size : Z) (f : pisp_be_format)
    (off p : nat) (a : list Z) (pf : Z) : list Z :=
  match fuel with
  | O => a
  | S fuel' =>
      if (p <? MAX_PLANES)%nat && nz (factor_at f p) then
        derived_planes fuel' size f off (S p)
          (<[(off + p)%nat := u64 (nth off a 0 + Z.shiftr (u32 (size * pf)) 3)]> a)
          (u32 (pf + factor_at f p))
      else a
  end.

(** [get_addr_3(addr, buf, node)] with [addr = a + off]; returns the
    result and the array. *)
Definition get_addr_3 (a : list Z) (off : nat) (buf : option pispbe_buffer)
    (node : pispbe_node) : Z * list Z :=
  match buf, pisp_format node with
  | Some b, Some f =>
      let num_planes := fmt_num_planes node in
      let size := u32 (fmt_bytesperline node * fmt_height node) in
      let '(p, a, pf) := filled_planes 3 num_planes b f off 0 a 0 in
      (num_planes, derived_planes MAX_PLANES size f off p a pf)
  | _, _ => (0, a)
  end.

(** [get_addr]. *)
Definition get_addr (buf : option pispbe_buffer) : Z :=
  match buf with
  | Some b => vb2_dma_contig_plane_dma_addr b 0
  | None => 0
  end.

(** ** Configuration, jobs, node groups, device *)

(** [struct pisp_be_tiles_config], as far as the scheduler reads it. *)
Record pisp_be_tiles_config := {
  bayer_enables : Z;          (* config.global.bayer_enables *)
  rgb_enables : Z;            (* config.global.rgb_enables *)
  tdn_reset : Z;              (* config.tdn.reset *)
  num_tiles : Z;              (* num_tiles, read into an int *)
  config_words : list Z       (* config, read as an array of u32 *)
}.

(** [struct pispbe_job]; the node group is named by its index in
    [pispbe->node_group], [None] is the [NULL] pointer. *)
Record pispbe_job := {
  job_node_group : option nat;
  job_buf : list (option pispbe_buffer)
}.

(** [memset(&job, 0, sizeof(job))]. *)
Definition no_job : pispbe_job :=
  {| job_node_group := None; job_buf := replicate PISPBE_NUM_NODES None |}.

Record pispbe_node_group := {
  node : list pispbe_node;
  streaming_map : Z;
  config : list pisp_be_tiles_config;
  config_dma_addr : Z;
  sequence : Z
}.

Inductive mmio_event :=
| MmioRead (offset value : Z)
| MmioWrite (offset value : Z).

(** [struct pispbe_dev], followed by what the driver does to its
    environment: the register accesses in chronological order, the calls of
    [vb2_buffer_done], and the node group of each call of
    [pispbe_isr_jobdone]. *)
Record pispbe_dev := {
  node_group : list pispbe_node_group;
  hw_busy : Z;
  queued_job : pispbe_job;
  running_job : pispbe_job;
  done : Z;
  started : Z;
  mmio : list mmio_event;
  vb2_done : list (pispbe_buffer * vb2_buffer_state);
  jobs_done : list nat
}.

(** What the environment answers: the value of a register read after a
    given history of accesses, the clock at the n-th completed job, and the
    indeterminate initial content of the local array [hw_dma_addrs] of
    [pispbe_schedule_internal]. *)
Class platform := {
  readl : list mmio_event -> Z -> Z;
  ktime_get_ns : nat -> Z;
  stack_garbage : list mmio_event -> nat -> Z
}.

#[global] Instance pispbe_buffer_eq_dec : EqDecision pispbe_buffer.
Proof. solve_decision. Defined.

(** Field updates. *)
Definition set_ready_queue (q : list pispbe_buffer) (n : pispbe_node) : pispbe_node :=
  {| ready_queue := q; fmt_num_planes := fmt_num_planes n;
     fmt_bytesperline := fmt_bytesperline n; fmt_height := fmt_height n;
     pisp_format := pisp_format n |}.

Definition set_node (ns : list pispbe_node) (ng : pispbe_node_group) : pispbe_node_group :=
  {| node := ns; streaming_map := streaming_map ng; config := config ng;
     config_dma_addr := config_dma_addr ng; sequence := sequence ng |}.

Definition set_streaming_map (m : Z) (ng : pispbe_node_group) : pispbe_node_group :=
  {| node := node ng; streaming_map := m; config := config ng;
     config_dma_addr := config_dma_addr ng; sequence := sequence ng |}.

Definition set_sequence (s : Z) (ng : pispbe_node_group) : pispbe_node_group :=
  {| node := node ng; streaming_map := streaming_map ng; config := config ng;
     config_dma_addr := config_dma_addr ng; sequence := s |}.

Definition set_node_group (gs : list pispbe_node_group) (d : pispbe_dev) : pispbe_dev :=
  {| node_group := gs; hw_busy := hw_busy d; queued_job := queued_job d;
     running_job := running_job d; done := done d; started := started d;
     mmio := mmio d; vb2_done := vb2_done d; jobs_done := jobs_done d |}.

Definition set_hw_busy (b : Z) (d : pispbe_dev) : pispbe_dev :=
  {| node_group := node_group d; hw_busy := b; queued_job := queued_job d;
     running_job := running_job d; done := done d; started := started d;
     mmio := mmio d; vb2_done := vb2_done d; jobs_done := jobs_done d |}.

Definition set_queued_job (j : pispbe_job) (d : pispbe_dev) : pispbe_dev :=
  {| node_group := node_group d; hw_busy := hw_busy d; queued_job := j;
     running_job := running_job d; done := done d; started := started d;
     mmio := mmio d; vb2_done := vb2_done d; jobs_done := jobs_done d |}.

Definition set_running_job (j : pispbe_job) (d : pispbe_dev) : pispbe_dev :=
  {| node_group := node_group d; hw_busy := hw_busy d; queued_job := queued_job d;
     running_job := j; done := done d; started := started d;
     mmio := mmio d; vb2_done := vb2_done d; jobs_done := jobs_done d |}.

Definition set_done (x : Z) (d : pispbe_dev) : pispbe_dev :=
  {| node_group := node_group d; hw_busy := hw_busy d; queued_job := queued_job d;
     running_job := running_job d; done := x; started := started d;
     mmio := mmio d; vb2_done := vb2_done d; jobs_done := jobs_done d |}.

Definition set_started (x : Z) (d : pispbe_dev) : pispbe_dev :=
  {| node_group := node_group d; hw_busy := hw_busy d; queued_job := queued_job d;
     running_job := running_job d; done := done d; started := x;
     mmio := mmio d; vb2_done := vb2_done d; jobs_done := jobs_done d |}.

Definition set_mmio (t : list mmio_event) (d : pispbe_dev) : pispbe_dev :=
  {| node_group := node_group d; hw_busy := hw_busy d; queued_job := queued_job d;
     running_job := running_job d; done := done d; started := started d;
     mmio := t; vb2_done := vb2_done d; jobs_done := jobs_done d |}.

Definition set_vb2_done (l : list (pispbe_buffer * vb2_buffer_state)) (d : pispbe_dev)
    : pispbe_dev :=
  {| node_group := node_group d; hw_busy := hw_busy d; queued_job := queued_job d;
     running_job := running_job d; done := done d; started := started d;
     mmio := mmio d; vb2_done := l; jobs_done := jobs_done d |}.

Definition set_jobs_done (l : list nat) (d : pispbe_dev) : pispbe_dev :=
  {| node_group := node_group d; hw_busy := hw_busy d; queued_job := queued_job d;
     running_job := running_job d; done := done d; started := started d;
     mmio := mmio d; vb2_done := vb2_done d; jobs_done := l |}.

(** Array reads.  The arrays have a fixed size in C; a read past the end
    of the list that models one yields the zeroed element. *)
Definition zero_node : pispbe_node :=
  {| ready_queue := []; fmt_num_planes := 0; fmt_bytesperline := 0;
     fmt_height := 0; pisp_format := None |}.

Definition zero_config : pisp_be_tiles_config :=
  {| bayer_enables := 0; rgb_enables := 0; tdn_reset := 0; num_tiles := 0;
     config_words := [] |}.

Definition zero_group : pispbe_node_group :=
  {| node := []; streaming_map := 0; config := []; config_dma_addr := 0;
     sequence := 0 |}.

Definition buf_at (buf : list (option pispbe_buffer)) (i : nat) : option pispbe_buffer :=
  nth i buf None.

Definition node_at (ng : pispbe_node_group) (i : nat) : pispbe_node :=
  nth i (node ng) zero_node.

Definition config_at (ng : pispbe_node_group) (i : nat) : pisp_be_tiles_config :=
  nth i (config ng) zero_config.

(** The buffer as [pispbe_isr_jobdone] stamps it. *)
Definition stamped (ts seq_no : Z) (b : pispbe_buffer) : pispbe_buffer :=
  {| vb2_index := vb2_index b; plane_dma_addr := plane_dma_addr b;
     vb2_timestamp := ts; vb_sequence := seq_no |}.

(** ** Register access *)

Section Driver.
Context `{H_config : pisp_be_config_h} `{H_platform : platform}.

Definition read_reg (t : list mmio_event) (offset : Z) : Z * list mmio_event :=
  let v := u32 (readl t offset) in (v, t ++ [MmioRead offset v]).

Definition write_reg (t : list mmio_event) (offset val : Z) : list mmio_event :=
  t ++ [MmioWrite offset (u32 val)].

(** ** Dispatch: [hw_queue_job] *)

(** [for (u = 0; u < N_HW_ADDRESSES; ++u)]: both halves of each address. *)
Definition write_addresses (hw_dma_addrs : list Z) (t : list mmio_event)
    : list mmio_event :=
  fold_left
    (fun t u =>
       let a := nth u hw_dma_addrs 0 in
       let lo := u32 (PISP_BE_IO_INPUT_ADDR0_LO_OFFSET + 8 * Z.of_nat u) in
       let hi := u32 (PISP_BE_IO_INPUT_ADDR0_LO_OFFSET + 8 * Z.of_nat u + 4) in
       write_reg (write_reg t lo (u32 a)) hi (u32 (Z.shiftr a 32)))
    (seq 0 N_HW_ADDRESSES) t.

(** [for (u = begin; u < end; u++)]: the rest of the configuration. *)
Definition write_config (cfg : pisp_be_tiles_config) (t : list mmio_event)
    : list mmio_event :=
  fold_left
    (fun t u =>
       write_reg t (u32 (PISP_BE_CONFIG_BASE_OFFSET + 4 * Z.of_nat u))
         (nth u (config_words cfg) 0))
    (seq config_begin (config_end - config_begin)) t.

(** The read-back loop; [false] is the early [return] on a mismatch. *)
Fixpoint read_back (us : list nat) (hw_dma_addrs : list Z) (t : list mmio_event)
    : bool * list mmio_event :=
  match us with
  | [] => (true, t)
  | u :: us' =>
      let offset := u32 (PISP_BE_IO_INPUT_ADDR0_LO_OFFSET + 8 * Z.of_nat u) in
      let '(lo, t) := read_reg t offset in
      let '(hi, t) := read_reg t (u32 (offset + 4)) in
      let along := u64 (lo + u64 (Z.shiftl hi 32)) in
      if negb (along =? u64 (nth u hw_dma_addrs 0)) then (false, t)
      else read_back us' hw_dma_addrs t
  end.

(** The accesses of [hw_queue_job] that precede the read-back: the status
    read, the addresses, the enables and the rest of the configuration. *)
Definition hw_queue_job_writes (t : list mmio_event) (hw_dma_addrs : list Z)
    (hw_enables : Z * Z) (cfg : pisp_be_tiles_config) : list mmio_event :=
  let '(_, t) := read_reg t PISP_BE_STATUS_OFFSET in
  let t := write_addresses hw_dma_addrs t in
  let t := write_reg t PISP_BE_GLOBAL_BAYER_ENABLE_OFFSET (fst hw_enables) in
  let t := write_reg t PISP_BE_GLOBAL_RGB_ENABLE_OFFSET (snd hw_enables) in
  write_config cfg t.

(** A write that dispatches: the tile pointer or the control register. *)
Definition dispatch_write (e : mmio_event) : bool :=
  match e with
  | MmioWrite offset _ =>
      (offset =? PISP_BE_TILE_ADDR_LO_OFFSET) || (offset =? PISP_BE_TILE_ADDR_HI_OFFSET)
      || (offset =? PISP_BE_CONTROL_OFFSET)
  | MmioRead _ _ => false
  end.

(** [extends t0 t]: [t] is [t0] followed by accesses none of which writes
    the tile pointer or the control register. *)
Definition extends (t0 t : list mmio_event) : Prop :=
  exists evs, t = t0 ++ evs /\ existsb dispatch_write evs = false.

Definition hw_queue_job (t : list mmio_event) (hw_dma_addrs : list Z)
    (hw_enables : Z * Z) (cfg : pisp_be_tiles_config) (tiles : Z) (n_tiles : Z)
    : list mmio_event :=
  (* the status is read for the error message only *)
  let '(_, t) := read_reg t PISP_BE_STATUS_OFFSET in
  let t := write_addresses hw_dma_addrs t in
  let t := write_reg t PISP_BE_GLOBAL_BAYER_ENABLE_OFFSET (fst hw_enables) in
  let t := write_reg t PISP_BE_GLOBAL_RGB_ENABLE_OFFSET (snd hw_enables) in
  let t := write_config cfg t in
  let '(ok, t) := read_back (seq 0 N_HW_ADDRESSES) hw_dma_addrs t in
  if ok then
    let t := write_reg t PISP_BE_TILE_ADDR_LO_OFFSET (u32 tiles) in
    let t := write_reg t PISP_BE_TILE_ADDR_HI_OFFSET (u32 (Z.shiftr tiles 32)) in
    write_reg t PISP_BE_CONTROL_OFFSET (u32 (3 + 65536 * u32 n_tiles))
  else t.

(** ** Sanitiser: [fixup_addrs_enables] *)

(** The branch taken when the Bayer input is enabled. *)
Definition fixup_bayer (addrs : list Z) (e0 : Z) (cfg : pisp_be_tiles_config)
    (buf : list (option pispbe_buffer)) : list Z * Z :=
  let a3 := get_addr (buf_at buf TDN_INPUT_NODE) in
  let addrs := <[3%nat := a3]> addrs in
  let e0 :=
    if (a3 =? 0) || negb (nz (Z.land e0 PISP_BE_BAYER_ENABLE_TDN_INPUT))
       || negb (nz (Z.land e0 PISP_BE_BAYER_ENABLE_TDN))
       || nz (Z.land (tdn_reset cfg) 1)
    then
      let e0 := clear_bits e0 (Z.lor PISP_BE_BAYER_ENABLE_TDN_INPUT
                                     PISP_BE_BAYER_ENABLE_TDN_DECOMPRESS) in
      if negb (nz (Z.land (tdn_reset cfg) 1))
      then clear_bits e0 PISP_BE_BAYER_ENABLE_TDN else e0
    else e0 in
  let a4 := get_addr (buf_at buf STITCH_INPUT_NODE) in
  let addrs := <[4%nat := a4]> addrs in
  let e0 :=
    if (a4 =? 0) || negb (nz (Z.land e0 PISP_BE_BAYER_ENABLE_STITCH_INPUT))
       || negb (nz (Z.land e0 PISP_BE_BAYER_ENABLE_STITCH))
    then clear_bits e0 (Z.lor (Z.lor PISP_BE_BAYER_ENABLE_STITCH_INPUT
                                     PISP_BE_BAYER_ENABLE_STITCH_DECOMPRESS)
                              PISP_BE_BAYER_ENABLE_STITCH)
    else e0 in
  let a5 := get_addr (buf_at buf TDN_OUTPUT_NODE) in
  let addrs := <[5%nat := a5]> addrs in
  let e0 :=
    if a5 =? 0
    then clear_bits e0 (Z.lor PISP_BE_BAYER_ENABLE_TDN_COMPRESS
                              PISP_BE_BAYER_ENABLE_TDN_OUTPUT)
    else e0 in
  let a6 := get_addr (buf_at buf STITCH_OUTPUT_NODE) in
  let addrs := <[6%nat := a6]> addrs in
  let e0 :=
    if a6 =? 0
    then clear_bits e0 (Z.lor PISP_BE_BAYER_ENABLE_STITCH_COMPRESS
                              PISP_BE_BAYER_ENABLE_STITCH_OUTPUT)
    else e0 in
  (addrs, e0).

(** [for (i = 0; i < PISP_BACK_END_NUM_OUTPUTS; i++)]. *)
Definition fixup_outputs (addrs : list Z) (e1 : Z)
    (buf : list (option pispbe_buffer)) (ng : pispbe_node_group) : list Z * Z :=
  fold_left
    (fun '(addrs, e1) i =>
       let '(ret, addrs) :=
         get_addr_3 addrs (7 + 3 * i) (buf_at buf (OUTPUT0_NODE + i))
           (node_at ng (OUTPUT0_NODE + i)) in
       if ret <=? 0
       then (addrs, clear_bits e1 (Z.shiftl PISP_BE_RGB_ENABLE_OUTPUT0 (Z.of_nat i)))
       else (addrs, e1))
    (seq 0 PISP_BACK_END_NUM_OUTPUTS) (addrs, e1).

Definition fixup_addrs_enables (addrs : list Z) (cfg : pisp_be_tiles_config)
    (buf : list (option pispbe_buffer)) (ng : pispbe_node_group)
    : list Z * (Z * Z) :=
  let e0 := bayer_enables cfg in
  let e1 := rgb_enables cfg in
  let '(ret, addrs) :=
    get_addr_3 addrs 0 (buf_at buf MAIN_INPUT_NODE) (node_at ng MAIN_INPUT_NODE) in
  if ret <=? 0 then (addrs, (0, 0))
  else
    let '(addrs, e0) :=
      if nz (Z.land e0 PISP_BE_BAYER_ENABLE_INPUT)
      then fixup_bayer addrs e0 cfg buf
      else (addrs, 0) in
    let '(addrs, e1) := fixup_outputs addrs e1 buf ng in
    let a13 := get_addr (buf_at buf HOG_OUTPUT_NODE) in
    let addrs := <[13%nat := a13]> addrs in
    let e1 := if a13 =? 0 then clear_bits e1 PISP_BE_RGB_ENABLE_HOG else e1 in
    (addrs, (e0, e1)).

(** ** Admission: [pispbe_schedule_internal] *)

(** [list_first_entry_or_null]. *)
Definition list_first_entry_or_null (q : list pispbe_buffer) : option pispbe_buffer :=
  head q.

(** [list_del]: unlink the entry from the list it is on. *)
Fixpoint list_del (b : pispbe_buffer) (q : list pispbe_buffer) : list pispbe_buffer :=
  match q with
  | [] => []
  | x :: q' => if decide (x = b) then q' else x :: list_del b q'
  end.

Definition streaming (ng : pispbe_node_group) (i : nat) : bool :=
  nz (Z.land (streaming_map ng) (BIT i)).

(** The condition that sets [ignore_buffers] for node [i]. *)
Definition ignore_buffers (cfg : pisp_be_tiles_config) (i : nat) : bool :=
  let bayer_en := bayer_enables cfg in
  let rgb_en := rgb_enables cfg in
  (negb (nz (Z.land rgb_en PISP_BE_RGB_ENABLE_OUTPUT0)) && (i =? OUTPUT0_NODE)%nat)
  || (negb (nz (Z.land rgb_en PISP_BE_RGB_ENABLE_OUTPUT1)) && (i =? OUTPUT1_NODE)%nat)
  || (negb (nz (Z.land bayer_en PISP_BE_BAYER_ENABLE_TDN_INPUT)) && (i =? TDN_INPUT_NODE)%nat)
  || (negb (nz (Z.land bayer_en PISP_BE_BAYER_ENABLE_TDN_OUTPUT)) && (i =? TDN_OUTPUT_NODE)%nat)
  || (negb (nz (Z.land bayer_en PISP_BE_BAYER_ENABLE_STITCH_INPUT))
      && (i =? STITCH_INPUT_NODE)%nat)
  || (negb (nz (Z.land bayer_en PISP_BE_BAYER_ENABLE_STITCH_OUTPUT))
      && (i =? STITCH_OUTPUT_NODE)%nat).

(** The first loop over the nodes: peek at the front of each ready queue.
    [None] is the early [return 0]. *)
Fixpoint peek_buffers (ng : pispbe_node_group) (cfg : pisp_be_tiles_config)
    (ids : list nat) (buf : list (option pispbe_buffer))
    : option (list (option pispbe_buffer)) :=
  match ids with
  | [] => Some buf
  | i :: ids' =>
      if (i =? CONFIG_NODE)%nat then peek_buffers ng cfg ids' buf
      else
        let buf := <[i := None]> buf in
        if negb (streaming ng i) then peek_buffers ng cfg ids' buf
        else
          let b := list_first_entry_or_null (ready_queue (node_at ng i)) in
          let buf := <[i := b]> buf in
          match b with
          | None => if ignore_buffers cfg i then peek_buffers ng cfg ids' buf else None
          | Some _ => peek_buffers ng cfg ids' buf
          end
  end.

(** The second loop: unlink each peeked buffer from its ready queue and
    store it in the queued job. *)
Fixpoint pull_buffers (ids : list nat) (buf : list (option pispbe_buffer))
    (nodes : list pispbe_node) (qbuf : list (option pispbe_buffer))
    : list pispbe_node * list (option pispbe_buffer) :=
  match ids with
  | [] => (nodes, qbuf)
  | i :: ids' =>
      let nodes :=
        match buf_at buf i with
        | Some b =>
            let n := nth i nodes zero_node in
            <[i := set_ready_queue (list_del b (ready_queue n)) n]> nodes
        | None => nodes
        end in
      pull_buffers ids' buf nodes (<[i := buf_at buf i]> qbuf)
  end.

(** The local array [hw_dma_addrs] before it is written: 14 values of
    type [dma_addr_t] that the function does not choose. *)
Definition hw_dma_addrs_uninit (t : list mmio_event) : list Z :=
  map (fun u => u64 (stack_garbage t u)) (seq 0 N_HW_ADDRESSES).

(** The enable bits of the TDN and Stitch blocks, inputs and outputs. *)
Definition bayer_auxiliary_enables : Z :=
  fold_right Z.lor 0
    [PISP_BE_BAYER_ENABLE_TDN_INPUT; PISP_BE_BAYER_ENABLE_TDN_DECOMPRESS;
     PISP_BE_BAYER_ENABLE_TDN; PISP_BE_BAYER_ENABLE_TDN_COMPRESS;
     PISP_BE_BAYER_ENABLE_TDN_OUTPUT; PISP_BE_BAYER_ENABLE_STITCH_INPUT;
     PISP_BE_BAYER_ENABLE_STITCH_DECOMPRESS; PISP_BE_BAYER_ENABLE_STITCH;
     PISP_BE_BAYER_ENABLE_STITCH_COMPRESS; PISP_BE_BAYER_ENABLE_STITCH_OUTPUT].

(** The test that makes a job a "bad job". *)
Definition bad_job (i : Z) (hw_enables : Z * Z) : bool :=
  (i <=? 0) || (PISP_BACK_END_NUM_TILES <? i)
  || negb (nz (Z.land (Z.lor (fst hw_enables) (snd hw_enables))
                      PISP_BE_BAYER_ENABLE_INPUT)).

(** The end of [pispbe_schedule_internal], once [hw_lock] is released:
    the buffers are converted to addresses, the tile count is checked and
    the job is queued to the hardware. *)
Definition pispbe_start_job (config_tiles_buffer : pisp_be_tiles_config) (tiles : Z)
    (buf : list (option pispbe_buffer)) (ng : pispbe_node_group) (d : pispbe_dev)
    : pispbe_dev :=
  let '(hw_dma_addrs, hw_enables) :=
    fixup_addrs_enables (hw_dma_addrs_uninit (mmio d)) config_tiles_buffer buf ng in
  let i := num_tiles config_tiles_buffer in
  let i := if bad_job i hw_enables then 0 else i in
  set_mmio (hw_queue_job (mmio d) hw_dma_addrs hw_enables config_tiles_buffer tiles i) d.

(** Returns the C result (non-zero if a job was started) and the state. *)
Definition pispbe_schedule_internal (g : nat) (d : pispbe_dev) : Z * pispbe_dev :=
  match node_group d !! g with
  | None => (0, d)
  | Some ng =>
      let need := Z.lor (BIT CONFIG_NODE) (BIT MAIN_INPUT_NODE) in
      if negb (Z.land need (streaming_map ng) =? need) then (0, d)
      else
        match list_first_entry_or_null (ready_queue (node_at ng CONFIG_NODE)) with
        | None => (0, d)
        | Some cb =>
            let config_index := vb2_index cb in
            let config_tiles_buffer := config_at ng config_index in
            let tiles :=
              u64 (config_dma_addr ng
                   + Z.of_nat config_index * sizeof_tiles_config + offsetof_tiles) in
            match peek_buffers ng config_tiles_buffer (seq 0 PISPBE_NUM_NODES)
                    (<[CONFIG_NODE := Some cb]> (replicate PISPBE_NUM_NODES None)) with
            | None => (0, d)
            | Some buf =>
                let '(nodes, qbuf) :=
                  pull_buffers (seq 0 PISPBE_NUM_NODES) buf (node ng)
                    (job_buf (queued_job d)) in
                let ng := set_node nodes ng in
                let d := set_node_group (<[g := ng]> (node_group d)) d in
                let d := set_queued_job {| job_node_group := Some g; job_buf := qbuf |} d in
                let d := set_hw_busy 1 d in
                (1, pispbe_start_job config_tiles_buffer tiles buf ng d)
            end
        end
  end.

(** ** The scheduler entry points *)

(** [pispbe_schedule_one]. *)
Definition pispbe_schedule_one (g : nat) (d : pispbe_dev) : pispbe_dev :=
  if nz (hw_busy d) then d
  else snd (pispbe_schedule_internal g d).

(** The scan of [pispbe_schedule_any]:
    [for (i = 0; i < PISPBE_NUM_NODE_GROUPS; i++)], left at the first
    group that starts a job. *)
Fixpoint schedule_scan (gs : list nat) (d : pispbe_dev) : pispbe_dev :=
  match gs with
  | [] => d
  | i :: gs' =>
      let '(ret, d') := pispbe_schedule_internal i d in
      if nz ret then d' else schedule_scan gs' d'
  end.

(** [pispbe_schedule_any]. *)
Definition pispbe_schedule_any (clear_hw_busy : Z) (d : pispbe_dev) : pispbe_dev :=
  let d := if nz clear_hw_busy then set_hw_busy 0 d else d in
  if hw_busy d =? 0 then schedule_scan (seq 0 PISPBE_NUM_NODE_GROUPS) d
  else d.

(** ** Completion: [pispbe_isr_jobdone] and [pispbe_isr] *)

(** The loop of [pispbe_isr_jobdone]: stamp and return every buffer of
    the job. *)
Definition complete_buffers (ts seq_no : Z) (buf : list (option pispbe_buffer))
    (log : list (pispbe_buffer * vb2_buffer_state))
    : list (pispbe_buffer * vb2_buffer_state) :=
  fold_left
    (fun log i =>
       match buf_at buf i with
       | Some b =>
           log ++ [(stamped ts seq_no b, VB2_BUF_STATE_DONE)]
       | None => log
       end)
    (seq 0 PISPBE_NUM_NODES) log.

(** [pispbe_isr_jobdone].  The interrupt handler calls it only for a job
    whose node group is set. *)
Definition pispbe_isr_jobdone (job : pispbe_job) (d : pispbe_dev) : pispbe_dev :=
  match job_node_group job with
  | None => d
  | Some g =>
      let ts := ktime_get_ns (length (jobs_done d)) in
      let seq_no := sequence (nth g (node_group d) zero_group) in
      let d := set_vb2_done (complete_buffers ts seq_no (job_buf job) (vb2_done d)) d in
      let d := set_jobs_done (jobs_done d ++ [g]) d in
      set_node_group
        (alter (fun ng => set_sequence (u32 (sequence ng + 1)) ng) g (node_group d)) d
  end.

Inductive irqreturn := IRQ_NONE | IRQ_HANDLED.

Definition job_present (j : pispbe_job) : bool :=
  match job_node_group j with Some _ => true | None => false end.

(** The part of [pispbe_isr] that compares the counters read from the
    hardware with the shadow counters; returns [can_queue_another] and the
    state. *)
Definition pispbe_isr_reconcile (hw_started hw_done : Z) (d : pispbe_dev)
    : Z * pispbe_dev :=
  let d :=
    if job_present (running_job d) && negb (done d =? hw_done) then
      let d := pispbe_isr_jobdone (running_job d) d in
      let d := set_running_job no_job d in
      set_done (u8 (done d + 1)) d
    else d in
  let '(can_queue_another, d) :=
    if negb (started d =? hw_started) then
      let d := set_started (u8 (started d + 1)) d in
      let d :=
        if negb (done d =? hw_done) && job_present (queued_job d) then
          let d := pispbe_isr_jobdone (queued_job d) d in
          set_done (u8 (done d + 1)) d
        else set_running_job (queued_job d) d in
      (1, set_queued_job no_job d)
    else (0, d) in
  let d :=
    if negb (done d =? hw_done) || negb (started d =? hw_started) then
      set_done hw_done (set_started hw_started d)
    else d in
  (can_queue_another, d).

Definition pispbe_isr (d : pispbe_dev) : irqreturn * pispbe_dev :=
  let '(u, t) := read_reg (mmio d) PISP_BE_INTERRUPT_STATUS_OFFSET in
  let d := set_mmio t d in
  if u =? 0 then (IRQ_NONE, d)
  else
    let d := set_mmio (write_reg (mmio d) PISP_BE_INTERRUPT_STATUS_OFFSET u) d in
    let '(u, t) := read_reg (mmio d) PISP_BE_BATCH_STATUS_OFFSET in
    let d := set_mmio t d in
    let hw_done := u8 u in
    let hw_started := u8 (Z.shiftr u 8) in
    let '(can_queue_another, d) := pispbe_isr_reconcile hw_started hw_done d in
    (IRQ_HANDLED, pispbe_schedule_any can_queue_another d).

(** ** Queue operations *)

(** [pispbe_node_buffer_queue] for node [i] of group [g]. *)
Definition pispbe_node_buffer_queue (g i : nat) (b : pispbe_buffer) (d : pispbe_dev)
    : pispbe_dev :=
  let d :=
    set_node_group
      (alter (fun ng =>
                set_node (alter (fun n => set_ready_queue (ready_queue n ++ [b]) n)
                                i (node ng)) ng)
             g (node_group d)) d in
  pispbe_schedule_one g d.

(** [pispbe_node_start_streaming]; [pm_ret] is the result of
    [pm_runtime_resume_and_get].  Returns the C result and the state. *)
Definition pispbe_node_start_streaming (g i : nat) (pm_ret : Z) (d : pispbe_dev)
    : Z * pispbe_dev :=
  if pm_ret <? 0 then (pm_ret, d)
  else
    let d :=
      set_node_group
        (alter (fun ng =>
                  set_sequence 0
                    (set_streaming_map (Z.lor (streaming_map ng) (BIT i)) ng))
               g (node_group d)) d in
    (0, pispbe_schedule_one g d).

(** [pispbe_node_stop_streaming] up to [vb2_wait_for_all_buffers]: every
    buffer of the ready queue is returned in the error state. *)
Definition stop_streaming_drain (g i : nat) (d : pispbe_dev) : pispbe_dev :=
  match node_group d !! g with
  | None => d
  | Some ng =>
      let q := ready_queue (node_at ng i) in
      let d := set_vb2_done (vb2_done d ++ map (fun b => (b, VB2_BUF_STATE_ERROR)) q) d in
      set_node_group
        (alter (fun ng =>
                  set_node (alter (set_ready_queue []) i (node ng)) ng)
               g (node_group d)) d
  end.

(** [pispbe_node_stop_streaming] after the wait: the node leaves the
    streaming map. *)
Definition stop_streaming_finish (g i : nat) (d : pispbe_dev) : pispbe_dev :=
  set_node_group
    (alter (fun ng => set_streaming_map (clear_bits (streaming_map ng) (BIT i)) ng)
           g (node_group d)) d.

(** ** The driver as a transition system *)

(** The calls that change the state of the scheduler.  Stopping a stream
    is two steps, before and after the wait for the buffers in flight. *)
Inductive driver_call :=
| CallBufferQueue (g i : nat) (b : pispbe_buffer)
| CallStartStreaming (g i : nat) (pm_ret : Z)
| CallStopStreamingDrain (g i : nat)
| CallStopStreamingFinish (g i : nat)
| CallIsr.

Definition run_call (c : driver_call) (d : pispbe_dev) : pispbe_dev :=
  match c with
  | CallBufferQueue g i b => pispbe_node_buffer_queue g i b d
  | CallStartStreaming g i pm_ret => snd (pispbe_node_start_streaming g i pm_ret d)
  | CallStopStreamingDrain g i => stop_streaming_drain g i d
  | CallStopStreamingFinish g i => stop_streaming_finish g i d
  | CallIsr => snd (pispbe_isr d)
  end.

(** ** Notions used in the statements *)

(** The enable bit of the block that node [i] serves is not set. *)
Definition feature_bit_unset (cfg : pisp_be_tiles_config) (i : nat) : Prop :=
  (Z.land (rgb_enables cfg) PISP_BE_RGB_ENABLE_OUTPUT0 = 0 /\ i = OUTPUT0_NODE)
  \/ (Z.land (rgb_enables cfg) PISP_BE_RGB_ENABLE_OUTPUT1 = 0 /\ i = OUTPUT1_NODE)
  \/ (Z.land (bayer_enables cfg) PISP_BE_BAYER_ENABLE_TDN_INPUT = 0 /\ i = TDN_INPUT_NODE)
  \/ (Z.land (bayer_enables cfg) PISP_BE_BAYER_ENABLE_TDN_OUTPUT = 0 /\ i = TDN_OUTPUT_NODE)
  \/ (Z.land (bayer_enables cfg) PISP_BE_BAYER_ENABLE_STITCH_INPUT = 0
      /\ i = STITCH_INPUT_NODE)
  \/ (Z.land (bayer_enables cfg) PISP_BE_BAYER_ENABLE_STITCH_OUTPUT = 0
      /\ i = STITCH_OUTPUT_NODE).

(** What [pispbe_isr] reads from the interrupt status register, and from
    the batch status register after it has acknowledged the interrupt. *)
Definition irq_status_read (d : pispbe_dev) : Z :=
  fst (read_reg (mmio d) PISP_BE_INTERRUPT_STATUS_OFFSET).

Definition batch_status_read (d : pispbe_dev) : Z :=
  fst (read_reg
         (write_reg (snd (read_reg (mmio d) PISP_BE_INTERRUPT_STATUS_OFFSET))
            PISP_BE_INTERRUPT_STATUS_OFFSET (irq_status_read d))
         PISP_BE_BATCH_STATUS_OFFSET).

(** The sequence counters after the jobs of the groups [completed] are
    done, one after the other. *)
Definition bump_sequences (completed : list nat) (counters : list Z) : list Z :=
  fold_left (fun l g => alter (fun s => u32 (s + 1)) g l) completed counters.

(** Node [i] does not stand in the way of an admission. *)
Definition node_ready (ng : pispbe_node_group) (cfg : pisp_be_tiles_config) (i : nat)
    : bool :=
  (i =? CONFIG_NODE)%nat || negb (streaming ng i) || ignore_buffers cfg i
  || match ready_queue (node_at ng i) with [] => false | _ :: _ => true end.

End Driver.

(** The number of jobs in the two slots. *)
Definition jobs_in_flight (d : pispbe_dev) : nat :=
  (if job_present (queued_job d) then 1 else 0)
  + (if job_present (running_job d) then 1 else 0).

(** The state in which the ready queue of node [i] of group [g] is [q]. *)
Definition with_ready_queue (g i : nat) (q : list pispbe_buffer) (d : pispbe_dev)
    : pispbe_dev :=
  set_node_group
    (alter (fun ng => set_node (alter (set_ready_queue q) i (node ng)) ng)
           g (node_group d)) d.


(** * More of the driver

    Further notions for the scheduler, and further functions of pisp_be.c
    in the same conventions: the probe of the hardware ([hw_init]), the
    format helpers ([verify_be_pix_format], [set_plane_params]), the
    validation of a configuration ([pisp_be_validate_config]) and the set-up
    of buffers ([pispbe_node_queue_setup], [pispbe_node_buffer_prepare]).
    Constants of headers that are not part of the driver file are members
    of a class; the error numbers and [ALIGN], whose meaning the kernel
    fixes, are written out. *)

(** ** Notions used in the further statements *)

(** Every bit set in [y] is set in [x]. *)
Definition bits_within (y x : Z) : Prop :=
  forall n, 0 <= n -> Z.testbit y n = true -> Z.testbit x n = true.

(** Whether output [i] can be used: a buffer, a format, at least one plane. *)
Definition output_usable (buf : list (option pispbe_buffer)) (ng : pispbe_node_group)
    (i : nat) : Prop :=
  buf_at buf (OUTPUT0_NODE + i) <> None
  /\ pisp_format (node_at ng (OUTPUT0_NODE + i)) <> None
  /\ 0 < fmt_num_planes (node_at ng (OUTPUT0_NODE + i)).

(** The ready queue of node [i] of group [g]. *)
Definition queue_of (d : pispbe_dev) (g i : nat) : list pispbe_buffer :=
  ready_queue (node_at (nth g (node_group d) zero_group) i).



(** The jobs in the two slots, the running one first. *)
Definition present_jobs (d : pispbe_dev) : list pispbe_job :=
  List.filter job_present [running_job d; queued_job d].

(** The buffers of a job, in the order of the nodes. *)
Definition job_buffers (j : pispbe_job) : list pispbe_buffer :=
  omap (buf_at (job_buf j)) (seq 0 PISPBE_NUM_NODES).

(** What names a buffer, whatever its stamps. *)
Definition buffer_id (b : pispbe_buffer) : nat * list Z :=
  (vb2_index b, plane_dma_addr b).

(** The buffers returned so far, by name, with their states. *)
Definition returned_ids (log : list (pispbe_buffer * vb2_buffer_state))
    : list (nat * list Z * vb2_buffer_state) :=
  map (fun e => (buffer_id (fst e), snd e)) log.

(** The buffers of the jobs [js], as they are returned when done. *)
Definition done_ids (js : list pispbe_job) : list (nat * list Z * vb2_buffer_state) :=
  concat (map (fun j => map (fun b => (buffer_id b, VB2_BUF_STATE_DONE)) (job_buffers j))
              js).

(** The busy flag is set exactly while a job waits in the queued slot. *)
Definition slot_invariant (d : pispbe_dev) : Prop :=
  hw_busy d <> 0 <-> job_present (queued_job d) = true.

(** A sequence of calls, one after the other. *)
Definition run_calls `{H_config : pisp_be_config_h} `{H_platform : platform}
    (cs : list driver_call) (d : pispbe_dev) : pispbe_dev :=
  fold_left (fun d c => run_call c d) cs d.


(** ** Probing the hardware: [hw_init] *)

Definition PISP_BE_VERSION_OFFSET : Z := 0x0.
Definition PISP_BE_INTERRUPT_EN_OFFSET : Z := 0x18.
Definition PISP_BE_AXI_OFFSET : Z := 0x20.
Definition PISP_BE_VERSION_2712C1 : Z := 0x02252700.
Definition PISP_BE_VERSION_MINOR_BITS : Z := 0xF.

(** Error numbers of the kernel. *)
Definition EIO : Z := 5.
Definition EBUSY : Z := 16.
Definition ENODEV : Z := 19.
Definition EINVAL : Z := 22.

Section Probe.
Context `{H_platform : platform}.

(** [hw_init]; returns the C result, [pispbe->hw_version] and the state. *)
Definition hw_init (d : pispbe_dev) : Z * Z * pispbe_dev :=
  let '(u, t) := read_reg (mmio d) PISP_BE_VERSION_OFFSET in
  let d := set_mmio t d in
  let hw_version := u in
  if negb (clear_bits u PISP_BE_VERSION_MINOR_BITS =? PISP_BE_VERSION_2712C1) then
    (- ENODEV, hw_version, d)
  else
    let d := set_mmio (write_reg (mmio d) PISP_BE_INTERRUPT_STATUS_OFFSET 0xFFFFFFFF) d in
    let '(u, t) := read_reg (mmio d) PISP_BE_BATCH_STATUS_OFFSET in
    let d := set_mmio t d in
    let d := set_done (u8 u) d in
    let d := set_started (u8 (Z.shiftr u 8)) d in
    let '(u, t) := read_reg (mmio d) PISP_BE_STATUS_OFFSET in
    let d := set_mmio t d in
    if nz u || negb (done d =? started d) then (- EBUSY, hw_version, d)
    else
      let d := set_mmio (write_reg (mmio d) PISP_BE_AXI_OFFSET 0x32703200) d in
      let d := set_mmio (write_reg (mmio d) PISP_BE_INTERRUPT_EN_OFFSET 0x00000003) d in
      (0, hw_version, d).

End Probe.

(** ** Formats *)

(** [struct v4l2_plane_pix_format]. *)
Record v4l2_plane_pix_format := {
  sizeimage : Z;
  bytesperline : Z
}.

(** [struct v4l2_pix_format_mplane], as far as the driver reads or writes
    it in the functions below. *)
Record v4l2_pix_format_mplane := {
  width : Z;
  height : Z;
  plane_fmt : list v4l2_plane_pix_format;   (* VIDEO_MAX_PLANES entries *)
  num_planes : Z
}.

Definition zero_plane : v4l2_plane_pix_format := {| sizeimage := 0; bytesperline := 0 |}.

Definition plane_at (f : v4l2_pix_format_mplane) (i : nat) : v4l2_plane_pix_format :=
  nth i (plane_fmt f) zero_plane.

Definition set_plane_fmt (ps : list v4l2_plane_pix_format) (f : v4l2_pix_format_mplane)
    : v4l2_pix_format_mplane :=
  {| width := width f; height := height f; plane_fmt := ps; num_planes := num_planes f |}.

(** The loop of [verify_be_pix_format] over the planes. *)
Fixpoint verify_planes (f : v4l2_pix_format_mplane) (planes : list nat) : Z :=
  match planes with
  | [] => 0
  | i :: planes' =>
      let p := plane_at f i in
      if (bytesperline p =? 0) || (sizeimage p =? 0) then - EINVAL
      else verify_planes f planes'
  end.

(** [verify_be_pix_format]. *)
Definition verify_be_pix_format (f : v4l2_pix_format_mplane) : Z :=
  let nplanes := num_planes f in
  if (width f =? 0) || (height f =? 0) then - EINVAL
  else if (nplanes =? 0) || (Z.of_nat MAX_PLANES <? nplanes) then - EINVAL
  else verify_planes f (seq 0 (Z.to_nat nplanes)).

(** [ALIGN(x, a)] of the kernel for an [unsigned int] [x]:
    [(x + (a - 1)) & ~(a - 1)]. *)
Definition ALIGN (x a : Z) : Z :=
  let mask := u32 (a - 1) in
  clear_bits (u32 (x + mask)) mask.

(** [struct pisp_be_format], as far as [set_plane_params] reads it. *)
Record pisp_be_format_params := {
  factors : pisp_be_format;   (* plane_factor *)
  bit_depth : Z;
  align : Z
}.

(** First loop of [set_plane_params]. *)
Definition total_plane_factor (fmt : pisp_be_format_params) : Z :=
  fold_left (fun total i => u32 (total + factor_at (factors fmt) i)) (seq 0 MAX_PLANES) 0.

(** One turn of the second loop of [set_plane_params]: the new values of
    plane [i], whose values are [p]. *)
Definition plane_params (f : v4l2_pix_format_mplane) (fmt : pisp_be_format_params)
    (i : nat) (p : v4l2_plane_pix_format) : v4l2_plane_pix_format :=
  let nplanes := num_planes f in
  let bpl := Z.shiftr (u32 (width f * bit_depth fmt)) 3 in
  let bpl := ALIGN (Z.max (bytesperline p) bpl) (align fmt) in
  let plane_size :=
    u32 (u32 (bpl * height f)
         * (if 1 <? nplanes then factor_at (factors fmt) i else total_plane_factor fmt)) in
  let plane_size := Z.max (sizeimage p) (Z.shiftr plane_size 3) in
  {| sizeimage := plane_size; bytesperline := bpl |}.

(** [set_plane_params]. *)
Definition set_plane_params (f : v4l2_pix_format_mplane) (fmt : pisp_be_format_params)
    : v4l2_pix_format_mplane :=
  fold_left
    (fun f i =>
       set_plane_fmt (<[i := plane_params f fmt i (plane_at f i)]> (plane_fmt f)) f)
    (seq 0 (Z.to_nat (num_planes f))) f.

(** ** Validation of a configuration: [pisp_be_validate_config] *)

(** Further constants of pisp_be_config.h. *)
Class pisp_be_formats_h := {
  PISP_BE_RGB_ENABLE_INPUT : Z;
  (** the macro [PISP_BE_RGB_ENABLE_OUTPUT(i)] *)
  PISP_BE_RGB_ENABLE_OUTPUT : nat -> Z;
  PISP_IMAGE_FORMAT_WALLPAPER_ROLL : Z;
  PISP_IMAGE_FORMAT_SAMPLING_420 : Z
}.

(** [struct pisp_image_format_config], as far as the validation reads it. *)
Record pisp_image_format_config := {
  image_height : Z;
  image_format : Z;
  stride : Z;
  stride2 : Z
}.

(** The formats in [struct pisp_be_config] that the validation reads,
    beside the enables. *)
Record pisp_be_config_formats := {
  tdn_output_format : pisp_image_format_config;
  stitch_output_format : pisp_image_format_config;
  output_format : list pisp_image_format_config   (* output_format[j].image *)
}.

Definition zero_image : pisp_image_format_config :=
  {| image_height := 0; image_format := 0; stride := 0; stride2 := 0 |}.

Definition zero_pix_mp : v4l2_pix_format_mplane :=
  {| width := 0; height := 0; plane_fmt := []; num_planes := 0 |}.

Section Validation.
Context `{H_config : pisp_be_config_h} `{H_formats : pisp_be_formats_h}.

(** The checks on the TDN and on the stitch output: [None] when they
    pass, the error otherwise.  [bpl] and [size] are [unsigned int]: the
    stride is converted, the product is taken modulo 2^32. *)
Definition validate_bayer_output (fmt : v4l2_pix_format_mplane)
    (image : pisp_image_format_config) : option Z :=
  let bpl := u32 (stride image) in
  let size := u32 (bpl * image_height image) in
  if bytesperline (plane_at fmt 0) <? bpl then Some (- EINVAL)
  else if sizeimage (plane_at fmt 0) <? size then Some (- EINVAL)
  else None.

(** [bpl] and [size] of plane [i] in the inner loop of the output
    checks. *)
Definition output_bpl (image : pisp_image_format_config) (i : nat) : Z :=
  u32 (if (i =? 0)%nat then stride image else stride2 image).

Definition output_size (image : pisp_image_format_config) (i : nat) : Z :=
  let size := u32 (output_bpl image i * image_height image) in
  if nz (Z.land (image_format image) PISP_IMAGE_FORMAT_SAMPLING_420)
  then Z.shiftr size 1 else size.

(** The inner loop of the output checks, over the planes [i]. *)
Fixpoint validate_output_planes (fmt : v4l2_pix_format_mplane)
    (image : pisp_image_format_config) (planes : list nat) : option Z :=
  match planes with
  | [] => None
  | i :: planes' =>
      let bpl := output_bpl image i in
      let size := output_size image i in
      if bytesperline (plane_at fmt i) <? bpl then Some (- EINVAL)
      else if sizeimage (plane_at fmt i) <? size then Some (- EINVAL)
      else validate_output_planes fmt image planes'
  end.

(** The outer loop of the output checks, over the outputs [j]; [formats]
    are the formats of the nodes of the group. *)
Fixpoint validate_outputs (formats : list v4l2_pix_format_mplane) (rgb_enables : Z)
    (cf : pisp_be_config_formats) (outputs : list nat) : option Z :=
  match outputs with
  | [] => None
  | j :: outputs' =>
      let image := nth j (output_format cf) zero_image in
      if negb (nz (Z.land rgb_enables (PISP_BE_RGB_ENABLE_OUTPUT j))) then
        validate_outputs formats rgb_enables cf outputs'
      else if nz (Z.land (image_format image) PISP_IMAGE_FORMAT_WALLPAPER_ROLL) then
        validate_outputs formats rgb_enables cf outputs'
      else
        let fmt := nth (OUTPUT0_NODE + j) formats zero_pix_mp in
        match validate_output_planes fmt image (seq 0 (Z.to_nat (num_planes fmt))) with
        | Some e => Some e
        | None => validate_outputs formats rgb_enables cf outputs'
        end
  end.

(** [pisp_be_validate_config]; [formats] are [node[i].format.fmt.pix_mp] of
    the nodes of the group, [config] and [cf] the configuration. *)
Definition pisp_be_validate_config (formats : list v4l2_pix_format_mplane)
    (config : pisp_be_tiles_config) (cf : pisp_be_config_formats) : Z :=
  let bayer_enables := bayer_enables config in
  let rgb_enables := rgb_enables config in
  if Bool.eqb (negb (nz (Z.land bayer_enables PISP_BE_BAYER_ENABLE_INPUT)))
              (negb (nz (Z.land rgb_enables PISP_BE_RGB_ENABLE_INPUT)))
  then - EIO
  else
    match (if nz (Z.land bayer_enables PISP_BE_BAYER_ENABLE_TDN_OUTPUT)
           then validate_bayer_output (nth TDN_OUTPUT_NODE formats zero_pix_mp)
                  (tdn_output_format cf)
           else None) with
    | Some e => e
    | None =>
        match (if nz (Z.land bayer_enables PISP_BE_BAYER_ENABLE_STITCH_OUTPUT)
               then validate_bayer_output (nth STITCH_OUTPUT_NODE formats zero_pix_mp)
                      (stitch_output_format cf)
               else None) with
        | Some e => e
        | None =>
            match validate_outputs formats rgb_enables cf
                    (seq 0 PISP_BACK_END_NUM_OUTPUTS) with
            | Some e => e
            | None => 0
            end
        end
    end.

End Validation.

(** A plane of the node format is large enough for a stride and a size. *)
Definition plane_fits (p : v4l2_plane_pix_format) (bpl size : Z) : Prop :=
  bpl <= bytesperline p /\ size <= sizeimage p.

(** ** Buffer set-up: [pispbe_node_queue_setup] and [pispbe_node_buffer_prepare] *)

(** The values of [enum v4l2_buf_type] that the driver names. *)
Inductive v4l2_buf_type :=
| V4L2_BUF_TYPE_VIDEO_CAPTURE
| V4L2_BUF_TYPE_VIDEO_OUTPUT
| V4L2_BUF_TYPE_VIDEO_CAPTURE_MPLANE
| V4L2_BUF_TYPE_VIDEO_OUTPUT_MPLANE
| V4L2_BUF_TYPE_META_CAPTURE
| V4L2_BUF_TYPE_META_OUTPUT.

Definition NODE_IS_META (buf_type : v4l2_buf_type) : bool :=
  match buf_type with
  | V4L2_BUF_TYPE_META_OUTPUT | V4L2_BUF_TYPE_META_CAPTURE => true
  | _ => false
  end.

Definition NODE_IS_OUTPUT (buf_type : v4l2_buf_type) : bool :=
  match buf_type with
  | V4L2_BUF_TYPE_META_OUTPUT | V4L2_BUF_TYPE_VIDEO_OUTPUT
  | V4L2_BUF_TYPE_VIDEO_OUTPUT_MPLANE => true
  | _ => false
  end.

Definition NODE_IS_CAPTURE (buf_type : v4l2_buf_type) : bool :=
  match buf_type with
  | V4L2_BUF_TYPE_META_CAPTURE | V4L2_BUF_TYPE_VIDEO_CAPTURE
  | V4L2_BUF_TYPE_VIDEO_CAPTURE_MPLANE => true
  | _ => false
  end.

Definition NODE_IS_MPLANE (buf_type : v4l2_buf_type) : bool :=
  match buf_type with
  | V4L2_BUF_TYPE_VIDEO_OUTPUT_MPLANE | V4L2_BUF_TYPE_VIDEO_CAPTURE_MPLANE => true
  | _ => false
  end.

(** The buffer types of [node_desc], by node. *)
Definition node_desc : list v4l2_buf_type :=
  [V4L2_BUF_TYPE_VIDEO_OUTPUT_MPLANE;    (* MAIN_INPUT_NODE *)
   V4L2_BUF_TYPE_VIDEO_OUTPUT_MPLANE;    (* TDN_INPUT_NODE *)
   V4L2_BUF_TYPE_VIDEO_OUTPUT_MPLANE;    (* STITCH_INPUT_NODE *)
   V4L2_BUF_TYPE_META_CAPTURE;           (* HOG_OUTPUT_NODE *)
   V4L2_BUF_TYPE_VIDEO_CAPTURE_MPLANE;   (* OUTPUT0_NODE *)
   V4L2_BUF_TYPE_VIDEO_CAPTURE_MPLANE;   (* OUTPUT1_NODE *)
   V4L2_BUF_TYPE_VIDEO_CAPTURE_MPLANE;   (* TDN_OUTPUT_NODE *)
   V4L2_BUF_TYPE_VIDEO_CAPTURE_MPLANE;   (* STITCH_OUTPUT_NODE *)
   V4L2_BUF_TYPE_META_OUTPUT].           (* CONFIG_NODE *)

(** [struct v4l2_format]: the member of the union that an image node
    uses, and the buffer size of the member that a metadata node uses. *)
Record v4l2_format := {
  pix_mp : v4l2_pix_format_mplane;
  meta_buffersize : Z
}.

(** A constant of videobuf2-core.h. *)
Class videobuf2_h := {
  VB2_MAX_FRAME : Z
}.

Section BufferSetup.
Context `{H_config : pisp_be_config_h} `{H_formats : pisp_be_formats_h}
        `{H_videobuf2 : videobuf2_h}.

Definition PISP_BE_NUM_CONFIG_BUFFERS : Z := VB2_MAX_FRAME.

(** The loop of [pispbe_node_queue_setup] over the planes; returns the
    result and [sizes]. *)
Fixpoint queue_setup_planes (f : v4l2_pix_format_mplane) (planes : list nat)
    (sizes : list Z) : Z * list Z :=
  match planes with
  | [] => (0, sizes)
  | i :: planes' =>
      let size := sizeimage (plane_at f i) in
      if nz (nth i sizes 0) && (nth i sizes 0 <? size) then (- EINVAL, sizes)
      else queue_setup_planes f planes' (<[i := size]> sizes)
  end.

(** [pispbe_node_queue_setup] for the node [id] of buffer type [buf_type]
    and format [format]; returns the result, [*nbuffers], [*nplanes] and
    [sizes]. *)
Definition pispbe_node_queue_setup (id : nat) (buf_type : v4l2_buf_type)
    (format : v4l2_format) (nbuffers : Z) (sizes : list Z) : Z * (Z * Z * list Z) :=
  let nplanes := 1 in
  if NODE_IS_MPLANE buf_type then
    let nplanes := num_planes (pix_mp format) in
    let '(ret, sizes) :=
      queue_setup_planes (pix_mp format) (seq 0 (Z.to_nat nplanes)) sizes in
    (ret, (nbuffers, nplanes, sizes))
  else if NODE_IS_META buf_type then
    let sizes := <[0%nat := meta_buffersize format]> sizes in
    let nbuffers :=
      if (id =? CONFIG_NODE)%nat then Z.min nbuffers PISP_BE_NUM_CONFIG_BUFFERS
      else nbuffers in
    (0, (nbuffers, nplanes, sizes))
  else (0, (nbuffers, nplanes, sizes)).

(** The size that [pispbe_node_buffer_prepare] asks of plane [i]. *)
Definition prepare_size (buf_type : v4l2_buf_type) (format : v4l2_format) (i : nat) : Z :=
  if NODE_IS_MPLANE buf_type then sizeimage (plane_at (pix_mp format) i)
  else meta_buffersize format.

(** The loop of [pispbe_node_buffer_prepare] over the planes;
    [plane_sizes] are the values of [vb2_plane_size], [payload] the
    payloads set by [vb2_set_plane_payload]. *)
Fixpoint prepare_planes (buf_type : v4l2_buf_type) (format : v4l2_format)
    (plane_sizes : list Z) (planes : list nat) (payload : list Z) : Z * list Z :=
  match planes with
  | [] => (0, payload)
  | i :: planes' =>
      let size := prepare_size buf_type format i in
      if nth i plane_sizes 0 <? size then (- EINVAL, payload)
      else prepare_planes buf_type format plane_sizes planes' (<[i := size]> payload)
  end.

(** [pispbe_node_buffer_prepare] for a buffer of index [index] whose first
    plane holds the configuration [src], [src_formats]; [formats] are the
    formats of the nodes of the group and [config] is
    [node_group->config].  Returns the result, the payloads and the
    configurations. *)
Definition pispbe_node_buffer_prepare (id : nat) (buf_type : v4l2_buf_type)
    (format : v4l2_format) (formats : list v4l2_pix_format_mplane)
    (plane_sizes : list Z) (index : nat)
    (src : pisp_be_tiles_config) (src_formats : pisp_be_config_formats)
    (payload : list Z) (config : list pisp_be_tiles_config)
    : Z * list Z * list pisp_be_tiles_config :=
  let num_planes := if NODE_IS_MPLANE buf_type then num_planes (pix_mp format) else 1 in
  let '(ret, payload) :=
    prepare_planes buf_type format plane_sizes (seq 0 (Z.to_nat num_planes)) payload in
  if nz ret then (ret, payload, config)
  else if (id =? CONFIG_NODE)%nat then
    let config := <[index := src]> config in
    (pisp_be_validate_config formats src src_formats, payload, config)
  else (0, payload, config).

End BufferSetup.
(** * Concrete values for running the model *)

(** An instance of the header: the enable bits and the tile bound as the
    mainline pisp_be_config.h has them, with a short configuration window
    so that traces stay small. *)
Definition sample_config_h : pisp_be_config_h :=
  {| PISP_BE_BAYER_ENABLE_INPUT := 0x000001;
     PISP_BE_BAYER_ENABLE_TDN_INPUT := 0x000010;
     PISP_BE_BAYER_ENABLE_TDN_DECOMPRESS := 0x000020;
     PISP_BE_BAYER_ENABLE_TDN := 0x000040;
     PISP_BE_BAYER_ENABLE_TDN_COMPRESS := 0x000080;
     PISP_BE_BAYER_ENABLE_TDN_OUTPUT := 0x000100;
     PISP_BE_BAYER_ENABLE_STITCH_INPUT := 0x000800;
     PISP_BE_BAYER_ENABLE_STITCH_DECOMPRESS := 0x001000;
     PISP_BE_BAYER_ENABLE_STITCH := 0x002000;
     PISP_BE_BAYER_ENABLE_STITCH_COMPRESS := 0x004000;
     PISP_BE_BAYER_ENABLE_STITCH_OUTPUT := 0x008000;
     PISP_BE_RGB_ENABLE_OUTPUT0 := 0x040000;
     PISP_BE_RGB_ENABLE_OUTPUT1 := 0x080000;
     PISP_BE_RGB_ENABLE_HOG := 0x200000;
     PISP_BACK_END_NUM_TILES := 64;
     config_begin := 30;
     config_end := 32;
     sizeof_tiles_config := 0x2000;
     offsetof_tiles := 0 |}.

(** A buffer with one plane at DMA address [addr]. *)
Definition sample_buffer (index : nat) (addr : Z) : pispbe_buffer :=
  {| vb2_index := index; plane_dma_addr := [addr]; vb2_timestamp := 0;
     vb_sequence := 0 |}.

(** A node with a single-plane buffer layout whose format has three image
    planes with the factors 4/2/2 (in eighths). *)
Definition sample_node (q : list pispbe_buffer) (bytesperline height : Z) : pispbe_node :=
  {| ready_queue := q; fmt_num_planes := 1; fmt_bytesperline := bytesperline;
     fmt_height := height; pisp_format := Some {| plane_factor := [4; 2; 2] |} |}.

(** A configuration that requests the given enables. *)
Definition sample_tiles_config (bayer rgb tiles : Z) : pisp_be_tiles_config :=
  {| bayer_enables := bayer; rgb_enables := rgb; tdn_reset := 0;
     num_tiles := tiles; config_words := [] |}.

(** A node group with the given ready queues (one per node), every node
    with the layout of [sample_node] at 64 x 16. *)
Definition sample_group (queues : list (list pispbe_buffer)) (map : Z)
    (cfgs : list pisp_be_tiles_config) (seq_no : Z) : pispbe_node_group :=
  {| node := List.map (fun q => sample_node q 64 16) queues;
     streaming_map := map; config := cfgs; config_dma_addr := 0x40000000;
     sequence := seq_no |}.

(** The value last written to a register, [dflt] if there is none. *)
Fixpoint last_write (t : list mmio_event) (offset dflt : Z) : Z :=
  match t with
  | [] => dflt
  | MmioWrite o v :: t' => last_write t' offset (if o =? offset then v else dflt)
  | MmioRead _ _ :: t' => last_write t' offset dflt
  end.

(** A device whose interrupt status reads [irq] and whose batch status
    reads [batch]; its other registers return what was last written when
    [echo] is set, and 0 otherwise (as when the RAMs of the ISP are off). *)
Definition sample_platform (irq batch : Z) (echo : bool) : platform :=
  {| readl := fun t offset =>
       if offset =? PISP_BE_INTERRUPT_STATUS_OFFSET then irq
       else if offset =? PISP_BE_BATCH_STATUS_OFFSET then batch
       else if offset =? PISP_BE_STATUS_OFFSET then 0
       else if echo then last_write t offset 0 else 0;
     ktime_get_ns := fun n => 1000 * Z.of_nat n;
     stack_garbage := fun _ _ => 0 |}.

(** A job of group [g] made of the given buffers. *)
Definition sample_job (g : nat) (buf : list (option pispbe_buffer)) : pispbe_job :=
  {| job_node_group := Some g; job_buf := buf |}.

Definition sample_dev (groups : list pispbe_node_group) (busy : Z)
    (queued running : pispbe_job) (hw_done hw_started : Z) : pispbe_dev :=
  {| node_group := groups; hw_busy := busy; queued_job := queued;
     running_job := running; done := hw_done; started := hw_started;
     mmio := []; vb2_done := []; jobs_done := [] |}.

(** A node group in which nothing streams. *)
Definition idle_group : pispbe_node_group := sample_group (repeat [] 9) 0 [] 0.

Definition input_buffer : pispbe_buffer := sample_buffer 0 0x10000000.
Definition config_buffer : pispbe_buffer := sample_buffer 0 0x20000000.
Definition output_buffer : pispbe_buffer := sample_buffer 0 0x30000000.

(** A node group whose main input, output 0 and config nodes stream (the
    other nodes do not), with one buffer ready on the main input and on the
    config node, and the given ready queue on output 0. *)
Definition streaming_group (output0_queue : list pispbe_buffer)
    (cfg : pisp_be_tiles_config) (seq_no : Z) : pispbe_node_group :=
  sample_group
    [[input_buffer]; []; []; []; output0_queue; []; []; []; [config_buffer]]
    (Z.lor (BIT MAIN_INPUT_NODE) (Z.lor (BIT OUTPUT0_NODE) (BIT CONFIG_NODE)))
    [cfg] seq_no.

(** Output 0 is enabled in the configuration, streams, and has no buffer. *)
Definition dev_output0_missing : pispbe_dev :=
  sample_dev [streaming_group [] (sample_tiles_config 0x1 0x40000 1) 0; idle_group]
    0 no_job no_job 0 0.

(** Output 0 streams and has a buffer, but is not enabled in the
    configuration. *)
Definition dev_output0_unused : pispbe_dev :=
  sample_dev [streaming_group [output_buffer] (sample_tiles_config 0x1 0 1) 0; idle_group]
    0 no_job no_job 0 0.

(** A job could be admitted, but its configuration has no tiles. *)
Definition dev_no_tiles : pispbe_dev :=
  sample_dev [streaming_group [] (sample_tiles_config 0x1 0 0) 0; idle_group]
    0 no_job no_job 0 0.

(** The same, with the busy flag set. *)
Definition dev_busy : pispbe_dev :=
  sample_dev [streaming_group [] (sample_tiles_config 0x1 0 0) 0; idle_group]
    1 no_job no_job 0 0.

(** Two jobs of group 0. *)
Definition job_first : pispbe_job :=
  sample_job 0 [Some (sample_buffer 0 0x10000000); None; None; None; None; None; None;
                None; Some (sample_buffer 0 0x20000000)].

Definition job_second : pispbe_job :=
  sample_job 0 [Some (sample_buffer 1 0x10100000); None; None; None; None; None; None;
                None; Some (sample_buffer 1 0x20002000)].

(** Shadow counters (3, 3), a job queued, none running. *)
Definition dev_queued_only : pispbe_dev :=
  sample_dev [idle_group; idle_group] 1 job_second no_job 3 3.

(** Shadow counters (3, 3), a job queued and a job running. *)
Definition dev_queued_and_running : pispbe_dev :=
  sample_dev [idle_group; idle_group] 1 job_second job_first 3 3.

(** Group 0 has completed five frames and streams on its main input and
    config nodes. *)
Definition dev_five_frames : pispbe_dev :=
  sample_dev
    [sample_group (repeat [] 9) (Z.lor (BIT MAIN_INPUT_NODE) (BIT CONFIG_NODE)) [] 5;
     idle_group]
    0 no_job no_job 7 7.


(** ** Notions used in the statements about an echoing device *)

(** One turn of the loop of [write_addresses]. *)
Definition write_address (addrs : list Z) (t : list mmio_event) (u : nat)
    : list mmio_event :=
  let a := nth u addrs 0 in
  let lo := u32 (PISP_BE_IO_INPUT_ADDR0_LO_OFFSET + 8 * Z.of_nat u) in
  let hi := u32 (PISP_BE_IO_INPUT_ADDR0_LO_OFFSET + 8 * Z.of_nat u + 4) in
  write_reg (write_reg t lo (u32 a)) hi (u32 (Z.shiftr a 32)).

(** The address registers hold the two halves of the addresses [addrs]. *)
Definition holds_addresses (addrs : list Z) (t : list mmio_event) : Prop :=
  forall u, (u < N_HW_ADDRESSES)%nat ->
    last_write t (0x40 + 8 * Z.of_nat u) 0 = u32 (nth u addrs 0)
    /\ last_write t (0x44 + 8 * Z.of_nat u) 0 = u32 (Z.shiftr (nth u addrs 0) 32).

(** ** More concrete values *)

(** A configuration that asks for a temporal-denoise reset: the Bayer
    input, the TDN input and the TDN block are enabled. *)
Definition sample_tdn_reset_config : pisp_be_tiles_config :=
  {| bayer_enables := 0x51; rgb_enables := 0; tdn_reset := 1; num_tiles := 1;
     config_words := [] |}.

(** The buffers of a job with a main input and a config buffer. *)
Definition sample_job_buffers : list (option pispbe_buffer) :=
  [Some input_buffer; None; None; None; None; None; None; None; Some config_buffer].

(** A device for [hw_init]: the version, batch status and status
    registers read the given values. *)
Definition probe_platform (version batch status : Z) : platform :=
  {| readl := fun t offset =>
       if offset =? PISP_BE_VERSION_OFFSET then version
       else if offset =? PISP_BE_BATCH_STATUS_OFFSET then batch
       else if offset =? PISP_BE_STATUS_OFFSET then status
       else 0;
     ktime_get_ns := fun n => 1000 * Z.of_nat n;
     stack_garbage := fun _ _ => 0 |}.

(** A device that has just been allocated. *)
Definition dev_unprobed : pispbe_dev :=
  sample_dev [idle_group; idle_group] 0 no_job no_job 0 0.

(** An 8-bit format with three planes in one buffer, lines aligned to 64
    bytes. *)
Definition sample_format_params : pisp_be_format_params :=
  {| factors := {| plane_factor := [8; 2; 2] |}; bit_depth := 8; align := 64 |}.

(** A request for 1920 x 1080 in one plane that leaves the line length
    and the image size to the driver. *)
Definition sample_request : v4l2_pix_format_mplane :=
  {| width := 1920; height := 1080; plane_fmt := repeat zero_plane 8; num_planes := 1 |}.

(** Values for the further constants of the header, as in the mainline
    pisp_be_config.h and pisp_common.h. *)
Definition sample_formats_h : pisp_be_formats_h :=
  {| PISP_BE_RGB_ENABLE_INPUT := 0x000001;
     PISP_BE_RGB_ENABLE_OUTPUT := fun i => Z.shiftl 0x040000 (Z.of_nat i);
     PISP_IMAGE_FORMAT_WALLPAPER_ROLL := 0x20000000;
     PISP_IMAGE_FORMAT_SAMPLING_420 := 0x00000200 |}.

(** Node formats of a group: every image node at 1920 x 1080 with lines of
    1920 bytes and an image of 3110400 bytes. *)
Definition sample_node_formats : list v4l2_pix_format_mplane :=
  repeat {| width := 1920; height := 1080;
            plane_fmt := {| sizeimage := 3110400; bytesperline := 1920 |}
                         :: repeat zero_plane 7;
            num_planes := 1 |} 9.

(** The formats of a configuration whose output 0 has the given stride. *)
Definition sample_config_formats (stride0 : Z) : pisp_be_config_formats :=
  {| tdn_output_format := zero_image; stitch_output_format := zero_image;
     output_format := [{| image_height := 1080; image_format := 0x200;
                          stride := stride0; stride2 := stride0 / 2 |};
                       zero_image] |}.

(** An image node whose format is [sample_request] as [set_plane_params]
    completes it for [sample_format_params]. *)
Definition sample_image_node : pispbe_node :=
  {| ready_queue := []; fmt_num_planes := 1; fmt_bytesperline := 1920;
     fmt_height := 1080; pisp_format := Some {| plane_factor := [8; 2; 2] |} |}.
(** * Properties *)

(** ** Arithmetic and array lemmas *)

Lemma u32_small x : 0 <= x < 2 ^ 32 -> u32 x = x.
Proof. intros Hx. unfold u32. now apply Z.mod_small. Qed.

Lemma u64_small x : 0 <= x < 2 ^ 64 -> u64 x = x.
Proof. intros Hx. unfold u64. now apply Z.mod_small. Qed.

Lemma u32_range x : 0 <= u32 x < 2 ^ 32.
Proof. unfold u32. apply Z.mod_pos_bound. lia. Qed.

Lemma nth_insert_eq {A} (l : list A) (i : nat) (x d : A) :
  (i < length l)%nat -> nth i (<[i := x]> l) d = x.
Proof.
  intros Hi. rewrite nth_lookup, list_lookup_insert_eq by exact Hi. reflexivity.
Qed.

Lemma nth_insert_ne {A} (l : list A) (i j : nat) (x d : A) :
  i <> j -> nth j (<[i := x]> l) d = nth j l d.
Proof.
  intros Hij. rewrite !nth_lookup, list_lookup_insert_ne by exact Hij. reflexivity.
Qed.

Ltac nth_insert_simpl :=
  repeat first
    [ rewrite nth_insert_eq by (rewrite ?length_insert; lia)
    | rewrite nth_insert_ne by lia ].

Lemma nz_true x : nz x = true <-> x <> 0.
Proof. unfold nz. rewrite negb_true_iff, Z.eqb_neq. reflexivity. Qed.

Lemma nz_false x : nz x = false <-> x = 0.
Proof. unfold nz. rewrite negb_false_iff, Z.eqb_eq. reflexivity. Qed.

(** ** Plane-address derivation *)

Section PlaneAddresses.
Variables (a : list Z) (off : nat) (b : pispbe_buffer) (n : pispbe_node).
Variables (f : pisp_be_format) (f0 f1 f2 : Z).
Hypothesis Hfmt : pisp_format n = Some f.
Hypothesis Hfactors : plane_factor f = [f0; f1; f2].
Hypothesis Hone_plane : fmt_num_planes n = 1.
Hypothesis Hlen : (off + 2 < length a)%nat.

(** With one filled plane the function writes plane 0 from the buffer and
    derives planes 1 and 2, each in the arithmetic of its C type. *)
Lemma get_addr_3_one_plane :
  f1 <> 0 -> f2 <> 0 ->
  let size := u32 (fmt_bytesperline n * fmt_height n) in
  let base := vb2_dma_contig_plane_dma_addr b 0 in
  let a' := snd (get_addr_3 a off (Some b) n) in
  fst (get_addr_3 a off (Some b) n) = 1
  /\ nth off a' 0 = base
  /\ nth (off + 1) a' 0 = u64 (base + Z.shiftr (u32 (size * u32 f0)) 3)
  /\ nth (off + 2) a' 0 = u64 (base + Z.shiftr (u32 (size * u32 (u32 f0 + f1))) 3).
Proof.
  intros Hf1 Hf2. unfold get_addr_3. rewrite Hfmt, Hone_plane.
  cbn [filled_planes].
  change ((Z.of_nat 0 <? 1) && (Z.of_nat 0 <? 3)) with true.
  change ((Z.of_nat 1 <? 1) && (Z.of_nat 1 <? 3)) with false.
  cbn beta iota zeta. unfold MAX_PLANES. cbn [derived_planes]. unfold MAX_PLANES.
  unfold factor_at. rewrite Hfactors. cbn [nth].
  change (1 <? 3)%nat with true. change (2 <? 3)%nat with true.
  change (3 <? 3)%nat with false.
  apply nz_true in Hf1, Hf2. rewrite Hf1, Hf2. cbn [andb fst snd].
  replace (off + 0)%nat with off by lia.
  rewrite Z.add_0_l.
  assert (Hl0 : (off < length a)%nat) by lia.
  repeat split; nth_insert_simpl; reflexivity.
Qed.

End PlaneAddresses.

(** C9, with the range condition the code needs, plane by plane.  For a
    format with three image planes (the factors of planes 1 and 2 non-zero)
    given to [get_addr_3] with one filled V4L2 plane, plane [p] (1 or 2) is
    placed at plane 0's address plus
    [(bytesperline * height * cumulativeFactor_p) / 8], provided the
    product for that plane fits the 32-bit [unsigned int] in which the
    function computes it and the sum for that plane fits the 64-bit
    address.  The condition on plane 2 is not needed for plane 1. *)
Theorem get_addr_3_derived_addresses
    (a : list Z) (off : nat) (b : pispbe_buffer) (n : pispbe_node)
    (f : pisp_be_format) (f0 f1 f2 : Z) :
  pisp_format n = Some f ->
  plane_factor f = [f0; f1; f2] ->
  fmt_num_planes n = 1 ->
  (off + 2 < length a)%nat ->
  0 <= f0 -> 0 < f1 -> 0 < f2 ->
  0 <= fmt_bytesperline n * fmt_height n ->
  0 <= vb2_dma_contig_plane_dma_addr b 0 ->
  (fmt_bytesperline n * fmt_height n * f0 < 2 ^ 32 ->
   vb2_dma_contig_plane_dma_addr b 0
     + fmt_bytesperline n * fmt_height n * f0 / 8 < 2 ^ 64 ->
   nth (off + 1) (snd (get_addr_3 a off (Some b) n)) 0
   = vb2_dma_contig_plane_dma_addr b 0
     + fmt_bytesperline n * fmt_height n * f0 / 8)
  /\ (fmt_bytesperline n * fmt_height n * (f0 + f1) < 2 ^ 32 ->
      vb2_dma_contig_plane_dma_addr b 0
        + fmt_bytesperline n * fmt_height n * (f0 + f1) / 8 < 2 ^ 64 ->
      nth (off + 2) (snd (get_addr_3 a off (Some b) n)) 0
      = vb2_dma_contig_plane_dma_addr b 0
        + fmt_bytesperline n * fmt_height n * (f0 + f1) / 8).
Proof.
  intros Hfmt Hfac Hnp Hlen Hf0 Hf1 Hf2 Hsize Hbase.
  destruct (get_addr_3_one_plane a off b n f f0 f1 f2 Hfmt Hfac Hnp Hlen)
    as (_ & _ & H1 & H2); [lia | lia |].
  remember (fmt_bytesperline n * fmt_height n) as size eqn:Esize.
  remember (vb2_dma_contig_plane_dma_addr b 0) as base eqn:Ebase.
  clear Esize Ebase.
  assert (Hzero : forall x y, size = 0 -> base + size * y / 8 < 2 ^ 64 ->
            u64 (base + Z.shiftr (u32 (u32 size * x)) 3) = base + size * y / 8).
  { intros x y -> Htop. rewrite Z.mul_0_l in Htop. change (0 / 8) with 0 in Htop.
    change (u32 0) with 0. rewrite !Z.mul_0_l. change (u32 0) with 0.
    change (Z.shiftr 0 3) with 0. change (0 / 8) with 0.
    rewrite u64_small by lia. reflexivity. }
  split.
  - intros Hprod Htop. rewrite H1.
    destruct (Z.eq_dec size 0) as [Hs0 | Hs0]; [now apply Hzero |].
    destruct (Z.eq_dec f0 0) as [-> | Hnz].
    + rewrite Z.mul_0_r in Htop. change (0 / 8) with 0 in Htop.
      change (u32 0) with 0. rewrite !Z.mul_0_r. change (u32 0) with 0.
      change (Z.shiftr 0 3) with 0. change (0 / 8) with 0.
      rewrite u64_small by lia. reflexivity.
    + assert (Hsz : 0 <= size < 2 ^ 32) by nia.
      assert (Hf0' : 0 <= f0 < 2 ^ 32) by nia.
      assert (Hd0 : 0 <= size * f0 / 8) by (apply Z.div_pos; nia).
      rewrite (u32_small size), (u32_small f0), (u32_small (size * f0)) by nia.
      rewrite Z.shiftr_div_pow2 by lia. change (2 ^ 3) with 8.
      rewrite u64_small by lia. reflexivity.
  - intros Hprod Htop. rewrite H2.
    destruct (Z.eq_dec size 0) as [Hs0 | Hs0].
    + now apply Hzero.
    + assert (Hsz : 0 <= size < 2 ^ 32) by nia.
      assert (Hsum : 0 <= f0 + f1 < 2 ^ 32) by nia.
      assert (Hd0 : 0 <= size * (f0 + f1) / 8) by (apply Z.div_pos; nia).
      rewrite (u32_small size), (u32_small f0), (u32_small (f0 + f1)) by lia.
      rewrite (u32_small (size * (f0 + f1))) by nia.
      rewrite Z.shiftr_div_pow2 by lia. change (2 ^ 3) with 8.
      rewrite u64_small by lia. reflexivity.
Qed.

(** With the factors 4/2/2 and a 1920 x 1080 base plane, plane 1 lies at
    [base + size * 4 / 8] and plane 2 at [base + size * 6 / 8].  With a
    65536 x 12000 base plane the product for plane 1 fits 32 bits and the
    product for plane 2 does not: plane 1 still lies at
    [base + size * 4 / 8]. *)
Lemma get_addr_3_derived_addresses_1080p :
  nth 1 (snd (get_addr_3 [0; 0; 0] 0 (Some (sample_buffer 0 0x10000000))
                (sample_node [] 1920 1080))) 0
    = 0x10000000 + 1920 * 1080 * 4 / 8
  /\ nth 2 (snd (get_addr_3 [0; 0; 0] 0 (Some (sample_buffer 0 0x10000000))
                   (sample_node [] 1920 1080))) 0
    = 0x10000000 + 1920 * 1080 * (4 + 2) / 8
  /\ 65536 * 12000 * 4 < 2 ^ 32 <= 65536 * 12000 * (4 + 2)
  /\ nth 1 (snd (get_addr_3 [0; 0; 0] 0 (Some (sample_buffer 0 0x10000000))
                   (sample_node [] 65536 12000))) 0
    = 0x10000000 + 65536 * 12000 * 4 / 8.
Proof.
  destruct (get_addr_3_derived_addresses [0; 0; 0] 0 (sample_buffer 0 0x10000000)
              (sample_node [] 1920 1080) {| plane_factor := [4; 2; 2] |} 4 2 2)
    as [H1 H2]; try reflexivity; try (vm_compute; first [reflexivity | discriminate]).
  destruct (get_addr_3_derived_addresses [0; 0; 0] 0 (sample_buffer 0 0x10000000)
              (sample_node [] 65536 12000) {| plane_factor := [4; 2; 2] |} 4 2 2)
    as [H3 _]; try reflexivity; try (vm_compute; first [reflexivity | discriminate]).
  split; [apply H1; vm_compute; reflexivity |].
  split; [apply H2; vm_compute; reflexivity |].
  split; [lia |]. apply H3; vm_compute; reflexivity.
Defined.

(** Without the range condition C9 does not hold: when the base plane
    size no longer fits 32 bits the offsets wrap;
    with 65536 bytes per line and 65536 lines the size wraps to 0 and
    plane 1 is placed on plane 0. *)
Lemma get_addr_3_size_wraps :
  nth 1 (snd (get_addr_3 [0; 0; 0] 0 (Some (sample_buffer 0 0x10000000))
                (sample_node [] 65536 65536))) 0
    = 0x10000000
  /\ 0x10000000 + 65536 * 65536 * 4 / 8 = 0x90000000
  /\ nth 1 (snd (get_addr_3 [0; 0; 0] 0 (Some (sample_buffer 0 0x10000000))
                   (sample_node [] 65536 65536))) 0
     <> 0x10000000 + 65536 * 65536 * 4 / 8.
Proof. vm_compute. repeat split; congruence. Qed.

(** ** The sanitiser *)

Section Sanitiser.
Context `{H_config : pisp_be_config_h}.

Lemma fixup_addrs_enables_no_input addrs cfg buf ng :
  fst (get_addr_3 addrs 0 (buf_at buf MAIN_INPUT_NODE) (node_at ng MAIN_INPUT_NODE)) <= 0 ->
  snd (fixup_addrs_enables addrs cfg buf ng) = (0, 0).
Proof.
  intros Hret. unfold fixup_addrs_enables.
  destruct (get_addr_3 addrs 0 _ _) as [ret addrs']. cbn [fst] in Hret.
  apply Z.leb_le in Hret. rewrite Hret. reflexivity.
Qed.

(** C3.  When the main-input buffer is absent, or the main-input node has
    no valid pisp format, both enable bitmasks come out zero, whatever the
    configuration requests. *)
Theorem fixup_addrs_enables_bayer_gate addrs cfg buf ng :
  buf_at buf MAIN_INPUT_NODE = None
  \/ pisp_format (node_at ng MAIN_INPUT_NODE) = None ->
  snd (fixup_addrs_enables addrs cfg buf ng) = (0, 0).
Proof.
  intros Habsent. apply fixup_addrs_enables_no_input.
  unfold get_addr_3. destruct Habsent as [-> | ->].
  - cbn. lia.
  - destruct (buf_at buf MAIN_INPUT_NODE); cbn; lia.
Qed.

(** Without the Bayer input bit the whole Bayer bitmask is cleared. *)
Lemma fixup_addrs_enables_no_bayer addrs cfg buf ng :
  Z.land (bayer_enables cfg) PISP_BE_BAYER_ENABLE_INPUT = 0 ->
  fst (snd (fixup_addrs_enables addrs cfg buf ng)) = 0.
Proof.
  intros Hbit. unfold fixup_addrs_enables.
  destruct (get_addr_3 addrs 0 _ _) as [ret addrs'].
  destruct (ret <=? 0); [reflexivity |].
  apply nz_false in Hbit. rewrite Hbit.
  destruct (fixup_outputs addrs' (rgb_enables cfg) buf ng) as [addrs'' e1].
  reflexivity.
Qed.

(** C4.  When the Bayer input bit is not set in the requested Bayer
    enables, no TDN or Stitch bit is set in the sanitised Bayer enables. *)
Theorem fixup_addrs_enables_auxiliary_gate addrs cfg buf ng :
  Z.land (bayer_enables cfg) PISP_BE_BAYER_ENABLE_INPUT = 0 ->
  Z.land (fst (snd (fixup_addrs_enables addrs cfg buf ng)))
         bayer_auxiliary_enables = 0.
Proof.
  intros Hbit. rewrite fixup_addrs_enables_no_bayer by exact Hbit.
  apply Z.land_0_l.
Qed.

End Sanitiser.

(** The main input is missing while the configuration asks for everything. *)
Lemma fixup_addrs_enables_bayer_gate_sample :
  snd (fixup_addrs_enables (H_config := sample_config_h) (repeat 0 14)
         (sample_tiles_config 0xffffffff 0xffffffff 1) (repeat None 9)
         (sample_group (repeat [] 9) 0 [] 0)) = (0, 0).
Proof.
  apply (fixup_addrs_enables_bayer_gate (H_config := sample_config_h)).
  left. reflexivity.
Defined.

(** TDN and Stitch are requested with all their buffers present, but the
    Bayer input bit is not. *)
Lemma fixup_addrs_enables_auxiliary_gate_sample :
  Z.land
    (fst (snd (fixup_addrs_enables (H_config := sample_config_h) (repeat 0 14)
                 (sample_tiles_config 0xfffffffe 0xffffffff 1)
                 (map (fun i => Some (sample_buffer i 0x10000000)) (seq 0 9))
                 (sample_group (repeat [] 9) 0 [] 0))))
    (bayer_auxiliary_enables (H_config := sample_config_h)) = 0.
Proof.
  apply (fixup_addrs_enables_auxiliary_gate (H_config := sample_config_h)).
  reflexivity.
Defined.

(** ** Dispatch *)

Section Dispatch.
Context `{H_config : pisp_be_config_h} `{H_platform : platform}.

Lemma extends_refl t : extends t t.
Proof. exists []. now rewrite app_nil_r. Qed.

Lemma extends_trans t0 t1 t2 : extends t0 t1 -> extends t1 t2 -> extends t0 t2.
Proof.
  intros (e1 & -> & H1) (e2 & -> & H2). exists (e1 ++ e2). split.
  - now rewrite app_assoc.
  - rewrite existsb_app, H1, H2. reflexivity.
Qed.

Lemma extends_read t offset : extends t (snd (read_reg t offset)).
Proof. unfold read_reg. cbn [snd]. eexists. split; [reflexivity | reflexivity]. Qed.

Lemma extends_write t offset v :
  0x40 <= offset -> extends t (write_reg t offset v).
Proof.
  intros Hoff. unfold write_reg. eexists. split; [reflexivity |].
  cbn [existsb dispatch_write orb].
  unfold PISP_BE_TILE_ADDR_LO_OFFSET, PISP_BE_TILE_ADDR_HI_OFFSET, PISP_BE_CONTROL_OFFSET.
  rewrite !orb_false_r, !orb_false_iff, !Z.eqb_neq. lia.
Qed.

Lemma extends_fold {A} (step : list mmio_event -> A -> list mmio_event)
    (P : A -> Prop) (l : list A) :
  (forall t x, P x -> extends t (step t x)) ->
  Forall P l -> forall t, extends t (fold_left step l t).
Proof.
  intros Hstep Hl. induction Hl as [| x l Hx _ IH]; intros t; cbn [fold_left].
  - apply extends_refl.
  - eapply extends_trans; [apply Hstep, Hx | apply IH].
Qed.

Lemma addr_offset_lo (u : nat) :
  (u < N_HW_ADDRESSES)%nat ->
  u32 (PISP_BE_IO_INPUT_ADDR0_LO_OFFSET + 8 * Z.of_nat u) = 0x40 + 8 * Z.of_nat u.
Proof.
  unfold N_HW_ADDRESSES, PISP_BE_IO_INPUT_ADDR0_LO_OFFSET, PISP_BE_CONFIG_BASE_OFFSET.
  intros Hu. apply u32_small. lia.
Qed.

Lemma addr_offset_hi (u : nat) :
  (u < N_HW_ADDRESSES)%nat ->
  u32 (PISP_BE_IO_INPUT_ADDR0_LO_OFFSET + 8 * Z.of_nat u + 4) = 0x44 + 8 * Z.of_nat u.
Proof.
  unfold N_HW_ADDRESSES, PISP_BE_IO_INPUT_ADDR0_LO_OFFSET, PISP_BE_CONFIG_BASE_OFFSET.
  intros Hu. rewrite u32_small; lia.
Qed.

Lemma write_addresses_extends addrs t : extends t (write_addresses addrs t).
Proof.
  unfold write_addresses.
  apply (extends_fold _ (fun u => (u < N_HW_ADDRESSES)%nat)).
  - intros t' u Hu. rewrite addr_offset_lo, addr_offset_hi by exact Hu.
    eapply extends_trans; [apply extends_write | apply extends_write]; lia.
  - apply Forall_forall. intros u Hu%elem_of_seq. lia.
Qed.

Lemma write_config_extends cfg t :
  PISP_BE_CONFIG_BASE_OFFSET + 4 * Z.of_nat config_end <= 2 ^ 32 ->
  extends t (write_config cfg t).
Proof.
  intros Hend. unfold write_config.
  apply (extends_fold _ (fun u => (u < config_end)%nat)).
  - intros t' u Hu. apply extends_write.
    unfold PISP_BE_CONFIG_BASE_OFFSET in *. rewrite u32_small; lia.
  - apply Forall_forall. intros u Hu%elem_of_seq. lia.
Qed.

Lemma hw_queue_job_writes_extends t addrs en cfg :
  PISP_BE_CONFIG_BASE_OFFSET + 4 * Z.of_nat config_end <= 2 ^ 32 ->
  extends t (hw_queue_job_writes t addrs en cfg).
Proof.
  intros Hend. unfold hw_queue_job_writes.
  pose proof (extends_read t PISP_BE_STATUS_OFFSET) as Hrd.
  destruct (read_reg t PISP_BE_STATUS_OFFSET) as [st t1]. cbn [snd] in Hrd.
  eapply extends_trans; [| apply write_config_extends; exact Hend].
  eapply extends_trans;
    [| apply extends_write; unfold PISP_BE_GLOBAL_RGB_ENABLE_OFFSET,
         PISP_BE_CONFIG_BASE_OFFSET; lia].
  eapply extends_trans;
    [| apply extends_write; unfold PISP_BE_GLOBAL_BAYER_ENABLE_OFFSET,
         PISP_BE_CONFIG_BASE_OFFSET; lia].
  eapply extends_trans; [exact Hrd | apply write_addresses_extends].
Qed.

Lemma read_back_cons u us addrs t :
  read_back (u :: us) addrs t =
    let off := u32 (PISP_BE_IO_INPUT_ADDR0_LO_OFFSET + 8 * Z.of_nat u) in
    let lo := u32 (readl t off) in
    let t1 := t ++ [MmioRead off lo] in
    let hi := u32 (readl t1 (u32 (off + 4))) in
    let t2 := t1 ++ [MmioRead (u32 (off + 4)) hi] in
    if u64 (lo + u64 (Z.shiftl hi 32)) =? u64 (nth u addrs 0)
    then read_back us addrs t2 else (false, t2).
Proof.
  cbn [read_back]. unfold read_reg. cbn zeta.
  now destruct (_ =? _).
Qed.

(** What the read-back loop leaves in the trace: reads only; and when it
    fails, the trace ends with the two reads of an address that differs
    from the one written. *)
Lemma read_back_spec us addrs t :
  exists evs,
    snd (read_back us addrs t) = t ++ evs
    /\ existsb dispatch_write evs = false
    /\ (fst (read_back us addrs t) = false ->
        exists evs' u lo hi,
          evs = evs' ++ [MmioRead (u32 (PISP_BE_IO_INPUT_ADDR0_LO_OFFSET + 8 * Z.of_nat u)) lo;
                         MmioRead (u32 (u32 (PISP_BE_IO_INPUT_ADDR0_LO_OFFSET
                                             + 8 * Z.of_nat u) + 4)) hi]
          /\ In u us
          /\ u64 (lo + u64 (Z.shiftl hi 32)) <> u64 (nth u addrs 0)).
Proof.
  revert t. induction us as [| u us IH]; intros t.
  - exists []. cbn [read_back fst snd]. rewrite app_nil_r. repeat split; discriminate.
  - rewrite read_back_cons. cbn zeta.
    set (off := u32 (PISP_BE_IO_INPUT_ADDR0_LO_OFFSET + 8 * Z.of_nat u)).
    set (lo := u32 (readl t off)).
    set (t1 := t ++ [MmioRead off lo]).
    set (hi := u32 (readl t1 (u32 (off + 4)))).
    set (t2 := t1 ++ [MmioRead (u32 (off + 4)) hi]).
    destruct (u64 (lo + u64 (Z.shiftl hi 32)) =? u64 (nth u addrs 0)) eqn:Hcmp.
    + destruct (IH t2) as (evs & Hsnd & Hclean & Hfail).
      exists ([MmioRead off lo; MmioRead (u32 (off + 4)) hi] ++ evs).
      split; [| split].
      * rewrite Hsnd. unfold t2, t1. now rewrite <- !app_assoc.
      * rewrite existsb_app, Hclean. reflexivity.
      * intros Hf. destruct (Hfail Hf) as (evs' & u' & lo' & hi' & -> & Hin & Hne).
        exists ([MmioRead off lo; MmioRead (u32 (off + 4)) hi] ++ evs'), u', lo', hi'.
        split; [now rewrite <- app_assoc | split; [now right | exact Hne]].
    + exists [MmioRead off lo; MmioRead (u32 (off + 4)) hi].
      cbn [fst snd]. split; [| split].
      * unfold t2, t1. now rewrite <- app_assoc.
      * reflexivity.
      * intros _. exists [], u, lo, hi.
        split; [reflexivity | split; [now left |]].
        now apply Z.eqb_neq.
Qed.


End Dispatch.

(** ** Admission *)

Section Admission.
Context `{H_config : pisp_be_config_h} `{H_platform : platform}.

(** A failed attempt returns the state it was given. *)
Lemma pispbe_schedule_internal_fail g d :
  fst (pispbe_schedule_internal g d) = 0 ->
  snd (pispbe_schedule_internal g d) = d.
Proof.
  unfold pispbe_schedule_internal.
  destruct (node_group d !! g) as [ng |]; [| reflexivity].
  destruct (negb _); [reflexivity |].
  destruct (list_first_entry_or_null _) as [cb |]; [| reflexivity].
  destruct (peek_buffers _ _ _ _) as [buf |]; [| reflexivity].
  destruct (pull_buffers _ _ _ _) as [nodes qbuf].
  cbn [fst]. discriminate.
Qed.

(** The dispatch touches the register trace only. *)
Lemma pispbe_start_job_frame cfg tiles buf ng d :
  node_group (pispbe_start_job cfg tiles buf ng d) = node_group d
  /\ hw_busy (pispbe_start_job cfg tiles buf ng d) = hw_busy d
  /\ queued_job (pispbe_start_job cfg tiles buf ng d) = queued_job d
  /\ running_job (pispbe_start_job cfg tiles buf ng d) = running_job d
  /\ done (pispbe_start_job cfg tiles buf ng d) = done d
  /\ started (pispbe_start_job cfg tiles buf ng d) = started d
  /\ vb2_done (pispbe_start_job cfg tiles buf ng d) = vb2_done d
  /\ jobs_done (pispbe_start_job cfg tiles buf ng d) = jobs_done d.
Proof.
  unfold pispbe_start_job.
  destruct (fixup_addrs_enables _ _ _ _) as [addrs en]. repeat split.
Qed.

(** What a successful attempt has found and what it leaves. *)
Lemma pispbe_schedule_internal_inv g d :
  fst (pispbe_schedule_internal g d) <> 0 ->
  exists ng cb buf nodes qbuf,
    node_group d !! g = Some ng
    /\ Z.land (Z.lor (BIT CONFIG_NODE) (BIT MAIN_INPUT_NODE)) (streaming_map ng)
       = Z.lor (BIT CONFIG_NODE) (BIT MAIN_INPUT_NODE)
    /\ list_first_entry_or_null (ready_queue (node_at ng CONFIG_NODE)) = Some cb
    /\ peek_buffers ng (config_at ng (vb2_index cb)) (seq 0 PISPBE_NUM_NODES)
         (<[CONFIG_NODE := Some cb]> (replicate PISPBE_NUM_NODES None)) = Some buf
    /\ pull_buffers (seq 0 PISPBE_NUM_NODES) buf (node ng) (job_buf (queued_job d))
       = (nodes, qbuf)
    /\ pispbe_schedule_internal g d
       = (1,
          pispbe_start_job (config_at ng (vb2_index cb))
            (u64 (config_dma_addr ng
                  + Z.of_nat (vb2_index cb) * sizeof_tiles_config + offsetof_tiles))
            buf (set_node nodes ng)
            (set_hw_busy 1
               (set_queued_job {| job_node_group := Some g; job_buf := qbuf |}
                  (set_node_group (<[g := set_node nodes ng]> (node_group d)) d)))).
Proof.
  unfold pispbe_schedule_internal.
  destruct (node_group d !! g) as [ng |]; [| cbn [fst]; congruence].
  destruct (Z.land _ (streaming_map ng) =? _) eqn:Hmap; cbn [negb];
    [| cbn [fst]; congruence].
  destruct (list_first_entry_or_null _) as [cb |] eqn:Hcb; [| cbn [fst]; congruence].
  destruct (peek_buffers _ _ _ _) as [buf |] eqn:Hpeek; [| cbn [fst]; congruence].
  destruct (pull_buffers _ _ _ _) as [nodes qbuf] eqn:Hpull.
  intros _. exists ng, cb, buf, nodes, qbuf.
  apply Z.eqb_eq in Hmap. repeat split; assumption || reflexivity.
Qed.

Lemma pispbe_schedule_internal_ret g d :
  fst (pispbe_schedule_internal g d) = 0 \/ fst (pispbe_schedule_internal g d) = 1.
Proof.
  destruct (Z.eq_dec (fst (pispbe_schedule_internal g d)) 0) as [H0 | Hn0];
    [now left | right].
  destruct (pispbe_schedule_internal_inv g d Hn0)
    as (ng & cb & buf & nodes & qbuf & _ & _ & _ & _ & _ & ->).
  reflexivity.
Qed.

(** An attempt, failed or not, leaves the running slot, the shadow
    counters and the completion logs alone; a successful one sets the busy
    flag. *)
Lemma pispbe_schedule_internal_frame g d :
  let d' := snd (pispbe_schedule_internal g d) in
  running_job d' = running_job d /\ done d' = done d /\ started d' = started d
  /\ vb2_done d' = vb2_done d /\ jobs_done d' = jobs_done d
  /\ sequence <$> node_group d' = sequence <$> node_group d
  /\ streaming_map <$> node_group d' = streaming_map <$> node_group d.
Proof.
  cbn zeta.
  destruct (Z.eq_dec (fst (pispbe_schedule_internal g d)) 0) as [H0 | Hn0].
  - rewrite pispbe_schedule_internal_fail by exact H0. repeat split.
  - destruct (pispbe_schedule_internal_inv g d Hn0)
      as (ng & cb & buf & nodes & qbuf & Hg & _ & _ & _ & _ & ->).
    cbn [snd].
    destruct (pispbe_start_job_frame (config_at ng (vb2_index cb))
                (u64 (config_dma_addr ng
                      + Z.of_nat (vb2_index cb) * sizeof_tiles_config + offsetof_tiles))
                buf (set_node nodes ng)
                (set_hw_busy 1
                   (set_queued_job {| job_node_group := Some g; job_buf := qbuf |}
                      (set_node_group (<[g := set_node nodes ng]> (node_group d)) d))))
      as (-> & _ & _ & -> & -> & -> & -> & ->).
    cbn [running_job done started vb2_done jobs_done node_group
         set_hw_busy set_queued_job set_node_group].
    repeat split.
    + rewrite list_fmap_insert. apply list_insert_id.
      rewrite list_lookup_fmap, Hg. reflexivity.
    + rewrite list_fmap_insert. apply list_insert_id.
      rewrite list_lookup_fmap, Hg. reflexivity.
Qed.

Lemma pispbe_schedule_internal_busy g d :
  fst (pispbe_schedule_internal g d) <> 0 ->
  hw_busy (snd (pispbe_schedule_internal g d)) = 1
  /\ job_node_group (queued_job (snd (pispbe_schedule_internal g d))) = Some g.
Proof.
  intros Hn0. destruct (pispbe_schedule_internal_inv g d Hn0)
    as (ng & cb & buf & nodes & qbuf & _ & _ & _ & _ & _ & ->).
  cbn [snd].
  destruct (pispbe_start_job_frame (config_at ng (vb2_index cb))
              (u64 (config_dma_addr ng
                    + Z.of_nat (vb2_index cb) * sizeof_tiles_config + offsetof_tiles))
              buf (set_node nodes ng)
              (set_hw_busy 1
                 (set_queued_job {| job_node_group := Some g; job_buf := qbuf |}
                    (set_node_group (<[g := set_node nodes ng]> (node_group d)) d))))
    as (_ & -> & -> & _).
  split; reflexivity.
Qed.

(** *** The two causes of a failed attempt *)

Lemma peek_buffers_blocked ng cfg i ids buf :
  In i ids -> i <> CONFIG_NODE -> streaming ng i = true ->
  ignore_buffers cfg i = false -> ready_queue (node_at ng i) = [] ->
  peek_buffers ng cfg ids buf = None.
Proof.
  intros Hin Hcfg Hstr Hign Hq. revert buf.
  induction ids as [| j ids IH]; intros buf; [destruct Hin |].
  cbn [peek_buffers].
  destruct (Nat.eq_dec j i) as [-> | Hji].
  - apply Nat.eqb_neq in Hcfg. rewrite Hcfg, Hstr, Hq, Hign. reflexivity.
  - assert (Hin' : In i ids) by (destruct Hin; [congruence | assumption]).
    destruct (j =? CONFIG_NODE)%nat; [now apply IH |].
    destruct (negb (streaming ng j)); [now apply IH |].
    destruct (list_first_entry_or_null _); [now apply IH |].
    destruct (ignore_buffers cfg j); [now apply IH | reflexivity].
Qed.

(** C2.  A failed admission attempt changes nothing: the state after the
    call, with every ready queue, the queued-job slot and the busy flag, is
    the state before it.  The attempt fails when no config buffer is queued,
    and when a streaming node whose buffer is required has an empty ready
    queue. *)
Theorem pispbe_schedule_internal_all_or_nothing g d :
  (fst (pispbe_schedule_internal g d) = 0 ->
   snd (pispbe_schedule_internal g d) = d)
  /\ (forall ng,
        node_group d !! g = Some ng ->
        ready_queue (node_at ng CONFIG_NODE) = [] ->
        pispbe_schedule_internal g d = (0, d))
  /\ (forall ng cb q i,
        node_group d !! g = Some ng ->
        ready_queue (node_at ng CONFIG_NODE) = cb :: q ->
        (i < PISPBE_NUM_NODES)%nat -> i <> CONFIG_NODE ->
        streaming ng i = true ->
        ignore_buffers (config_at ng (vb2_index cb)) i = false ->
        ready_queue (node_at ng i) = [] ->
        pispbe_schedule_internal g d = (0, d)).
Proof.
  split; [apply pispbe_schedule_internal_fail | split].
  - intros ng Hg Hq. unfold pispbe_schedule_internal. rewrite Hg, Hq.
    cbn [list_first_entry_or_null head]. now destruct (negb _).
  - intros ng cb q i Hg Hq Hi Hcfg Hstr Hign Hqi.
    unfold pispbe_schedule_internal. rewrite Hg, Hq.
    cbn [list_first_entry_or_null head].
    rewrite (peek_buffers_blocked ng _ i); try assumption.
    + now destruct (negb _).
    + apply in_seq. lia.
Qed.

(** *** The scheduler entry points *)

Lemma schedule_scan_two d :
  schedule_scan (seq 0 PISPBE_NUM_NODE_GROUPS) d =
    if nz (fst (pispbe_schedule_internal 0 d))
    then snd (pispbe_schedule_internal 0 d)
    else snd (pispbe_schedule_internal 1 d).
Proof.
  cbn [seq PISPBE_NUM_NODE_GROUPS schedule_scan].
  pose proof (pispbe_schedule_internal_fail 0 d) as Hfail.
  destruct (pispbe_schedule_internal 0 d) as [r0 d0]. cbn [fst snd] in *.
  destruct (nz r0) eqn:Hr0; [reflexivity |].
  apply nz_false in Hr0. rewrite (Hfail Hr0).
  destruct (pispbe_schedule_internal 1 d) as [r1 d1]. cbn [fst snd] in *.
  now destruct (nz r1).
Qed.

(** C8.  No job is admitted while the busy flag is set:
    [pispbe_schedule_one] returns at once, and [pispbe_schedule_any] does
    so when it is not told to clear the flag.  Otherwise
    [pispbe_schedule_any] tries group 0 first and group 1 only when group 0
    started no job.  An admission sets the busy flag.  The two slots never
    hold more than two jobs. *)
Theorem busy_flag_gates_admission d :
  (forall g, hw_busy d <> 0 -> pispbe_schedule_one g d = d)
  /\ (hw_busy d <> 0 -> pispbe_schedule_any 0 d = d)
  /\ (forall clear_hw_busy,
        clear_hw_busy <> 0 \/ hw_busy d = 0 ->
        pispbe_schedule_any clear_hw_busy d =
          let d0 := if nz clear_hw_busy then set_hw_busy 0 d else d in
          if nz (fst (pispbe_schedule_internal 0 d0))
          then snd (pispbe_schedule_internal 0 d0)
          else snd (pispbe_schedule_internal 1 d0))
  /\ (forall g,
        fst (pispbe_schedule_internal g d) <> 0 ->
        hw_busy (snd (pispbe_schedule_internal g d)) = 1)
  /\ (jobs_in_flight d <= 2)%nat.
Proof.
  repeat split.
  - intros g Hbusy. unfold pispbe_schedule_one.
    apply nz_true in Hbusy. now rewrite Hbusy.
  - intros Hbusy. unfold pispbe_schedule_any. cbn [nz Z.eqb negb].
    apply Z.eqb_neq in Hbusy. now rewrite Hbusy.
  - intros c Hfree. unfold pispbe_schedule_any. cbn zeta.
    rewrite <- schedule_scan_two.
    destruct (nz c) eqn:Hc; [reflexivity |].
    apply nz_false in Hc. destruct Hfree as [Hne | ->]; [contradiction | reflexivity].
  - intros g Hok. apply pispbe_schedule_internal_busy, Hok.
  - unfold jobs_in_flight.
    destruct (job_present (queued_job d)), (job_present (running_job d)); cbn; lia.
Qed.

End Admission.

(** ** Conditional nodes *)

Section Conditional.
Context `{H_config : pisp_be_config_h} `{H_platform : platform}.

Lemma ignore_buffers_spec cfg i :
  ignore_buffers cfg i = true <-> feature_bit_unset cfg i.
Proof.
  unfold ignore_buffers, feature_bit_unset.
  rewrite !orb_true_iff, !andb_true_iff, !negb_true_iff, !nz_false, !Nat.eqb_eq.
  tauto.
Qed.

(** The first loop succeeds exactly when no node stands in the way. *)
Lemma peek_buffers_ready ng cfg ids buf :
  is_Some (peek_buffers ng cfg ids buf) <-> forallb (node_ready ng cfg) ids = true.
Proof.
  revert buf. induction ids as [| j ids IH]; intros buf; cbn [peek_buffers forallb].
  - split; [reflexivity | eauto].
  - unfold node_ready at 1. rewrite andb_true_iff.
    destruct (j =? CONFIG_NODE)%nat; cbn [orb]; [rewrite IH; tauto |].
    destruct (streaming ng j); cbn [negb orb]; [| rewrite IH; tauto].
    unfold list_first_entry_or_null.
    destruct (ready_queue (node_at ng j)) as [| b q]; cbn [head].
    + destruct (ignore_buffers cfg j); cbn [orb]; [rewrite IH; tauto |].
      split; [intros [x Hx]; discriminate | intros [Hf _]; discriminate].
    + rewrite orb_true_r, IH. tauto.
Qed.

(** What the first loop leaves in [buf] for a node it visits. *)
Lemma peek_buffers_result ng cfg ids buf r i :
  peek_buffers ng cfg ids buf = Some r ->
  length r = length buf
  /\ (In i ids -> i <> CONFIG_NODE -> (i < length buf)%nat ->
      nth i r None =
        if streaming ng i then list_first_entry_or_null (ready_queue (node_at ng i))
        else None)
  /\ (~ In i ids \/ i = CONFIG_NODE -> nth i r None = nth i buf None).
Proof.
  revert buf. induction ids as [| j ids IH]; intros buf; cbn [peek_buffers].
  - intros [= <-]. split; [reflexivity | split; [intros [] | reflexivity]].
  - assert (Hstep : forall buf',
      length buf' = length buf ->
      (j <> CONFIG_NODE -> (j < length buf)%nat ->
       nth j buf' None =
         if streaming ng j then list_first_entry_or_null (ready_queue (node_at ng j))
         else None) ->
      (forall k, k <> j \/ j = CONFIG_NODE -> nth k buf' None = nth k buf None) ->
      peek_buffers ng cfg ids buf' = Some r ->
      length r = length buf
      /\ (In i (j :: ids) -> i <> CONFIG_NODE -> (i < length buf)%nat ->
          nth i r None =
            if streaming ng i then list_first_entry_or_null (ready_queue (node_at ng i))
            else None)
      /\ (~ In i (j :: ids) \/ i = CONFIG_NODE -> nth i r None = nth i buf None)).
    { intros buf' Hlen Hj Hother Hpeek.
      destruct (IH buf' Hpeek) as (Hl & Hin & Hout).
      split; [congruence | split].
      - intros Hi Hcfg Hlt. destruct (in_dec Nat.eq_dec i ids) as [Hi' | Hi'].
        + apply Hin; [assumption | assumption | congruence].
        + destruct Hi as [-> | Hi]; [| contradiction].
          rewrite Hout by (now left). now apply Hj.
      - intros Hno. rewrite Hout.
        + apply Hother. destruct Hno as [Hno | ->].
          * left. intros ->. apply Hno. now left.
          * destruct (Nat.eq_dec CONFIG_NODE j); [now right | now left].
        + destruct Hno as [Hno | ->]; [left | now right].
          intros Hi. apply Hno. now right. }
    destruct (j =? CONFIG_NODE)%nat eqn:Hjc.
    { apply Nat.eqb_eq in Hjc. apply Hstep; [reflexivity | congruence | reflexivity]. }
    apply Nat.eqb_neq in Hjc.
    destruct (streaming ng j) eqn:Hstr; cbn [negb].
    + assert (Hgo : peek_buffers ng cfg ids
                      (<[j := list_first_entry_or_null (ready_queue (node_at ng j))]>
                         (<[j := None]> buf)) = Some r ->
                    _) by
        (apply Hstep;
         [ now rewrite !length_insert
         | intros _ Hlt; now rewrite nth_insert_eq by (rewrite length_insert; lia)
         | intros k [Hk | Hk]; [now rewrite !nth_insert_ne by congruence | contradiction] ]).
      revert Hgo.
      destruct (list_first_entry_or_null (ready_queue (node_at ng j)));
        intros Hgo; [exact Hgo |].
      destruct (ignore_buffers cfg j); [exact Hgo | discriminate].
    + apply Hstep.
      * now rewrite length_insert.
      * intros _ Hlt. now rewrite nth_insert_eq.
      * intros k [Hk | Hk]; [now rewrite nth_insert_ne by congruence | contradiction].
Qed.

Lemma list_del_head b q : list_del b (b :: q) = q.
Proof. cbn. now rewrite decide_True. Qed.

(** What the second loop leaves in the nodes and in the queued job. *)
Lemma pull_buffers_result ids buf nodes qbuf i :
  NoDup ids -> In i ids -> (i < length nodes)%nat -> (i < length qbuf)%nat ->
  nth i (snd (pull_buffers ids buf nodes qbuf)) None = buf_at buf i
  /\ nth i (fst (pull_buffers ids buf nodes qbuf)) zero_node =
       match buf_at buf i with
       | Some b =>
           set_ready_queue (list_del b (ready_queue (nth i nodes zero_node)))
             (nth i nodes zero_node)
       | None => nth i nodes zero_node
       end.
Proof.
  assert (Hkeep : forall ids nodes qbuf, ~ In i ids ->
    nth i (snd (pull_buffers ids buf nodes qbuf)) None = nth i qbuf None
    /\ nth i (fst (pull_buffers ids buf nodes qbuf)) zero_node = nth i nodes zero_node).
  { clear. intros ids. induction ids as [| j ids IH]; intros nodes qbuf Hno;
      cbn [pull_buffers fst snd]; [now split |].
    assert (Hji : j <> i) by (intros ->; apply Hno; now left).
    destruct (IH (match buf_at buf j with
                  | Some b => <[j := set_ready_queue
                                       (list_del b (ready_queue (nth j nodes zero_node)))
                                       (nth j nodes zero_node)]> nodes
                  | None => nodes
                  end) (<[j := buf_at buf j]> qbuf)) as (H1 & H2);
      [intros Hin; apply Hno; now right |].
    rewrite H1, H2. split; [now rewrite nth_insert_ne |].
    destruct (buf_at buf j); [now rewrite nth_insert_ne | reflexivity]. }
  intros Hnd. revert nodes qbuf.
  induction Hnd as [| j ids Hj Hnd IH]; intros nodes qbuf Hin Hn Hq; [destruct Hin |].
  cbn [pull_buffers].
  destruct (Nat.eq_dec j i) as [-> | Hji].
  - rewrite list_elem_of_In in Hj.
    destruct (Hkeep ids (match buf_at buf i with
                  | Some b => <[i := set_ready_queue
                                       (list_del b (ready_queue (nth i nodes zero_node)))
                                       (nth i nodes zero_node)]> nodes
                  | None => nodes
                  end) (<[i := buf_at buf i]> qbuf) Hj) as (H1 & H2).
    rewrite H1, H2. split; [now rewrite nth_insert_eq |].
    destruct (buf_at buf i); [now rewrite nth_insert_eq | reflexivity].
  - assert (Hin' : In i ids) by (destruct Hin; [congruence | assumption]).
    destruct (IH (match buf_at buf j with
                  | Some b => <[j := set_ready_queue
                                       (list_del b (ready_queue (nth j nodes zero_node)))
                                       (nth j nodes zero_node)]> nodes
                  | None => nodes
                  end) (<[j := buf_at buf j]> qbuf) Hin') as (H1 & H2).
    + destruct (buf_at buf j); [now rewrite length_insert | assumption].
    + now rewrite length_insert.
    + rewrite H1, H2. split; [reflexivity |].
      destruct (buf_at buf j); [now rewrite nth_insert_ne | reflexivity].
Qed.

(** Every buffer of a job is returned by [pispbe_isr_jobdone], stamped and
    in the done state. *)
Lemma complete_buffers_returns ts seq_no buf log i b :
  (i < PISPBE_NUM_NODES)%nat -> buf_at buf i = Some b ->
  In (stamped ts seq_no b, VB2_BUF_STATE_DONE) (complete_buffers ts seq_no buf log).
Proof.
  intros Hi Hb. unfold complete_buffers.
  assert (Hgen : forall ids log,
    In i ids \/ In (stamped ts seq_no b, VB2_BUF_STATE_DONE) log ->
    In (stamped ts seq_no b, VB2_BUF_STATE_DONE)
       (fold_left (fun log i =>
                     match buf_at buf i with
                     | Some b => log ++ [(stamped ts seq_no b, VB2_BUF_STATE_DONE)]
                     | None => log
                     end) ids log)).
  { intros ids. induction ids as [| j ids IH]; intros log' H; cbn [fold_left].
    - destruct H as [[] | H]; exact H.
    - apply IH. destruct H as [[-> | Hin] | Hlog].
      + right. rewrite Hb. apply in_or_app. right. now left.
      + now left.
      + right. destruct (buf_at buf j); [apply in_or_app; now left | exact Hlog]. }
  apply Hgen. left. apply in_seq. lia.
Qed.

Lemma forallb_pointwise {A} (f f' : A -> bool) (l : list A) :
  (forall x, f x = f' x) -> forallb f l = forallb f' l.
Proof.
  intros Hff'. induction l as [| x l IH]; cbn [forallb]; [reflexivity |].
  now rewrite Hff', IH.
Qed.

(** Whether an attempt succeeds, in terms of the nodes. *)
Lemma pispbe_schedule_internal_fst g d ng :
  node_group d !! g = Some ng ->
  fst (pispbe_schedule_internal g d) =
    if negb (Z.land (Z.lor (BIT CONFIG_NODE) (BIT MAIN_INPUT_NODE)) (streaming_map ng)
             =? Z.lor (BIT CONFIG_NODE) (BIT MAIN_INPUT_NODE))
    then 0
    else match list_first_entry_or_null (ready_queue (node_at ng CONFIG_NODE)) with
         | None => 0
         | Some cb =>
             if forallb (node_ready ng (config_at ng (vb2_index cb)))
                  (seq 0 PISPBE_NUM_NODES)
             then 1 else 0
         end.
Proof.
  intros Hg. unfold pispbe_schedule_internal. rewrite Hg.
  destruct (negb _); [reflexivity |].
  destruct (list_first_entry_or_null _) as [cb |]; [| reflexivity].
  pose proof (peek_buffers_ready ng (config_at ng (vb2_index cb))
                (seq 0 PISPBE_NUM_NODES)
                (<[CONFIG_NODE := Some cb]> (replicate PISPBE_NUM_NODES None))) as Hready.
  destruct (peek_buffers _ _ _ _) as [buf |].
  - destruct (pull_buffers _ _ _ _) as [nodes qbuf]. cbn [fst].
    destruct Hready as [Hready _]. now rewrite Hready by eauto.
  - cbn [fst]. destruct (forallb _ _); [| reflexivity].
    destruct Hready as [_ Hready]. destruct (Hready eq_refl) as [x Hx]. discriminate.
Qed.

Lemma feature_bit_unset_node cfg i :
  feature_bit_unset cfg i -> i <> CONFIG_NODE /\ (i < PISPBE_NUM_NODES)%nat.
Proof.
  unfold feature_bit_unset, OUTPUT0_NODE, OUTPUT1_NODE, TDN_INPUT_NODE, TDN_OUTPUT_NODE,
    STITCH_INPUT_NODE, STITCH_OUTPUT_NODE, CONFIG_NODE, PISPBE_NUM_NODES.
  intros H. lia.
Qed.

(** C10.  Let node [i] be streaming while the enable bit of its block is
    not set in the configuration at the front of the config queue.  Then
    the content of its ready queue has no influence on whether a job is
    admitted.  If moreover the config node and the main input node stream
    and every other streaming node whose block is enabled has a buffer
    ready, the job is admitted whatever the ready queue of node [i] holds,
    also when it is empty; and a buffer at the front of that queue is
    unlinked from the queue, stored in the queued job, and returned in the
    done state when the job completes. *)
Theorem conditional_node_buffer g i d ng cb q :
  node_group d !! g = Some ng ->
  length (node ng) = PISPBE_NUM_NODES ->
  length (job_buf (queued_job d)) = PISPBE_NUM_NODES ->
  ready_queue (node_at ng CONFIG_NODE) = cb :: q ->
  feature_bit_unset (config_at ng (vb2_index cb)) i ->
  streaming ng i = true ->
  (forall q', fst (pispbe_schedule_internal g (with_ready_queue g i q' d))
              = fst (pispbe_schedule_internal g d))
  /\ (Z.land (Z.lor (BIT CONFIG_NODE) (BIT MAIN_INPUT_NODE)) (streaming_map ng)
      = Z.lor (BIT CONFIG_NODE) (BIT MAIN_INPUT_NODE) ->
      (forall j, (j < PISPBE_NUM_NODES)%nat -> j <> CONFIG_NODE -> j <> i ->
         streaming ng j = true ->
         ~ feature_bit_unset (config_at ng (vb2_index cb)) j ->
         ready_queue (node_at ng j) <> []) ->
      (forall q', fst (pispbe_schedule_internal g (with_ready_queue g i q' d)) = 1)
      /\ fst (pispbe_schedule_internal g d) = 1
      /\ forall b qi, ready_queue (node_at ng i) = b :: qi ->
           buf_at (job_buf (queued_job (snd (pispbe_schedule_internal g d)))) i = Some b
           /\ (exists ng', node_group (snd (pispbe_schedule_internal g d)) !! g = Some ng'
                           /\ ready_queue (node_at ng' i) = qi)
           /\ (exists ts seq_no,
                 In (stamped ts seq_no b, VB2_BUF_STATE_DONE)
                    (vb2_done (pispbe_isr_jobdone
                                 (queued_job (snd (pispbe_schedule_internal g d)))
                                 (snd (pispbe_schedule_internal g d)))))).
Proof.
  intros Hg Hnodes Hqlen Hcfgq Hbit Hstr.
  destruct (feature_bit_unset_node _ _ Hbit) as [Hicfg Hi].
  apply ignore_buffers_spec in Hbit.
  assert (Hindep : forall q',
             fst (pispbe_schedule_internal g (with_ready_queue g i q' d))
             = fst (pispbe_schedule_internal g d)).
  { intros q'.
    set (ng2 := set_node (alter (set_ready_queue q') i (node ng)) ng).
    assert (Hg2 : node_group (with_ready_queue g i q' d) !! g = Some ng2).
    { cbn [with_ready_queue node_group set_node_group]. rewrite list_lookup_alter_eq, Hg. reflexivity. }
    assert (Hother : forall j, j <> i -> node_at ng2 j = node_at ng j).
    { intros j Hj. unfold node_at, ng2. cbn [node set_node].
      rewrite !nth_lookup, list_lookup_alter_ne by congruence. reflexivity. }
    rewrite (pispbe_schedule_internal_fst _ _ _ Hg2),
            (pispbe_schedule_internal_fst _ _ _ Hg).
    change (streaming_map ng2) with (streaming_map ng).
    rewrite Hother by congruence.
    destruct (negb _); [reflexivity |].
    rewrite Hcfgq. cbn [list_first_entry_or_null head].
    change (config_at ng2 (vb2_index cb)) with (config_at ng (vb2_index cb)).
    replace (forallb (node_ready ng2 (config_at ng (vb2_index cb))) (seq 0 PISPBE_NUM_NODES))
      with (forallb (node_ready ng (config_at ng (vb2_index cb))) (seq 0 PISPBE_NUM_NODES));
      [reflexivity |].
    apply forallb_pointwise. intros j. unfold node_ready.
    change (streaming ng2 j) with (streaming ng j).
    destruct (Nat.eq_dec j i) as [-> | Hj].
    + rewrite Hbit. now rewrite !orb_true_r.
    + now rewrite Hother. }
  split; [exact Hindep |].
  intros Hmap Hothers.
  assert (Hok : fst (pispbe_schedule_internal g d) = 1).
  { rewrite (pispbe_schedule_internal_fst _ _ _ Hg).
    apply Z.eqb_eq in Hmap. rewrite Hmap. cbn [negb].
    rewrite Hcfgq. cbn [list_first_entry_or_null head].
    assert (Hall : forallb (node_ready ng (config_at ng (vb2_index cb)))
                     (seq 0 PISPBE_NUM_NODES) = true).
    { apply forallb_forall. intros j Hj%in_seq. unfold node_ready.
      destruct (Nat.eqb_spec j CONFIG_NODE) as [-> | Hjc]; [reflexivity |].
      destruct (Nat.eq_dec j i) as [-> | Hji]; [rewrite Hbit; now rewrite orb_true_r |].
      destruct (streaming ng j) eqn:Hsj; [| reflexivity].
      destruct (ignore_buffers (config_at ng (vb2_index cb)) j) eqn:Hign; [reflexivity |].
      cbn [negb orb].
      assert (Hq : ready_queue (node_at ng j) <> []).
      { apply Hothers; [lia | exact Hjc | exact Hji | exact Hsj |].
        intros Hfeat. apply ignore_buffers_spec in Hfeat. congruence. }
      destruct (ready_queue (node_at ng j)); [contradiction | reflexivity]. }
    now rewrite Hall. }
  split; [intros q'; now rewrite Hindep |]. split; [exact Hok |].
  intros b qi Hqi.
  assert (Hn0 : fst (pispbe_schedule_internal g d) <> 0) by lia.
  destruct (pispbe_schedule_internal_inv g d Hn0)
    as (ng0 & cb0 & buf & nodes & qbuf & Hg0 & _ & Hcb0 & Hpeek & Hpull & ->).
  rewrite Hg in Hg0. injection Hg0 as <-.
  rewrite Hcfgq in Hcb0. injection Hcb0 as <-.
  destruct (peek_buffers_result _ _ _ _ _ i Hpeek) as (_ & Hin & _).
  assert (Hbi : buf_at buf i = Some b).
  { unfold buf_at. rewrite Hin.
    - now rewrite Hstr, Hqi.
    - apply in_seq. lia.
    - exact Hicfg.
    - now rewrite length_insert, length_replicate. }
  destruct (pull_buffers_result (seq 0 PISPBE_NUM_NODES) buf (node ng)
              (job_buf (queued_job d)) i) as (Hq & Hn).
  { apply NoDup_seq. }
  { apply in_seq. lia. }
  { lia. }
  { lia. }
  rewrite Hpull in Hq, Hn. cbn [fst snd] in Hq, Hn.
  cbn [snd].
  set (d' := pispbe_start_job _ _ _ _ _).
  assert (Hd' : node_group d' = <[g := set_node nodes ng]> (node_group d)
                /\ queued_job d' = {| job_node_group := Some g; job_buf := qbuf |}
                /\ vb2_done d' = vb2_done d /\ jobs_done d' = jobs_done d).
  { unfold d'.
    match goal with
    | |- context [pispbe_start_job ?c ?t ?b ?n ?x] =>
        destruct (pispbe_start_job_frame c t b n x)
          as (-> & _ & -> & _ & _ & _ & -> & ->)
    end.
    repeat split. }
  destruct Hd' as (Hgs & Hqj & Hvb & Hjd).
  split; [| split].
  - rewrite Hqj. cbn [job_buf]. unfold buf_at at 1. rewrite Hq. exact Hbi.
  - exists (set_node nodes ng). split.
    + rewrite Hgs. apply list_lookup_insert_eq. eapply lookup_lt_Some, Hg.
    + unfold node_at at 1. cbn [node set_node]. rewrite Hn, Hbi.
      cbn [ready_queue set_ready_queue]. fold (node_at ng i).
      rewrite Hqi. apply list_del_head.
  - eexists _, _. unfold pispbe_isr_jobdone. rewrite Hqj.
    cbn [job_node_group vb2_done set_node_group set_jobs_done set_vb2_done job_buf].
    apply (complete_buffers_returns _ _ _ _ i); [exact Hi |].
    unfold buf_at at 1. rewrite Hq. exact Hbi.
Qed.

End Conditional.

(** ** Completion *)

Section Completion.
Context `{H_config : pisp_be_config_h} `{H_platform : platform}.

Lemma pispbe_schedule_one_frame g d :
  running_job (pispbe_schedule_one g d) = running_job d
  /\ done (pispbe_schedule_one g d) = done d
  /\ started (pispbe_schedule_one g d) = started d
  /\ vb2_done (pispbe_schedule_one g d) = vb2_done d
  /\ jobs_done (pispbe_schedule_one g d) = jobs_done d
  /\ sequence <$> node_group (pispbe_schedule_one g d) = sequence <$> node_group d
  /\ streaming_map <$> node_group (pispbe_schedule_one g d)
     = streaming_map <$> node_group d.
Proof.
  unfold pispbe_schedule_one. destruct (nz (hw_busy d)); [repeat split |].
  apply pispbe_schedule_internal_frame.
Qed.

Lemma pispbe_schedule_any_frame c d :
  running_job (pispbe_schedule_any c d) = running_job d
  /\ done (pispbe_schedule_any c d) = done d
  /\ started (pispbe_schedule_any c d) = started d
  /\ vb2_done (pispbe_schedule_any c d) = vb2_done d
  /\ jobs_done (pispbe_schedule_any c d) = jobs_done d
  /\ sequence <$> node_group (pispbe_schedule_any c d) = sequence <$> node_group d
  /\ streaming_map <$> node_group (pispbe_schedule_any c d)
     = streaming_map <$> node_group d.
Proof.
  unfold pispbe_schedule_any.
  set (d0 := if nz c then set_hw_busy 0 d else d).
  assert (Hd0 : running_job d0 = running_job d /\ done d0 = done d
                /\ started d0 = started d /\ vb2_done d0 = vb2_done d
                /\ jobs_done d0 = jobs_done d /\ node_group d0 = node_group d)
    by (unfold d0; destruct (nz c); repeat split).
  destruct Hd0 as (<- & <- & <- & <- & <- & <-).
  destruct (hw_busy d0 =? 0); [| repeat split].
  rewrite schedule_scan_two.
  destruct (nz (fst (pispbe_schedule_internal 0 d0)));
    apply pispbe_schedule_internal_frame.
Qed.

(** [pispbe_isr_jobdone] for a job of group [g]. *)
Lemma pispbe_isr_jobdone_spec job g d :
  job_node_group job = Some g ->
  let d' := pispbe_isr_jobdone job d in
  node_group d' = alter (fun ng => set_sequence (u32 (sequence ng + 1)) ng) g (node_group d)
  /\ vb2_done d' = complete_buffers (ktime_get_ns (length (jobs_done d)))
                     (sequence (nth g (node_group d) zero_group)) (job_buf job) (vb2_done d)
  /\ jobs_done d' = jobs_done d ++ [g]
  /\ hw_busy d' = hw_busy d /\ queued_job d' = queued_job d
  /\ running_job d' = running_job d /\ done d' = done d /\ started d' = started d
  /\ mmio d' = mmio d.
Proof. intros Hg. unfold pispbe_isr_jobdone. rewrite Hg. repeat split. Qed.

Lemma sequence_alter_bump g (gs : list pispbe_node_group) :
  sequence <$> alter (fun ng => set_sequence (u32 (sequence ng + 1)) ng) g gs
  = alter (fun s => u32 (s + 1)) g (sequence <$> gs).
Proof. apply list_fmap_alter. apply Forall_forall. reflexivity. Qed.

Lemma streaming_map_alter_sequence f g (gs : list pispbe_node_group) :
  streaming_map <$> alter (fun ng => set_sequence (f ng) ng) g gs = streaming_map <$> gs.
Proof.
  rewrite (list_fmap_alter streaming_map _ id) by (apply Forall_forall; reflexivity).
  apply list_alter_id. reflexivity.
Qed.

(** The interrupt handler once the interrupt is seen. *)
Lemma pispbe_isr_handled d :
  irq_status_read d <> 0 ->
  snd (pispbe_isr d) =
    pispbe_schedule_any
      (fst (pispbe_isr_reconcile (u8 (Z.shiftr (batch_status_read d) 8))
              (u8 (batch_status_read d))
              (set_mmio (snd (read_reg
                                (write_reg (snd (read_reg (mmio d)
                                                  PISP_BE_INTERRUPT_STATUS_OFFSET))
                                   PISP_BE_INTERRUPT_STATUS_OFFSET (irq_status_read d))
                                PISP_BE_BATCH_STATUS_OFFSET)) d)))
      (snd (pispbe_isr_reconcile (u8 (Z.shiftr (batch_status_read d) 8))
              (u8 (batch_status_read d))
              (set_mmio (snd (read_reg
                                (write_reg (snd (read_reg (mmio d)
                                                  PISP_BE_INTERRUPT_STATUS_OFFSET))
                                   PISP_BE_INTERRUPT_STATUS_OFFSET (irq_status_read d))
                                PISP_BE_BATCH_STATUS_OFFSET)) d))).
Proof.
  intros Hirq. unfold pispbe_isr, irq_status_read, batch_status_read in *.
  unfold read_reg in *. cbn [fst snd mmio set_mmio] in *.
  apply Z.eqb_neq in Hirq. rewrite Hirq.
  destruct (pispbe_isr_reconcile _ _ _) as [c d2]. reflexivity.
Qed.

(** The interrupt handler when there is no interrupt. *)
Lemma pispbe_isr_none d :
  irq_status_read d = 0 ->
  snd (pispbe_isr d)
  = set_mmio (snd (read_reg (mmio d) PISP_BE_INTERRUPT_STATUS_OFFSET)) d.
Proof.
  intros Hirq. unfold pispbe_isr, irq_status_read in *.
  unfold read_reg in *. cbn [fst snd mmio set_mmio] in *.
  apply Z.eqb_eq in Hirq. rewrite Hirq. reflexivity.
Qed.

(** *** Reconciliation from the shadow counters (3, 3) *)

Ltac reconcile_compute d :=
  destruct d as [gs busy [qg qbuf] [rg rbuf] dn st tr vb jd];
  cbn [started done queued_job running_job job_node_group] in *; subst;
  unfold pispbe_isr_reconcile, pispbe_isr_jobdone, job_present;
  cbn [started done queued_job running_job job_node_group job_buf jobs_done vb2_done
       node_group hw_busy mmio set_started set_done set_queued_job set_running_job
       set_node_group set_vb2_done set_jobs_done andb orb negb fst snd];
  repeat match goal with
  | |- context [u8 ?x] => let v := eval vm_compute in (u8 x) in change (u8 x) with v
  | |- context [Z.eqb ?x ?y] =>
      let v := eval vm_compute in (Z.eqb x y) in change (Z.eqb x y) with v
  end;
  cbn [started done queued_job running_job job_node_group job_buf jobs_done vb2_done
       node_group hw_busy mmio set_started set_done set_queued_job set_running_job
       set_node_group set_vb2_done set_jobs_done andb orb negb fst snd].

(** One start and one completion, a job running: the running job is done
    and the queued job takes its place. *)
Lemma reconcile_promotes d gR gJ :
  started d = 3 -> done d = 3 ->
  job_node_group (running_job d) = Some gR ->
  job_node_group (queued_job d) = Some gJ ->
  let r := pispbe_isr_reconcile 4 4 d in
  fst r = 1 /\ running_job (snd r) = queued_job d /\ queued_job (snd r) = no_job
  /\ started (snd r) = 4 /\ done (snd r) = 4
  /\ jobs_done (snd r) = jobs_done d ++ [gR]
  /\ vb2_done (snd r)
     = complete_buffers (ktime_get_ns (length (jobs_done d)))
         (sequence (nth gR (node_group d) zero_group)) (job_buf (running_job d))
         (vb2_done d).
Proof.
  intros Hst Hdn HR HJ. reconcile_compute d. repeat split.
Qed.

(** One start and one completion, no job running: the queued job has
    started and finished; it is done without passing through the running
    slot. *)
Lemma reconcile_completes_queued d gJ :
  started d = 3 -> done d = 3 ->
  job_node_group (running_job d) = None ->
  job_node_group (queued_job d) = Some gJ ->
  let r := pispbe_isr_reconcile 4 4 d in
  fst r = 1 /\ running_job (snd r) = running_job d /\ queued_job (snd r) = no_job
  /\ started (snd r) = 4 /\ done (snd r) = 4
  /\ jobs_done (snd r) = jobs_done d ++ [gJ]
  /\ vb2_done (snd r)
     = complete_buffers (ktime_get_ns (length (jobs_done d)))
         (sequence (nth gJ (node_group d) zero_group)) (job_buf (queued_job d))
         (vb2_done d).
Proof.
  intros Hst Hdn HR HJ. reconcile_compute d. repeat split.
Qed.

(** One start and two completions: the running job is done, then the
    queued job; the running slot ends empty. *)
Lemma reconcile_completes_both d gR gJ :
  started d = 3 -> done d = 3 ->
  job_node_group (running_job d) = Some gR ->
  job_node_group (queued_job d) = Some gJ ->
  let r := pispbe_isr_reconcile 4 5 d in
  fst r = 1 /\ running_job (snd r) = no_job /\ queued_job (snd r) = no_job
  /\ started (snd r) = 4 /\ done (snd r) = 5
  /\ jobs_done (snd r) = jobs_done d ++ [gR; gJ]
  /\ exists ts seq_no ts' seq_no',
       vb2_done (snd r)
       = complete_buffers ts' seq_no' (job_buf (queued_job d))
           (complete_buffers ts seq_no (job_buf (running_job d)) (vb2_done d)).
Proof.
  intros Hst Hdn HR HJ. reconcile_compute d. rewrite <- app_assoc.
  repeat split. eexists _, _, _, _. reflexivity.
Qed.

(** C1, with the two cases of a single completion told apart.  From the
    shadow counters (started 3, done 3) and a
    job in the queued slot.  When the hardware reports (4, 4): with a job in
    the running slot, that job is completed and the queued job is promoted
    into the running slot; with the running slot empty, the queued job is
    completed directly and the running slot stays as it was; the shadow
    counters become (4, 4) either way.  When the hardware reports started 4
    and done 5 with a job in each slot: the running job is completed first,
    then the queued job, the shadow counters become started 4 and done 5,
    and the running slot ends empty. *)
Theorem pispbe_isr_reconciliation d gJ :
  started d = 3 -> done d = 3 ->
  job_node_group (queued_job d) = Some gJ ->
  irq_status_read d <> 0 ->
  u8 (Z.shiftr (batch_status_read d) 8) = 4 ->
  (u8 (batch_status_read d) = 4 ->
   started (snd (pispbe_isr d)) = 4 /\ done (snd (pispbe_isr d)) = 4
   /\ (forall gR,
         job_node_group (running_job d) = Some gR ->
         running_job (snd (pispbe_isr d)) = queued_job d
         /\ jobs_done (snd (pispbe_isr d)) = jobs_done d ++ [gR])
   /\ (job_node_group (running_job d) = None ->
       running_job (snd (pispbe_isr d)) = running_job d
       /\ jobs_done (snd (pispbe_isr d)) = jobs_done d ++ [gJ]))
  /\ (u8 (batch_status_read d) = 5 ->
      forall gR,
        job_node_group (running_job d) = Some gR ->
        started (snd (pispbe_isr d)) = 4 /\ done (snd (pispbe_isr d)) = 5
        /\ running_job (snd (pispbe_isr d)) = no_job
        /\ jobs_done (snd (pispbe_isr d)) = jobs_done d ++ [gR; gJ]
        /\ exists ts seq_no ts' seq_no',
             vb2_done (snd (pispbe_isr d))
             = complete_buffers ts' seq_no' (job_buf (queued_job d))
                 (complete_buffers ts seq_no (job_buf (running_job d)) (vb2_done d))).
Proof.
  intros Hst Hdn HJ Hirq Hstarted.
  rewrite (pispbe_isr_handled d Hirq), Hstarted.
  set (d1 := set_mmio _ d).
  split.
  - intros ->.
    destruct (pispbe_schedule_any_frame (fst (pispbe_isr_reconcile 4 4 d1))
                (snd (pispbe_isr_reconcile 4 4 d1)))
      as (-> & -> & -> & _ & -> & _ & _).
    destruct (job_node_group (running_job d)) as [gR |] eqn:HR.
    + destruct (reconcile_promotes d1 gR gJ Hst Hdn HR HJ)
        as (_ & Hrun & _ & Hs & Hd & Hjobs & _).
      split; [exact Hs | split; [exact Hd | split]].
      * intros g' [= <-]. split; assumption.
      * discriminate.
    + destruct (reconcile_completes_queued d1 gJ Hst Hdn HR HJ)
        as (_ & Hrun & _ & Hs & Hd & Hjobs & _).
      split; [exact Hs | split; [exact Hd | split]].
      * discriminate.
      * intros _. split; assumption.
  - intros -> gR HR.
    destruct (pispbe_schedule_any_frame (fst (pispbe_isr_reconcile 4 5 d1))
                (snd (pispbe_isr_reconcile 4 5 d1)))
      as (-> & -> & -> & -> & -> & _ & _).
    destruct (reconcile_completes_both d1 gR gJ Hst Hdn HR HJ)
      as (_ & Hrun & _ & Hs & Hd & Hjobs & Hvb).
    split; [exact Hs | split; [exact Hd | split; [exact Hrun | split; assumption]]].
Qed.

(** *** The sequence counters *)

Lemma sequence_alter_node f g (gs : list pispbe_node_group) :
  sequence <$> alter (fun ng => set_node (f ng) ng) g gs = sequence <$> gs.
Proof.
  rewrite (list_fmap_alter sequence _ id) by (apply Forall_forall; reflexivity).
  apply list_alter_id. reflexivity.
Qed.

Lemma sequence_alter_streaming_map f g (gs : list pispbe_node_group) :
  sequence <$> alter (fun ng => set_streaming_map (f ng) ng) g gs = sequence <$> gs.
Proof.
  rewrite (list_fmap_alter sequence _ id) by (apply Forall_forall; reflexivity).
  apply list_alter_id. reflexivity.
Qed.

Lemma sequence_alter_start f g (gs : list pispbe_node_group) :
  sequence <$> alter (fun ng => set_sequence 0 (set_streaming_map (f ng) ng)) g gs
  = alter (fun _ => 0) g (sequence <$> gs).
Proof. apply list_fmap_alter. apply Forall_forall. reflexivity. Qed.

(** The comparison of the counters completes at most the running job and
    then the queued job, and changes the sequence counters through
    [pispbe_isr_jobdone] only. *)
Lemma pispbe_isr_reconcile_sequences hw_started hw_done d :
  exists completed,
    jobs_done (snd (pispbe_isr_reconcile hw_started hw_done d)) = jobs_done d ++ completed
    /\ sequence <$> node_group (snd (pispbe_isr_reconcile hw_started hw_done d))
       = bump_sequences completed (sequence <$> node_group d).
Proof.
  destruct d as [gs busy [qg qbuf] [rg rbuf] dn st tr vb jd].
  unfold pispbe_isr_reconcile, pispbe_isr_jobdone, job_present.
  cbn [started done queued_job running_job job_node_group job_buf jobs_done vb2_done
       node_group hw_busy mmio set_started set_done set_queued_job set_running_job
       set_node_group set_vb2_done set_jobs_done].
  destruct rg as [gR |]; cbn [andb];
    [destruct (negb (dn =? hw_done)) |];
    cbn [started done queued_job running_job job_node_group job_buf jobs_done vb2_done
         node_group hw_busy mmio set_started set_done set_queued_job set_running_job
         set_node_group set_vb2_done set_jobs_done];
    (destruct (negb (st =? hw_started)); [destruct qg as [gQ |] |]);
    repeat match goal with
    | |- context [if ?b then _ else _] => destruct b
    end;
    cbn [started done queued_job running_job job_node_group job_buf jobs_done vb2_done
         node_group hw_busy mmio set_started set_done set_queued_job set_running_job
         set_node_group set_vb2_done set_jobs_done fst snd andb];
    rewrite ?sequence_alter_bump;
    first
      [ exists []; split; [now rewrite app_nil_r | reflexivity]
      | eexists [_]; split; reflexivity
      | eexists [_; _]; split; [now rewrite <- app_assoc | reflexivity] ].
Qed.

(** The counter of one group after a list of completions: one increment
    for each job of that group. *)
Lemma bump_sequences_lookup (completed : list nat) (counters : list Z) (g : nat) :
  bump_sequences completed counters !! g
  = Nat.iter (count_occ Nat.eq_dec completed g) (fun s => u32 (s + 1)) <$> counters !! g.
Proof.
  unfold bump_sequences. revert counters.
  induction completed as [| c cs IH]; intros counters; cbn [fold_left count_occ].
  - now destruct (counters !! g).
  - rewrite IH. destruct (Nat.eq_dec c g) as [-> | Hcg].
    + rewrite list_lookup_alter_eq. destruct (counters !! g) as [s |]; [| reflexivity].
      cbn [fmap option_fmap option_map]. now rewrite Nat.iter_succ_r.
    + now rewrite list_lookup_alter_ne.
Qed.

(** C6, with the reset as the code performs it.  Whatever the driver is
    called for, the sequence
    counter of a node group goes up by exactly 1 (modulo 2^32, the counter
    being an [unsigned int]) for each job of that group that the call
    completes; and a successful start of streaming on any node of the
    group first sets it to 0, whether or not other nodes of the group were
    streaming already.  No call changes it otherwise. *)
Theorem sequence_counter_step c d :
  exists completed,
    jobs_done (run_call c d) = jobs_done d ++ completed
    /\ sequence <$> node_group (run_call c d)
       = bump_sequences completed
           (match c with
            | CallStartStreaming g _ pm_ret =>
                if pm_ret <? 0 then sequence <$> node_group d
                else alter (fun _ => 0) g (sequence <$> node_group d)
            | _ => sequence <$> node_group d
            end).
Proof.
  destruct c as [g i b | g i pm_ret | g i | g i |]; cbn [run_call].
  - exists []. rewrite app_nil_r. unfold pispbe_node_buffer_queue.
    destruct (pispbe_schedule_one_frame g
                (set_node_group
                   (alter (fun ng => set_node
                             (alter (fun n => set_ready_queue (ready_queue n ++ [b]) n)
                                    i (node ng)) ng) g (node_group d)) d))
      as (_ & _ & _ & _ & -> & -> & _).
    cbn [jobs_done node_group set_node_group bump_sequences fold_left].
    split; [reflexivity | apply sequence_alter_node].
  - exists []. rewrite app_nil_r. unfold pispbe_node_start_streaming.
    destruct (pm_ret <? 0); cbn [snd]; [split; reflexivity |].
    destruct (pispbe_schedule_one_frame g
                (set_node_group
                   (alter (fun ng => set_sequence 0
                             (set_streaming_map (Z.lor (streaming_map ng) (BIT i)) ng))
                          g (node_group d)) d))
      as (_ & _ & _ & _ & -> & -> & _).
    cbn [jobs_done node_group set_node_group bump_sequences fold_left].
    split; [reflexivity | apply sequence_alter_start].
  - exists []. rewrite app_nil_r. unfold stop_streaming_drain.
    destruct (node_group d !! g); [| split; reflexivity].
    cbn [jobs_done node_group set_node_group set_vb2_done bump_sequences fold_left].
    split; [reflexivity | apply sequence_alter_node].
  - exists []. rewrite app_nil_r. unfold stop_streaming_finish.
    cbn [jobs_done node_group set_node_group bump_sequences fold_left].
    split; [reflexivity | apply sequence_alter_streaming_map].
  - destruct (Z.eq_dec (irq_status_read d) 0) as [Hirq | Hirq].
    + exists []. rewrite app_nil_r, (pispbe_isr_none d Hirq). split; reflexivity.
    + rewrite (pispbe_isr_handled d Hirq).
      set (d1 := set_mmio _ d). set (hs := u8 (Z.shiftr _ 8)). set (hd := u8 _).
      destruct (pispbe_schedule_any_frame (fst (pispbe_isr_reconcile hs hd d1))
                  (snd (pispbe_isr_reconcile hs hd d1)))
        as (_ & _ & _ & _ & -> & -> & _).
      apply (pispbe_isr_reconcile_sequences hs hd d1).
Qed.

End Completion.

(** ** Bad jobs *)

Section BadJob.
Context `{H_config : pisp_be_config_h} `{H_platform : platform}.

(** When the read-back succeeds, the tile pointer and the control
    register are written, in this order, after everything else. *)
Lemma hw_queue_job_go t addrs en cfg tiles n :
  fst (read_back (seq 0 N_HW_ADDRESSES) addrs (hw_queue_job_writes t addrs en cfg)) = true ->
  hw_queue_job t addrs en cfg tiles n
  = snd (read_back (seq 0 N_HW_ADDRESSES) addrs (hw_queue_job_writes t addrs en cfg))
    ++ [MmioWrite PISP_BE_TILE_ADDR_LO_OFFSET (u32 (u32 tiles));
        MmioWrite PISP_BE_TILE_ADDR_HI_OFFSET (u32 (u32 (Z.shiftr tiles 32)));
        MmioWrite PISP_BE_CONTROL_OFFSET (u32 (u32 (3 + 65536 * u32 n)))].
Proof.
  unfold hw_queue_job, hw_queue_job_writes.
  destruct (read_reg t PISP_BE_STATUS_OFFSET) as [st t1].
  destruct (read_back _ _ _) as [ok t2]. cbn [fst snd]. intros ->.
  unfold write_reg. now rewrite <- !app_assoc.
Qed.

Lemma go_word : u32 (u32 (3 + 65536 * u32 0)) = 3.
Proof. vm_compute. reflexivity. Qed.

Lemma fold_left_prefix {A} (step : list mmio_event -> A -> list mmio_event) (l : list A) :
  (forall t x, t `prefix_of` step t x) ->
  forall t, t `prefix_of` fold_left step l t.
Proof.
  intros Hstep. induction l as [| x l IH]; intros t; cbn [fold_left]; [reflexivity |].
  etransitivity; [apply Hstep | apply IH].
Qed.

Lemma write_reg_prefix t offset v : t `prefix_of` write_reg t offset v.
Proof. apply prefix_app_r. reflexivity. Qed.

Lemma hw_queue_job_writes_prefix t addrs en cfg :
  t `prefix_of` hw_queue_job_writes t addrs en cfg.
Proof.
  unfold hw_queue_job_writes, read_reg, write_addresses, write_config.
  etransitivity; [| apply fold_left_prefix; intros; apply write_reg_prefix].
  etransitivity; [| apply write_reg_prefix].
  etransitivity; [| apply write_reg_prefix].
  etransitivity;
    [| apply fold_left_prefix; intros;
       etransitivity; [apply write_reg_prefix | apply write_reg_prefix]].
  apply prefix_app_r. reflexivity.
Qed.

Lemma bad_job_spec i en :
  i <= 0 \/ PISP_BACK_END_NUM_TILES < i
  \/ Z.land (Z.lor (fst en) (snd en)) PISP_BE_BAYER_ENABLE_INPUT = 0 ->
  bad_job i en = true.
Proof.
  unfold bad_job. rewrite !orb_true_iff, negb_true_iff, nz_false, Z.leb_le, Z.ltb_lt.
  tauto.
Qed.

(** C7, with the read-back taken into account.  For a job that has been
    admitted and whose tile
    count is zero, negative or above the maximum, or whose sanitised
    enables have no input enabled, the scheduler does not skip the dispatch:
    it calls [hw_queue_job] with a tile count of 0.  The control register
    is then written with the go bits and no tiles (the value 3), after the
    addresses, the enables and the tile pointer, unless the read-back of
    the addresses fails. *)
Theorem bad_job_is_dispatched cfg tiles buf ng d :
  num_tiles cfg <= 0
  \/ PISP_BACK_END_NUM_TILES < num_tiles cfg
  \/ Z.land (Z.lor (fst (snd (fixup_addrs_enables (hw_dma_addrs_uninit (mmio d))
                                 cfg buf ng)))
                   (snd (snd (fixup_addrs_enables (hw_dma_addrs_uninit (mmio d))
                                 cfg buf ng))))
            PISP_BE_BAYER_ENABLE_INPUT = 0 ->
  mmio (pispbe_start_job cfg tiles buf ng d)
  = hw_queue_job (mmio d)
      (fst (fixup_addrs_enables (hw_dma_addrs_uninit (mmio d)) cfg buf ng))
      (snd (fixup_addrs_enables (hw_dma_addrs_uninit (mmio d)) cfg buf ng))
      cfg tiles 0
  /\ (fst (read_back (seq 0 N_HW_ADDRESSES)
             (fst (fixup_addrs_enables (hw_dma_addrs_uninit (mmio d)) cfg buf ng))
             (hw_queue_job_writes (mmio d)
                (fst (fixup_addrs_enables (hw_dma_addrs_uninit (mmio d)) cfg buf ng))
                (snd (fixup_addrs_enables (hw_dma_addrs_uninit (mmio d)) cfg buf ng))
                cfg)) = true ->
      exists evs,
        mmio (pispbe_start_job cfg tiles buf ng d)
        = mmio d ++ evs ++ [MmioWrite PISP_BE_CONTROL_OFFSET 3]).
Proof.
  unfold pispbe_start_job.
  destruct (fixup_addrs_enables _ _ _ _) as [addrs en]. cbn [fst snd].
  intros Hbad. rewrite (bad_job_spec _ _ Hbad). cbn [mmio set_mmio].
  split; [reflexivity |].
  intros Hrb. rewrite (hw_queue_job_go _ _ _ _ _ _ Hrb), go_word.
  destruct (read_back_spec (seq 0 N_HW_ADDRESSES) addrs
              (hw_queue_job_writes (mmio d) addrs en cfg))
    as (ev2 & -> & _ & _).
  destruct (hw_queue_job_writes_prefix (mmio d) addrs en cfg) as (ev1 & ->).
  eexists (ev1 ++ ev2 ++ [_; _]). rewrite <- !app_assoc. reflexivity.
Qed.

End BadJob.

(** ** The model and the theorems at concrete inputs *)

(** An admission on a device that reads back what was written: the three
    ready buffers are taken, the busy flag is set, and the last access
    writes the go bits with one tile to the control register. *)
Example admission_programs_the_hardware :
  fst (pispbe_schedule_internal (H_config := sample_config_h)
         (H_platform := sample_platform 0 0 true) 0 dev_output0_unused) = 1
  /\ hw_busy (snd (pispbe_schedule_internal (H_config := sample_config_h)
                     (H_platform := sample_platform 0 0 true) 0 dev_output0_unused)) = 1
  /\ job_buf (queued_job (snd (pispbe_schedule_internal (H_config := sample_config_h)
                                (H_platform := sample_platform 0 0 true) 0
                                dev_output0_unused)))
     = [Some input_buffer; None; None; None; Some output_buffer; None; None; None;
        Some config_buffer]
  /\ ready_queue <$> node (nth 0 (node_group
                                   (snd (pispbe_schedule_internal
                                           (H_config := sample_config_h)
                                           (H_platform := sample_platform 0 0 true) 0
                                           dev_output0_unused))) zero_group)
     = repeat [] 9
  /\ last (mmio (snd (pispbe_schedule_internal (H_config := sample_config_h)
                        (H_platform := sample_platform 0 0 true) 0 dev_output0_unused)))
     = Some (MmioWrite PISP_BE_CONTROL_OFFSET (3 + 65536 * 1)).
Proof. vm_compute. repeat split. Qed.

(** A job in each slot, shadow counters (3, 3), hardware at (4, 4): the
    running job is returned and the queued job is promoted. *)
Example pispbe_isr_promotes :
  running_job (snd (pispbe_isr (H_config := sample_config_h)
                      (H_platform := sample_platform 1 0x0404 true)
                      dev_queued_and_running)) = job_second
  /\ queued_job (snd (pispbe_isr (H_config := sample_config_h)
                        (H_platform := sample_platform 1 0x0404 true)
                        dev_queued_and_running)) = no_job
  /\ started (snd (pispbe_isr (H_config := sample_config_h)
                     (H_platform := sample_platform 1 0x0404 true)
                     dev_queued_and_running)) = 4
  /\ done (snd (pispbe_isr (H_config := sample_config_h)
                  (H_platform := sample_platform 1 0x0404 true)
                  dev_queued_and_running)) = 4
  /\ vb2_done (snd (pispbe_isr (H_config := sample_config_h)
                      (H_platform := sample_platform 1 0x0404 true)
                      dev_queued_and_running))
     = [(stamped 0 0 (sample_buffer 0 0x10000000), VB2_BUF_STATE_DONE);
        (stamped 0 0 (sample_buffer 0 0x20000000), VB2_BUF_STATE_DONE)]
  /\ sequence <$> node_group (snd (pispbe_isr (H_config := sample_config_h)
                                     (H_platform := sample_platform 1 0x0404 true)
                                     dev_queued_and_running)) = [1; 0].
Proof. vm_compute. repeat split. Qed.

(** C1 does not hold for a single completion when the running slot is
    empty: with shadow counters (3, 3) and the hardware at (4, 4), the queued job
    is completed (its two buffers are returned), not promoted; the running
    slot is empty after the interrupt. *)
Lemma pispbe_isr_completes_instead_of_promoting :
  started dev_queued_only = 3 /\ done dev_queued_only = 3
  /\ queued_job dev_queued_only = job_second
  /\ job_present (running_job dev_queued_only) = false
  /\ running_job (snd (pispbe_isr (H_config := sample_config_h)
                         (H_platform := sample_platform 1 0x0404 true)
                         dev_queued_only)) <> job_second
  /\ job_present (running_job (snd (pispbe_isr (H_config := sample_config_h)
                                      (H_platform := sample_platform 1 0x0404 true)
                                      dev_queued_only))) = false
  /\ started (snd (pispbe_isr (H_config := sample_config_h)
                     (H_platform := sample_platform 1 0x0404 true)
                     dev_queued_only)) = 4
  /\ done (snd (pispbe_isr (H_config := sample_config_h)
                  (H_platform := sample_platform 1 0x0404 true)
                  dev_queued_only)) = 4
  /\ vb2_done (snd (pispbe_isr (H_config := sample_config_h)
                      (H_platform := sample_platform 1 0x0404 true)
                      dev_queued_only))
     = [(stamped 0 0 (sample_buffer 1 0x10100000), VB2_BUF_STATE_DONE);
        (stamped 0 0 (sample_buffer 1 0x20002000), VB2_BUF_STATE_DONE)].
Proof. vm_compute. repeat split; congruence. Qed.

(** Both branches of the reconciliation, with a job in each slot and the
    hardware at started 4, done 5. *)
Lemma pispbe_isr_reconciliation_sample :
  (u8 (batch_status_read (H_platform := sample_platform 1 0x0405 true)
         dev_queued_and_running) = 4 ->
   started (snd (pispbe_isr (H_config := sample_config_h)
                   (H_platform := sample_platform 1 0x0405 true)
                   dev_queued_and_running)) = 4
   /\ done (snd (pispbe_isr (H_config := sample_config_h)
                   (H_platform := sample_platform 1 0x0405 true)
                   dev_queued_and_running)) = 4
   /\ (forall gR,
         job_node_group (running_job dev_queued_and_running) = Some gR ->
         running_job (snd (pispbe_isr (H_config := sample_config_h)
                             (H_platform := sample_platform 1 0x0405 true)
                             dev_queued_and_running))
         = queued_job dev_queued_and_running
         /\ jobs_done (snd (pispbe_isr (H_config := sample_config_h)
                              (H_platform := sample_platform 1 0x0405 true)
                              dev_queued_and_running))
            = jobs_done dev_queued_and_running ++ [gR])
   /\ (job_node_group (running_job dev_queued_and_running) = None ->
       running_job (snd (pispbe_isr (H_config := sample_config_h)
                           (H_platform := sample_platform 1 0x0405 true)
                           dev_queued_and_running))
       = running_job dev_queued_and_running
       /\ jobs_done (snd (pispbe_isr (H_config := sample_config_h)
                            (H_platform := sample_platform 1 0x0405 true)
                            dev_queued_and_running))
          = jobs_done dev_queued_and_running ++ [0%nat]))
  /\ (u8 (batch_status_read (H_platform := sample_platform 1 0x0405 true)
            dev_queued_and_running) = 5 ->
      forall gR,
        job_node_group (running_job dev_queued_and_running) = Some gR ->
        started (snd (pispbe_isr (H_config := sample_config_h)
                        (H_platform := sample_platform 1 0x0405 true)
                        dev_queued_and_running)) = 4
        /\ done (snd (pispbe_isr (H_config := sample_config_h)
                        (H_platform := sample_platform 1 0x0405 true)
                        dev_queued_and_running)) = 5
        /\ running_job (snd (pispbe_isr (H_config := sample_config_h)
                               (H_platform := sample_platform 1 0x0405 true)
                               dev_queued_and_running)) = no_job
        /\ jobs_done (snd (pispbe_isr (H_config := sample_config_h)
                             (H_platform := sample_platform 1 0x0405 true)
                             dev_queued_and_running))
           = jobs_done dev_queued_and_running ++ [gR; 0%nat]
        /\ exists ts seq_no ts' seq_no',
             vb2_done (snd (pispbe_isr (H_config := sample_config_h)
                              (H_platform := sample_platform 1 0x0405 true)
                              dev_queued_and_running))
             = complete_buffers ts' seq_no' (job_buf (queued_job dev_queued_and_running))
                 (complete_buffers ts seq_no
                    (job_buf (running_job dev_queued_and_running))
                    (vb2_done dev_queued_and_running))).
Proof.
  apply (pispbe_isr_reconciliation (H_config := sample_config_h)
           (H_platform := sample_platform 1 0x0405 true) dev_queued_and_running 0%nat);
    try reflexivity.
  vm_compute. discriminate.
Defined.

(** The admission fails on the missing output buffer and leaves the state
    as it was. *)
Lemma pispbe_schedule_internal_all_or_nothing_sample :
  snd (pispbe_schedule_internal (H_config := sample_config_h)
         (H_platform := sample_platform 0 0 true) 0 dev_output0_missing)
  = dev_output0_missing.
Proof.
  apply (proj1 (pispbe_schedule_internal_all_or_nothing (H_config := sample_config_h)
                  (H_platform := sample_platform 0 0 true) 0 dev_output0_missing)).
  vm_compute. reflexivity.
Defined.


(** C6 does not hold for a group that streams already: group 0 is
    streaming (main input and config)
    and has counted five frames; starting the stream of its output 0 node
    sets the counter back to 0. *)
Lemma sequence_reset_while_streaming :
  (streaming_map <$> node_group dev_five_frames) !! 0%nat = Some 0x101
  /\ (sequence <$> node_group dev_five_frames) !! 0%nat = Some 5
  /\ (sequence <$> node_group
        (run_call (H_config := sample_config_h)
           (H_platform := sample_platform 0 0 true)
           (CallStartStreaming 0 OUTPUT0_NODE 0) dev_five_frames)) !! 0%nat = Some 0
  /\ (streaming_map <$> node_group
        (run_call (H_config := sample_config_h)
           (H_platform := sample_platform 0 0 true)
           (CallStartStreaming 0 OUTPUT0_NODE 0) dev_five_frames)) !! 0%nat = Some 0x111.
Proof. vm_compute. repeat split. Qed.

(** C7 does not hold when the read-back of the addresses fails: the
    job without tiles is admitted, and the control register is not
    written. *)
Lemma bad_job_without_go_bit :
  fst (pispbe_schedule_internal (H_config := sample_config_h)
         (H_platform := sample_platform 0 0 false) 0 dev_no_tiles) = 1
  /\ job_node_group
       (queued_job (snd (pispbe_schedule_internal (H_config := sample_config_h)
                           (H_platform := sample_platform 0 0 false) 0 dev_no_tiles)))
     = Some 0%nat
  /\ existsb dispatch_write
       (mmio (snd (pispbe_schedule_internal (H_config := sample_config_h)
                     (H_platform := sample_platform 0 0 false) 0 dev_no_tiles)))
     = false.
Proof. vm_compute. repeat split. Qed.

(** The job without tiles on a device that reads back what was written. *)
Lemma bad_job_is_dispatched_sample :
  mmio (pispbe_start_job (H_config := sample_config_h)
          (H_platform := sample_platform 0 0 true)
          (sample_tiles_config 0x1 0 0) 0x40000000
          [Some input_buffer; None; None; None; None; None; None; None; Some config_buffer]
          (streaming_group [] (sample_tiles_config 0x1 0 0) 0) dev_no_tiles)
  = hw_queue_job (H_config := sample_config_h) (H_platform := sample_platform 0 0 true)
      (mmio dev_no_tiles)
      (fst (fixup_addrs_enables (H_config := sample_config_h)
              (hw_dma_addrs_uninit (H_platform := sample_platform 0 0 true)
                 (mmio dev_no_tiles))
              (sample_tiles_config 0x1 0 0)
              [Some input_buffer; None; None; None; None; None; None; None;
               Some config_buffer]
              (streaming_group [] (sample_tiles_config 0x1 0 0) 0)))
      (snd (fixup_addrs_enables (H_config := sample_config_h)
              (hw_dma_addrs_uninit (H_platform := sample_platform 0 0 true)
                 (mmio dev_no_tiles))
              (sample_tiles_config 0x1 0 0)
              [Some input_buffer; None; None; None; None; None; None; None;
               Some config_buffer]
              (streaming_group [] (sample_tiles_config 0x1 0 0) 0)))
      (sample_tiles_config 0x1 0 0) 0x40000000 0.
Proof.
  apply (proj1 (bad_job_is_dispatched (H_config := sample_config_h)
                  (H_platform := sample_platform 0 0 true)
                  (sample_tiles_config 0x1 0 0) 0x40000000
                  [Some input_buffer; None; None; None; None; None; None; None;
                   Some config_buffer]
                  (streaming_group [] (sample_tiles_config 0x1 0 0) 0) dev_no_tiles
                  (or_introl (Z.le_refl 0)))).
Defined.

(** While the busy flag is set, nothing is scheduled. *)
Lemma busy_flag_gates_admission_sample :
  pispbe_schedule_one (H_config := sample_config_h)
    (H_platform := sample_platform 0 0 true) 0 dev_busy = dev_busy.
Proof.
  apply (proj1 (busy_flag_gates_admission (H_config := sample_config_h)
                  (H_platform := sample_platform 0 0 true) dev_busy)).
  vm_compute. discriminate.
Defined.

(** Output 0 is streaming while its enable bit is not set, the main input
    and the config node have a buffer ready: the job is admitted when the
    queue of output 0 is empty and whatever else it holds, and the buffer
    that is ready on output 0 is taken from the queue, stored in the job and
    returned when the job is done. *)
Lemma conditional_node_buffer_sample :
  fst (pispbe_schedule_internal (H_config := sample_config_h)
         (H_platform := sample_platform 0 0 true) 0
         (with_ready_queue 0 OUTPUT0_NODE [] dev_output0_unused)) = 1
  /\ (forall q',
        fst (pispbe_schedule_internal (H_config := sample_config_h)
               (H_platform := sample_platform 0 0 true) 0
               (with_ready_queue 0 OUTPUT0_NODE q' dev_output0_unused)) = 1)
  /\ fst (pispbe_schedule_internal (H_config := sample_config_h)
            (H_platform := sample_platform 0 0 true) 0 dev_output0_unused) = 1
  /\ buf_at (job_buf (queued_job
                        (snd (pispbe_schedule_internal (H_config := sample_config_h)
                                (H_platform := sample_platform 0 0 true) 0
                                dev_output0_unused)))) OUTPUT0_NODE
     = Some output_buffer
  /\ (exists ng',
        node_group (snd (pispbe_schedule_internal (H_config := sample_config_h)
                           (H_platform := sample_platform 0 0 true) 0
                           dev_output0_unused)) !! 0%nat = Some ng'
        /\ ready_queue (node_at ng' OUTPUT0_NODE) = [])
  /\ (exists ts seq_no,
        In (stamped ts seq_no output_buffer, VB2_BUF_STATE_DONE)
           (vb2_done
              (pispbe_isr_jobdone (H_platform := sample_platform 0 0 true)
                 (queued_job
                    (snd (pispbe_schedule_internal (H_config := sample_config_h)
                            (H_platform := sample_platform 0 0 true) 0
                            dev_output0_unused)))
                 (snd (pispbe_schedule_internal (H_config := sample_config_h)
                         (H_platform := sample_platform 0 0 true) 0
                         dev_output0_unused))))).
Proof.
  destruct (conditional_node_buffer (H_config := sample_config_h)
              (H_platform := sample_platform 0 0 true) 0 OUTPUT0_NODE dev_output0_unused
              (streaming_group [output_buffer] (sample_tiles_config 0x1 0 1) 0)
              config_buffer [])
    as [_ Hadmit]; try reflexivity.
  { left. split; reflexivity. }
  destruct Hadmit as (Hall & Hok & Htaken).
  { reflexivity. }
  { intros j Hj Hcfg Hout Hstr Hfeat.
    do 9 (destruct j as [| j];
          [first [ discriminate | congruence
                 | (vm_compute in Hstr; discriminate Hstr) ] |]).
    unfold PISPBE_NUM_NODES in Hj. lia. }
  destruct (Htaken output_buffer [] eq_refl) as (Hstored & Hqueue & Hdone).
  split; [apply Hall |]. split; [exact Hall |]. split; [exact Hok |].
  split; [exact Hstored |]. split; [exact Hqueue | exact Hdone].
Defined.

(** * Further properties *)

(** ** Bit masks *)

Lemma land_zero_iff a b :
  Z.land a b = 0 <->
  forall n, 0 <= n -> Z.testbit a n = true -> Z.testbit b n = false.
Proof.
  split.
  - intros H n Hn Ha.
    assert (Hbit : Z.testbit (Z.land a b) n = false) by (rewrite H; apply Z.bits_0).
    now rewrite Z.land_spec, Ha in Hbit.
  - intros H. apply Z.bits_inj'. intros n Hn. rewrite Z.land_spec, Z.bits_0.
    destruct (Z.testbit a n) eqn:Ha; [| reflexivity]. now rewrite (H n Hn Ha).
Qed.

Lemma clear_bits_spec x m n :
  0 <= n -> Z.testbit (clear_bits x m) n = Z.testbit x n && negb (Z.testbit m n).
Proof. intros Hn. unfold clear_bits. now rewrite Z.land_spec, Z.lnot_spec. Qed.

Lemma bits_within_refl x : bits_within x x.
Proof. intros n _ H. exact H. Qed.

Lemma bits_within_trans z y x : bits_within z y -> bits_within y x -> bits_within z x.
Proof. intros Hzy Hyx n Hn H. apply Hyx, Hzy; assumption. Qed.

Lemma bits_within_zero x : bits_within 0 x.
Proof. intros n _ H. now rewrite Z.bits_0 in H. Qed.

Lemma bits_within_clear x m : bits_within (clear_bits x m) x.
Proof.
  intros n Hn H. rewrite clear_bits_spec in H by exact Hn.
  now apply andb_true_iff in H.
Qed.

Lemma bits_within_if (c : bool) y x : bits_within y x -> bits_within (if c then y else x) x.
Proof. destruct c; [trivial | intros _; apply bits_within_refl]. Qed.

(** A mask that is clear stays clear when more bits are cleared. *)
Lemma bits_within_land_zero y x k : bits_within y x -> Z.land x k = 0 -> Z.land y k = 0.
Proof.
  rewrite !land_zero_iff. intros Hyx Hx n Hn Hy. apply Hx; [exact Hn |].
  now apply Hyx.
Qed.

Lemma clear_bits_land_l x a b : Z.land (clear_bits x (Z.lor a b)) a = 0.
Proof.
  apply land_zero_iff. intros n Hn H. rewrite clear_bits_spec, Z.lor_spec in H by exact Hn.
  apply andb_true_iff in H. destruct H as [_ H].
  apply negb_true_iff, orb_false_iff in H. tauto.
Qed.

Lemma clear_bits_land_r x a b : Z.land (clear_bits x (Z.lor a b)) b = 0.
Proof. rewrite Z.lor_comm. apply clear_bits_land_l. Qed.

Lemma clear_bits_land x a : Z.land (clear_bits x a) a = 0.
Proof.
  apply land_zero_iff. intros n Hn H. rewrite clear_bits_spec in H by exact Hn.
  apply andb_true_iff in H. destruct H as [_ H]. now apply negb_true_iff in H.
Qed.

(** A bit that the cleared mask does not touch keeps its value. *)
Lemma clear_bits_land_other x m k : Z.land k m = 0 -> Z.land (clear_bits x m) k = Z.land x k.
Proof.
  intros Hkm. apply Z.bits_inj'. intros n Hn.
  rewrite !Z.land_spec, clear_bits_spec by exact Hn.
  destruct (Z.testbit k n) eqn:Hk; [| now rewrite !andb_false_r].
  rewrite land_zero_iff in Hkm. rewrite (Hkm n Hn Hk). cbn. now rewrite !andb_true_r.
Qed.

Lemma BIT_pow2 i : BIT i = 2 ^ Z.of_nat i.
Proof. unfold BIT. apply Z.shiftl_1_l. Qed.

(** Testing a bit with [x & BIT(i)]. *)
Lemma land_BIT x i : Z.land x (BIT i) = if Z.testbit x (Z.of_nat i) then BIT i else 0.
Proof.
  apply Z.bits_inj'. intros n Hn. rewrite Z.land_spec, BIT_pow2.
  rewrite Z.pow2_bits_eqb by lia.
  destruct (Z.eqb_spec (Z.of_nat i) n) as [<- | Hne].
  - destruct (Z.testbit x (Z.of_nat i)); cbn.
    + rewrite Z.pow2_bits_eqb by lia. symmetry. apply Z.eqb_refl.
    + now rewrite Z.bits_0.
  - rewrite andb_false_r. destruct (Z.testbit x (Z.of_nat i)).
    + rewrite Z.pow2_bits_eqb by lia. symmetry. now apply Z.eqb_neq.
    + now rewrite Z.bits_0.
Qed.

Lemma nz_land_BIT x i : nz (Z.land x (BIT i)) = Z.testbit x (Z.of_nat i).
Proof.
  rewrite land_BIT. destruct (Z.testbit x (Z.of_nat i)); [| reflexivity].
  apply nz_true. rewrite BIT_pow2. apply Z.pow_nonzero; lia.
Qed.

Lemma streaming_testbit ng i : streaming ng i = Z.testbit (streaming_map ng) (Z.of_nat i).
Proof. apply nz_land_BIT. Qed.

Lemma testbit_BIT i j : Z.testbit (BIT i) (Z.of_nat j) = (i =? j)%nat.
Proof.
  rewrite BIT_pow2, Z.pow2_bits_eqb by lia.
  destruct (Nat.eqb_spec i j) as [-> | Hij]; [apply Z.eqb_refl |].
  apply Z.eqb_neq. lia.
Qed.

(** ** The sanitiser, continued *)

Section SanitiserRules.
Context `{H_config : pisp_be_config_h}.

(** The result of [get_addr_3] depends on the buffer and the format only. *)
Lemma get_addr_3_fst a off buf n :
  fst (get_addr_3 a off buf n) =
    match buf, pisp_format n with
    | Some _, Some _ => fmt_num_planes n
    | _, _ => 0
    end.
Proof.
  unfold get_addr_3. destruct buf as [b |], (pisp_format n) as [f |]; try reflexivity.
  destruct (filled_planes 3 (fmt_num_planes n) b f off 0 a 0) as [[p a'] pf].
  reflexivity.
Qed.

Lemma get_addr_3_usable a off buf ng i :
  0 < fst (get_addr_3 a off (buf_at buf (OUTPUT0_NODE + i))
             (node_at ng (OUTPUT0_NODE + i))) ->
  output_usable buf ng i.
Proof.
  rewrite get_addr_3_fst. unfold output_usable.
  destruct (buf_at buf (OUTPUT0_NODE + i)), (pisp_format (node_at ng (OUTPUT0_NODE + i)));
    intros H; try lia.
  repeat split; [discriminate | discriminate | exact H].
Qed.

Lemma fixup_outputs_rules buf ng ids addrs e1 :
  let r := fold_left
    (fun '(addrs, e1) i =>
       let '(ret, addrs) :=
         get_addr_3 addrs (7 + 3 * i) (buf_at buf (OUTPUT0_NODE + i))
           (node_at ng (OUTPUT0_NODE + i)) in
       if ret <=? 0
       then (addrs, clear_bits e1 (Z.shiftl PISP_BE_RGB_ENABLE_OUTPUT0 (Z.of_nat i)))
       else (addrs, e1))
    ids (addrs, e1) in
  bits_within (snd r) e1
  /\ forall i, In i ids ->
       Z.land (snd r) (Z.shiftl PISP_BE_RGB_ENABLE_OUTPUT0 (Z.of_nat i)) <> 0 ->
       output_usable buf ng i.
Proof.
  cbn zeta. revert addrs e1.
  induction ids as [| j ids IH]; intros addrs e1; cbn [fold_left].
  - split; [apply bits_within_refl | intros i []].
  - pose proof (get_addr_3_usable addrs (7 + 3 * j) buf ng j) as Huse.
    destruct (get_addr_3 addrs (7 + 3 * j) _ _) as [ret addrs']. cbn [fst] in Huse.
    destruct (ret <=? 0) eqn:Hret.
    + destruct (IH addrs' (clear_bits e1 (Z.shiftl PISP_BE_RGB_ENABLE_OUTPUT0 (Z.of_nat j))))
        as [Hin Hall].
      split.
      * eapply bits_within_trans; [exact Hin | apply bits_within_clear].
      * intros i [<- | Hi] Hbit; [| now apply Hall].
        exfalso. apply Hbit.
        eapply bits_within_land_zero; [exact Hin | apply clear_bits_land].
    + destruct (IH addrs' e1) as [Hin Hall]. split; [exact Hin |].
      intros i [<- | Hi] Hbit; [| now apply Hall].
      apply Huse. apply Z.leb_gt in Hret. exact Hret.
Qed.

(** The Bayer branch: nothing is added, and each TDN or Stitch stream that
    stays enabled has an address. *)
Lemma fixup_bayer_rules addrs e0 cfg buf :
  bits_within (snd (fixup_bayer addrs e0 cfg buf)) e0
  /\ (Z.land (snd (fixup_bayer addrs e0 cfg buf)) PISP_BE_BAYER_ENABLE_TDN_INPUT <> 0 ->
      get_addr (buf_at buf TDN_INPUT_NODE) <> 0 /\ Z.land (tdn_reset cfg) 1 = 0)
  /\ (Z.land (snd (fixup_bayer addrs e0 cfg buf)) PISP_BE_BAYER_ENABLE_STITCH_INPUT <> 0 ->
      get_addr (buf_at buf STITCH_INPUT_NODE) <> 0)
  /\ (Z.land (snd (fixup_bayer addrs e0 cfg buf)) PISP_BE_BAYER_ENABLE_TDN_OUTPUT <> 0 ->
      get_addr (buf_at buf TDN_OUTPUT_NODE) <> 0)
  /\ (Z.land (snd (fixup_bayer addrs e0 cfg buf)) PISP_BE_BAYER_ENABLE_STITCH_OUTPUT <> 0 ->
      get_addr (buf_at buf STITCH_OUTPUT_NODE) <> 0).
Proof.
  unfold fixup_bayer. cbn zeta.
  set (a3 := get_addr (buf_at buf TDN_INPUT_NODE)).
  set (a4 := get_addr (buf_at buf STITCH_INPUT_NODE)).
  set (a5 := get_addr (buf_at buf TDN_OUTPUT_NODE)).
  set (a6 := get_addr (buf_at buf STITCH_OUTPUT_NODE)).
  set (c1 := (a3 =? 0) || negb (nz (Z.land e0 PISP_BE_BAYER_ENABLE_TDN_INPUT))
             || negb (nz (Z.land e0 PISP_BE_BAYER_ENABLE_TDN))
             || nz (Z.land (tdn_reset cfg) 1)).
  set (e1 := if c1 then _ else e0).
  set (c2 := (a4 =? 0) || negb (nz (Z.land e1 PISP_BE_BAYER_ENABLE_STITCH_INPUT))
             || negb (nz (Z.land e1 PISP_BE_BAYER_ENABLE_STITCH))).
  set (e2 := if c2 then _ else e1).
  set (e3 := if a5 =? 0 then _ else e2).
  set (e4 := if a6 =? 0 then _ else e3).
  cbn [snd].
  assert (Hc1def : c1 = (a3 =? 0) || negb (nz (Z.land e0 PISP_BE_BAYER_ENABLE_TDN_INPUT))
                        || negb (nz (Z.land e0 PISP_BE_BAYER_ENABLE_TDN))
                        || nz (Z.land (tdn_reset cfg) 1)) by reflexivity.
  assert (Hc2def : c2 = (a4 =? 0) || negb (nz (Z.land e1 PISP_BE_BAYER_ENABLE_STITCH_INPUT))
                        || negb (nz (Z.land e1 PISP_BE_BAYER_ENABLE_STITCH)))
    by reflexivity.
  clearbody c2. clearbody c1.
  assert (H43 : bits_within e4 e3) by (apply bits_within_if, bits_within_clear).
  assert (H32 : bits_within e3 e2) by (apply bits_within_if, bits_within_clear).
  assert (H21 : bits_within e2 e1) by (apply bits_within_if, bits_within_clear).
  assert (H10 : bits_within e1 e0).
  { unfold e1. apply bits_within_if. destruct (negb _).
    - eapply bits_within_trans; apply bits_within_clear.
    - apply bits_within_clear. }
  assert (H42 : bits_within e4 e2) by (eapply bits_within_trans; eassumption).
  assert (H41 : bits_within e4 e1) by (eapply bits_within_trans; eassumption).
  split; [eapply bits_within_trans; eassumption |].
  split; [| split; [| split]].
  - intros Hbit.
    assert (Hc1 : c1 = false).
    { destruct c1 eqn:Hc1; [| reflexivity]. exfalso. apply Hbit.
      eapply bits_within_land_zero; [exact H41 |]. unfold e1.
      destruct (negb _).
      - eapply bits_within_land_zero; [apply bits_within_clear | apply clear_bits_land_l].
      - apply clear_bits_land_l. }
    rewrite Hc1 in Hc1def. symmetry in Hc1def. rewrite !orb_false_iff in Hc1def.
    destruct Hc1def as [[[Ha _] _] Hr]. split; [now apply Z.eqb_neq | now apply nz_false].
  - intros Hbit. destruct c2 eqn:Hc2.
    + exfalso. apply Hbit. eapply bits_within_land_zero; [exact H42 |]. unfold e2.
      rewrite <- Z.lor_assoc. apply clear_bits_land_l.
    + symmetry in Hc2def. rewrite !orb_false_iff in Hc2def.
      destruct Hc2def as [[Ha _] _]. now apply Z.eqb_neq.
  - intros Hbit. destruct (a5 =? 0) eqn:Ha; [| now apply Z.eqb_neq].
    exfalso. apply Hbit. eapply bits_within_land_zero; [exact H43 |]. unfold e3.
    apply clear_bits_land_r.
  - intros Hbit. destruct (a6 =? 0) eqn:Ha; [| now apply Z.eqb_neq].
    exfalso. apply Hbit. unfold e4. apply clear_bits_land_r.
Qed.

Lemma fixup_bayer_reset addrs e0 cfg buf :
  Z.land (tdn_reset cfg) 1 <> 0 ->
  Z.land (snd (fixup_bayer addrs e0 cfg buf))
         (Z.lor PISP_BE_BAYER_ENABLE_TDN_INPUT PISP_BE_BAYER_ENABLE_TDN_DECOMPRESS) = 0
  /\ (Z.land PISP_BE_BAYER_ENABLE_TDN
             (Z.lor PISP_BE_BAYER_ENABLE_TDN_INPUT PISP_BE_BAYER_ENABLE_TDN_DECOMPRESS) = 0 ->
      Z.land PISP_BE_BAYER_ENABLE_TDN
             (Z.lor (Z.lor PISP_BE_BAYER_ENABLE_STITCH_INPUT
                           PISP_BE_BAYER_ENABLE_STITCH_DECOMPRESS)
                    PISP_BE_BAYER_ENABLE_STITCH) = 0 ->
      Z.land PISP_BE_BAYER_ENABLE_TDN
             (Z.lor PISP_BE_BAYER_ENABLE_TDN_COMPRESS PISP_BE_BAYER_ENABLE_TDN_OUTPUT) = 0 ->
      Z.land PISP_BE_BAYER_ENABLE_TDN
             (Z.lor PISP_BE_BAYER_ENABLE_STITCH_COMPRESS
                    PISP_BE_BAYER_ENABLE_STITCH_OUTPUT) = 0 ->
      Z.land (snd (fixup_bayer addrs e0 cfg buf)) PISP_BE_BAYER_ENABLE_TDN
      = Z.land e0 PISP_BE_BAYER_ENABLE_TDN).
Proof.
  intros Hreset. apply nz_true in Hreset. unfold fixup_bayer. cbn zeta.
  rewrite Hreset, orb_true_r. cbn [negb snd].
  assert (Hzero : forall (c : bool) e m k,
            Z.land e k = 0 -> Z.land (if c then clear_bits e m else e) k = 0).
  { intros c e m k Hk. destruct c; [| exact Hk].
    eapply bits_within_land_zero; [apply bits_within_clear | exact Hk]. }
  assert (Hstep : forall (c : bool) e m,
            Z.land PISP_BE_BAYER_ENABLE_TDN m = 0 ->
            Z.land (if c then clear_bits e m else e) PISP_BE_BAYER_ENABLE_TDN
            = Z.land e PISP_BE_BAYER_ENABLE_TDN).
  { intros c e m Hm. destruct c; [now apply clear_bits_land_other | reflexivity]. }
  split.
  - do 3 apply Hzero. apply clear_bits_land.
  - intros D1 D2 D3 D4. rewrite !Hstep by assumption.
    now apply clear_bits_land_other.
Qed.

(** X1.  The sanitiser only ever clears enable bits: every bit set in the
    sanitised masks was requested in the configuration. *)
Theorem fixup_addrs_enables_only_clears addrs cfg buf ng :
  bits_within (fst (snd (fixup_addrs_enables addrs cfg buf ng))) (bayer_enables cfg)
  /\ bits_within (snd (snd (fixup_addrs_enables addrs cfg buf ng))) (rgb_enables cfg).
Proof.
  unfold fixup_addrs_enables.
  destruct (get_addr_3 addrs 0 _ _) as [ret addrs0].
  destruct (ret <=? 0); [split; apply bits_within_zero |].
  assert (Hb : forall r : list Z * Z,
            r = (if nz (Z.land (bayer_enables cfg) PISP_BE_BAYER_ENABLE_INPUT)
                 then fixup_bayer addrs0 (bayer_enables cfg) cfg buf else (addrs0, 0)) ->
            bits_within (snd r) (bayer_enables cfg)).
  { intros r ->. destruct (nz _); [apply fixup_bayer_rules | apply bits_within_zero]. }
  destruct (if nz _ then _ else _) as [addrs1 e0'] eqn:Hbayer.
  specialize (Hb _ eq_refl). cbn [snd] in Hb.
  pose proof (fixup_outputs_rules buf ng (seq 0 PISP_BACK_END_NUM_OUTPUTS) addrs1
                (rgb_enables cfg)) as [Hout _].
  fold (fixup_outputs addrs1 (rgb_enables cfg) buf ng) in Hout.
  destruct (fixup_outputs addrs1 (rgb_enables cfg) buf ng) as [addrs2 e1'].
  cbn [fst snd] in *. split; [exact Hb |].
  eapply bits_within_trans; [| exact Hout]. apply bits_within_if, bits_within_clear.
Qed.

(** X2.  No stream is left enabled without memory to work on: when the
    sanitised masks enable anything, the main input has a buffer and a
    format; an enabled TDN or Stitch input or output has a buffer with a
    non-zero address; an enabled main output has a buffer and a format; an
    enabled HoG output has a non-zero address. *)
Theorem fixup_addrs_enables_enabled_has_buffer addrs cfg buf ng :
  (snd (fixup_addrs_enables addrs cfg buf ng) <> (0, 0) ->
   buf_at buf MAIN_INPUT_NODE <> None
   /\ pisp_format (node_at ng MAIN_INPUT_NODE) <> None
   /\ 0 < fmt_num_planes (node_at ng MAIN_INPUT_NODE))
  /\ (Z.land (fst (snd (fixup_addrs_enables addrs cfg buf ng)))
             PISP_BE_BAYER_ENABLE_TDN_INPUT <> 0 ->
      get_addr (buf_at buf TDN_INPUT_NODE) <> 0)
  /\ (Z.land (fst (snd (fixup_addrs_enables addrs cfg buf ng)))
             PISP_BE_BAYER_ENABLE_STITCH_INPUT <> 0 ->
      get_addr (buf_at buf STITCH_INPUT_NODE) <> 0)
  /\ (Z.land (fst (snd (fixup_addrs_enables addrs cfg buf ng)))
             PISP_BE_BAYER_ENABLE_TDN_OUTPUT <> 0 ->
      get_addr (buf_at buf TDN_OUTPUT_NODE) <> 0)
  /\ (Z.land (fst (snd (fixup_addrs_enables addrs cfg buf ng)))
             PISP_BE_BAYER_ENABLE_STITCH_OUTPUT <> 0 ->
      get_addr (buf_at buf STITCH_OUTPUT_NODE) <> 0)
  /\ (forall i, (i < PISP_BACK_END_NUM_OUTPUTS)%nat ->
        Z.land (snd (snd (fixup_addrs_enables addrs cfg buf ng)))
               (Z.shiftl PISP_BE_RGB_ENABLE_OUTPUT0 (Z.of_nat i)) <> 0 ->
        output_usable buf ng i)
  /\ (Z.land (snd (snd (fixup_addrs_enables addrs cfg buf ng)))
             PISP_BE_RGB_ENABLE_HOG <> 0 ->
      get_addr (buf_at buf HOG_OUTPUT_NODE) <> 0).
Proof.
  unfold fixup_addrs_enables.
  pose proof (get_addr_3_fst addrs 0 (buf_at buf MAIN_INPUT_NODE)
                (node_at ng MAIN_INPUT_NODE)) as Hret.
  destruct (get_addr_3 addrs 0 _ _) as [ret addrs0]. cbn [fst] in Hret.
  destruct (ret <=? 0) eqn:Hle.
  { cbn [fst snd]. repeat split; intros; rewrite ?Z.land_0_l in *; congruence. }
  apply Z.leb_gt in Hle.
  assert (Hb : forall r : list Z * Z,
            r = (if nz (Z.land (bayer_enables cfg) PISP_BE_BAYER_ENABLE_INPUT)
                 then fixup_bayer addrs0 (bayer_enables cfg) cfg buf else (addrs0, 0)) ->
            (Z.land (snd r) PISP_BE_BAYER_ENABLE_TDN_INPUT <> 0 ->
             get_addr (buf_at buf TDN_INPUT_NODE) <> 0)
            /\ (Z.land (snd r) PISP_BE_BAYER_ENABLE_STITCH_INPUT <> 0 ->
                get_addr (buf_at buf STITCH_INPUT_NODE) <> 0)
            /\ (Z.land (snd r) PISP_BE_BAYER_ENABLE_TDN_OUTPUT <> 0 ->
                get_addr (buf_at buf TDN_OUTPUT_NODE) <> 0)
            /\ (Z.land (snd r) PISP_BE_BAYER_ENABLE_STITCH_OUTPUT <> 0 ->
                get_addr (buf_at buf STITCH_OUTPUT_NODE) <> 0)).
  { intros r ->. destruct (nz _).
    - destruct (fixup_bayer_rules addrs0 (bayer_enables cfg) cfg buf)
        as (_ & H1 & H2 & H3 & H4).
      repeat split; try assumption. intros Hbit. now apply H1.
    - cbn [snd]. repeat split; intros; rewrite ?Z.land_0_l in *; congruence. }
  destruct (if nz _ then _ else _) as [addrs1 e0'] eqn:Hbayer.
  specialize (Hb _ eq_refl). cbn [snd] in Hb. destruct Hb as (H1 & H2 & H3 & H4).
  pose proof (fixup_outputs_rules buf ng (seq 0 PISP_BACK_END_NUM_OUTPUTS) addrs1
                (rgb_enables cfg)) as [_ Hout].
  fold (fixup_outputs addrs1 (rgb_enables cfg) buf ng) in Hout.
  destruct (fixup_outputs addrs1 (rgb_enables cfg) buf ng) as [addrs2 e1'].
  cbn [fst snd] in *.
  split; [| split; [exact H1 | split; [exact H2 | split; [exact H3 | split; [exact H4 |]]]]].
  - intros _. destruct (buf_at buf MAIN_INPUT_NODE);
      [destruct (pisp_format (node_at ng MAIN_INPUT_NODE)) |]; try lia.
    repeat split; [discriminate | discriminate | lia].
  - split.
    + intros i Hi Hbit. apply Hout; [apply in_seq; lia |].
      intros Hz. apply Hbit.
      eapply bits_within_land_zero; [apply bits_within_if, bits_within_clear | exact Hz].
    + intros Hbit. destruct (get_addr (buf_at buf HOG_OUTPUT_NODE) =? 0) eqn:Ha;
        [| now apply Z.eqb_neq].
      exfalso. apply Hbit. apply clear_bits_land.
Qed.

(** X3.  The TDN reset flag: when bit 0 of [tdn.reset] is set, the TDN input
    and its decompression are disabled whatever was requested and whatever
    buffers are there; and the TDN block itself stays as requested when
    the pipeline has its Bayer input (its bit being distinct from the bits
    of the streams). *)
Theorem fixup_addrs_enables_tdn_reset addrs cfg buf ng :
  Z.land (tdn_reset cfg) 1 <> 0 ->
  Z.land (fst (snd (fixup_addrs_enables addrs cfg buf ng)))
         (Z.lor PISP_BE_BAYER_ENABLE_TDN_INPUT PISP_BE_BAYER_ENABLE_TDN_DECOMPRESS) = 0
  /\ (0 < fst (get_addr_3 addrs 0 (buf_at buf MAIN_INPUT_NODE)
                 (node_at ng MAIN_INPUT_NODE)) ->
      Z.land (bayer_enables cfg) PISP_BE_BAYER_ENABLE_INPUT <> 0 ->
      Z.land PISP_BE_BAYER_ENABLE_TDN
             (Z.lor PISP_BE_BAYER_ENABLE_TDN_INPUT PISP_BE_BAYER_ENABLE_TDN_DECOMPRESS) = 0 ->
      Z.land PISP_BE_BAYER_ENABLE_TDN
             (Z.lor (Z.lor PISP_BE_BAYER_ENABLE_STITCH_INPUT
                           PISP_BE_BAYER_ENABLE_STITCH_DECOMPRESS)
                    PISP_BE_BAYER_ENABLE_STITCH) = 0 ->
      Z.land PISP_BE_BAYER_ENABLE_TDN
             (Z.lor PISP_BE_BAYER_ENABLE_TDN_COMPRESS PISP_BE_BAYER_ENABLE_TDN_OUTPUT) = 0 ->
      Z.land PISP_BE_BAYER_ENABLE_TDN
             (Z.lor PISP_BE_BAYER_ENABLE_STITCH_COMPRESS
                    PISP_BE_BAYER_ENABLE_STITCH_OUTPUT) = 0 ->
      Z.land (fst (snd (fixup_addrs_enables addrs cfg buf ng))) PISP_BE_BAYER_ENABLE_TDN
      = Z.land (bayer_enables cfg) PISP_BE_BAYER_ENABLE_TDN).
Proof.
  intros Hreset. unfold fixup_addrs_enables.
  destruct (get_addr_3 addrs 0 _ _) as [ret addrs0]. cbn [fst].
  destruct (ret <=? 0) eqn:Hle.
  { cbn [fst snd]. rewrite Z.land_0_l. split; [reflexivity |].
    apply Z.leb_le in Hle. lia. }
  destruct (fixup_bayer_reset addrs0 (bayer_enables cfg) cfg buf Hreset) as [Hin Htdn].
  destruct (nz (Z.land (bayer_enables cfg) PISP_BE_BAYER_ENABLE_INPUT)) eqn:Hbayer.
  - destruct (fixup_bayer addrs0 (bayer_enables cfg) cfg buf) as [addrs1 e0'].
    destruct (fixup_outputs addrs1 (rgb_enables cfg) buf ng) as [addrs2 e1'].
    cbn [fst snd] in *. split; [exact Hin |]. intros _ _. exact Htdn.
  - destruct (fixup_outputs addrs0 (rgb_enables cfg) buf ng) as [addrs2 e1'].
    cbn [fst snd]. rewrite Z.land_0_l. split; [reflexivity |].
    intros _ Hne. apply nz_false in Hbayer. contradiction.
Qed.

End SanitiserRules.

(** ** Plane addresses, continued *)

Lemma filled_planes_spec fuel np b f off p a pf :
  (p <= 3)%nat -> (3 <= p + fuel)%nat ->
  let r := filled_planes fuel np b f off p a pf in
  length (snd (fst r)) = length a
  /\ (p <= fst (fst r) <= 3)%nat
  /\ (forall j d, (j < off + p \/ off + fst (fst r) <= j)%nat ->
        nth j (snd (fst r)) d = nth j a d)
  /\ (forall q, (p <= q < fst (fst r))%nat -> (off + q < length a)%nat ->
        nth (off + q) (snd (fst r)) 0 = vb2_dma_contig_plane_dma_addr b q)
  /\ (forall q, (p <= q < 3)%nat -> Z.of_nat q < np -> (q < fst (fst r))%nat).
Proof.
  cbn zeta. revert p a pf.
  induction fuel as [| fuel IH]; intros p a pf Hp Hfuel; cbn [filled_planes].
  - cbn [fst snd]. repeat split; lia.
  - destruct ((Z.of_nat p <? np) && (Z.of_nat p <? 3)) eqn:Hguard.
    + apply andb_true_iff in Hguard. destruct Hguard as [Hnp H3].
      apply Z.ltb_lt in Hnp, H3.
      destruct (IH (S p) (<[(off + p)%nat := vb2_dma_contig_plane_dma_addr b p]> a)
                  (u32 (pf + factor_at f p))) as (Hlen & Hle & Hframe & Hfill & Hall);
        [lia | lia |].
      rewrite length_insert in Hlen, Hfill.
      split; [exact Hlen | split; [lia | split; [| split]]].
      * intros j d Hj. rewrite Hframe by lia. apply nth_insert_ne. lia.
      * intros q Hq Hlt. destruct (Nat.eq_dec q p) as [-> | Hne].
        -- rewrite Hframe by lia. now apply nth_insert_eq.
        -- apply Hfill; [lia | exact Hlt].
      * intros q Hq Hqn. destruct (Nat.eq_dec q p) as [-> | Hne]; [lia |].
        apply Hall; [lia | exact Hqn].
    + cbn [fst snd]. apply andb_false_iff in Hguard.
      split; [reflexivity | split; [lia | split; [reflexivity | split]]].
      * intros q Hq _. lia.
      * intros q Hq Hqn. destruct Hguard as [Hg | Hg]; apply Z.ltb_ge in Hg; lia.
Qed.

Lemma derived_planes_frame fuel size f off p a pf :
  length (derived_planes fuel size f off p a pf) = length a
  /\ forall j d, (j < off + p \/ off + 3 <= j)%nat ->
       nth j (derived_planes fuel size f off p a pf) d = nth j a d.
Proof.
  revert p a pf. induction fuel as [| fuel IH]; intros p a pf; cbn [derived_planes].
  - split; [reflexivity | intros; reflexivity].
  - destruct ((p <? MAX_PLANES)%nat && nz (factor_at f p)) eqn:Hguard;
      [| split; [reflexivity | intros; reflexivity]].
    apply andb_true_iff in Hguard. destruct Hguard as [Hp _].
    apply Nat.ltb_lt in Hp. unfold MAX_PLANES in Hp.
    destruct (IH (S p) (<[(off + p)%nat :=
                            u64 (nth off a 0 + Z.shiftr (u32 (size * pf)) 3)]> a)
                (u32 (pf + factor_at f p))) as [Hlen Hframe].
    rewrite length_insert in Hlen. split; [exact Hlen |].
    intros j d Hj. rewrite Hframe by lia. apply nth_insert_ne. lia.
Qed.

(** X4.  [get_addr_3] stays within the three slots it is given: the array
    keeps its length, and every slot outside [addr[0..2]] keeps its value,
    whatever the buffer and the format. *)
Theorem get_addr_3_window a off buf n j d :
  length (snd (get_addr_3 a off buf n)) = length a
  /\ ((j < off \/ off + 3 <= j)%nat -> nth j (snd (get_addr_3 a off buf n)) d = nth j a d).
Proof.
  unfold get_addr_3. destruct buf as [b |]; [| now split].
  destruct (pisp_format n) as [f |]; [| now split].
  destruct (filled_planes_spec 3 (fmt_num_planes n) b f off 0 a 0)
    as (Hlen & Hle & Hframe & _); [lia | lia |].
  destruct (filled_planes 3 (fmt_num_planes n) b f off 0 a 0) as [[p a'] pf].
  cbn [fst snd] in *.
  destruct (derived_planes_frame MAX_PLANES
              (u32 (fmt_bytesperline n * fmt_height n)) f off p a' pf) as [Hlen' Hframe'].
  split; [congruence |].
  intros Hj. rewrite Hframe' by lia. apply Hframe. lia.
Qed.

(** X5.  Every plane that the V4L2 buffer has (up to three) is used as it is:
    its address comes from the buffer, and no derived plane replaces it. *)
Theorem get_addr_3_filled_planes a off b n f p :
  pisp_format n = Some f ->
  (p < 3)%nat -> Z.of_nat p < fmt_num_planes n -> (off + p < length a)%nat ->
  nth (off + p) (snd (get_addr_3 a off (Some b) n)) 0
  = vb2_dma_contig_plane_dma_addr b p.
Proof.
  intros Hf Hp Hnp Hlen. unfold get_addr_3. rewrite Hf.
  destruct (filled_planes_spec 3 (fmt_num_planes n) b f off 0 a 0)
    as (_ & Hle & _ & Hfill & Hall); [lia | lia |].
  destruct (filled_planes 3 (fmt_num_planes n) b f off 0 a 0) as [[p' a'] pf].
  cbn [fst snd] in *.
  destruct (derived_planes_frame MAX_PLANES
              (u32 (fmt_bytesperline n * fmt_height n)) f off p' a' pf) as [_ Hframe'].
  assert (Hpp' : (p < p')%nat) by (apply Hall; [lia | exact Hnp]).
  rewrite Hframe' by lia. apply Hfill; [lia | exact Hlen].
Qed.

(** ** Admission, continued *)

Section AdmissionRules.
Context `{H_config : pisp_be_config_h} `{H_platform : platform}.


Lemma pull_buffers_length ids buf nodes qbuf :
  length (fst (pull_buffers ids buf nodes qbuf)) = length nodes
  /\ length (snd (pull_buffers ids buf nodes qbuf)) = length qbuf.
Proof.
  revert nodes qbuf. induction ids as [| j ids IH]; intros nodes qbuf;
    cbn [pull_buffers fst snd]; [now split |].
  destruct (IH (match buf_at buf j with
                | Some b => <[j := set_ready_queue
                                     (list_del b (ready_queue (nth j nodes zero_node)))
                                     (nth j nodes zero_node)]> nodes
                | None => nodes
                end) (<[j := buf_at buf j]> qbuf)) as (H1 & H2).
  rewrite H1, H2, length_insert. split; [| reflexivity].
  destruct (buf_at buf j); [apply length_insert | reflexivity].
Qed.

(** What an admission found at the front of the queues is what it stores
    in the job; for every node, the job's buffer followed by what is left in
    the ready queue is the ready queue as it was. *)
Lemma admission_effect d ng cb buf nodes qbuf :
  length (node ng) = PISPBE_NUM_NODES ->
  length (job_buf (queued_job d)) = PISPBE_NUM_NODES ->
  list_first_entry_or_null (ready_queue (node_at ng CONFIG_NODE)) = Some cb ->
  peek_buffers ng (config_at ng (vb2_index cb)) (seq 0 PISPBE_NUM_NODES)
    (<[CONFIG_NODE := Some cb]> (replicate PISPBE_NUM_NODES None)) = Some buf ->
  pull_buffers (seq 0 PISPBE_NUM_NODES) buf (node ng) (job_buf (queued_job d))
  = (nodes, qbuf) ->
  length nodes = PISPBE_NUM_NODES /\ length qbuf = PISPBE_NUM_NODES
  /\ forall i,
       (i < PISPBE_NUM_NODES)%nat ->
       buf_at qbuf i
       = (if (i =? CONFIG_NODE)%nat then Some cb
          else if streaming ng i
               then list_first_entry_or_null (ready_queue (node_at ng i))
               else None)
       /\ ready_queue (node_at ng i)
          = option_list (buf_at qbuf i) ++ ready_queue (nth i nodes zero_node).
Proof.
  intros Hnodes Hqlen Hcb Hpeek Hpull.
  destruct (pull_buffers_length (seq 0 PISPBE_NUM_NODES) buf (node ng)
              (job_buf (queued_job d))) as [Hl1 Hl2].
  rewrite Hpull in Hl1, Hl2. cbn [fst snd] in Hl1, Hl2.
  split; [congruence | split; [congruence |]].
  intros i Hi.
  destruct (peek_buffers_result _ _ _ _ _ i Hpeek) as (_ & Hin & Hout).
  destruct (pull_buffers_result (seq 0 PISPBE_NUM_NODES) buf (node ng)
              (job_buf (queued_job d)) i) as (Hq & Hn);
    [apply NoDup_seq | apply in_seq; lia | lia | lia |].
  rewrite Hpull in Hq, Hn. cbn [fst snd] in Hq, Hn.
  assert (Hbuf : buf_at buf i
                 = (if (i =? CONFIG_NODE)%nat then Some cb
                    else if streaming ng i
                         then list_first_entry_or_null (ready_queue (node_at ng i))
                         else None)).
  { unfold buf_at. destruct (Nat.eqb_spec i CONFIG_NODE) as [-> | Hne].
    - rewrite Hout by (now right). apply nth_insert_eq.
      rewrite length_replicate. unfold CONFIG_NODE, PISPBE_NUM_NODES. lia.
    - apply Hin; [apply in_seq; lia | exact Hne |].
      now rewrite length_insert, length_replicate. }
  assert (Hhead : forall b, buf_at buf i = Some b ->
                            exists q, ready_queue (node_at ng i) = b :: q).
  { intros b Hb. rewrite Hbuf in Hb.
    assert (Hh : list_first_entry_or_null (ready_queue (node_at ng i)) = Some b).
    { destruct (Nat.eqb_spec i CONFIG_NODE) as [-> | Hne]; [congruence |].
      destruct (streaming ng i); [exact Hb | discriminate]. }
    unfold list_first_entry_or_null in Hh.
    destruct (ready_queue (node_at ng i)) as [| x q]; [discriminate |].
    injection Hh as ->. now exists q. }
  assert (Hqb : buf_at qbuf i = buf_at buf i) by exact Hq.
  rewrite Hqb, Hn. split; [exact Hbuf |].
  fold (node_at ng i).
  destruct (buf_at buf i) as [b |] eqn:Hb; [| reflexivity].
  destruct (Hhead b eq_refl) as [q Hqi]. rewrite Hqi.
  cbn [ready_queue set_ready_queue option_list]. now rewrite list_del_head.
Qed.

(** X6.  An admission loses no buffer and invents none: for every node of the
    group, the buffer placed in the queued job (if any) followed by the
    ready queue after the call is the ready queue before the call. *)
Theorem admission_conserves_buffers g d ng :
  node_group d !! g = Some ng ->
  length (node ng) = PISPBE_NUM_NODES ->
  length (job_buf (queued_job d)) = PISPBE_NUM_NODES ->
  fst (pispbe_schedule_internal g d) <> 0 ->
  forall i,
    (i < PISPBE_NUM_NODES)%nat ->
    queue_of d g i
    = option_list (buf_at (job_buf (queued_job (snd (pispbe_schedule_internal g d)))) i)
      ++ queue_of (snd (pispbe_schedule_internal g d)) g i.
Proof.
  intros Hg Hnodes Hqlen Hok i Hi.
  destruct (pispbe_schedule_internal_inv g d Hok)
    as (ng0 & cb & buf & nodes & qbuf & Hg0 & _ & Hcb & Hpeek & Hpull & ->).
  rewrite Hg in Hg0. injection Hg0 as <-.
  destruct (admission_effect d ng cb buf nodes qbuf Hnodes Hqlen Hcb Hpeek Hpull)
    as (_ & _ & Hall).
  destruct (Hall i Hi) as [_ Hqueue].
  cbn [snd].
  match goal with
  | |- context [pispbe_start_job ?c ?t ?b ?n ?x] =>
      destruct (pispbe_start_job_frame c t b n x) as (Hgs & _ & Hqj & _)
  end.
  unfold queue_of. rewrite Hgs, Hqj.
  cbn [node_group queued_job set_hw_busy set_queued_job set_node_group job_buf].
  rewrite (nth_lookup_Some _ _ _ _ Hg).
  rewrite nth_insert_eq by (eapply lookup_lt_Some, Hg).
  exact Hqueue.
Qed.

Lemma streaming_main_input ng :
  Z.land (Z.lor (BIT CONFIG_NODE) (BIT MAIN_INPUT_NODE)) (streaming_map ng)
  = Z.lor (BIT CONFIG_NODE) (BIT MAIN_INPUT_NODE) ->
  streaming ng MAIN_INPUT_NODE = true.
Proof.
  intros Hmap. rewrite streaming_testbit.
  assert (Hbit : Z.testbit (Z.land (Z.lor (BIT CONFIG_NODE) (BIT MAIN_INPUT_NODE))
                              (streaming_map ng)) (Z.of_nat MAIN_INPUT_NODE) = true)
    by (rewrite Hmap; reflexivity).
  rewrite Z.land_spec in Hbit. now apply andb_true_iff in Hbit.
Qed.

Lemma ignore_buffers_main_input cfg : ignore_buffers cfg MAIN_INPUT_NODE = false.
Proof.
  unfold ignore_buffers, MAIN_INPUT_NODE, OUTPUT0_NODE, OUTPUT1_NODE, TDN_INPUT_NODE,
    TDN_OUTPUT_NODE, STITCH_INPUT_NODE, STITCH_OUTPUT_NODE.
  cbn [Nat.eqb]. now rewrite !andb_false_r.
Qed.

(** X7.  Every job that is admitted holds a config buffer and a main-input
    buffer: the buffers at the front of those two ready queues. *)
Theorem admitted_job_has_config_and_input g d ng :
  node_group d !! g = Some ng ->
  length (node ng) = PISPBE_NUM_NODES ->
  length (job_buf (queued_job d)) = PISPBE_NUM_NODES ->
  fst (pispbe_schedule_internal g d) <> 0 ->
  exists cb b,
    list_first_entry_or_null (queue_of d g CONFIG_NODE) = Some cb
    /\ list_first_entry_or_null (queue_of d g MAIN_INPUT_NODE) = Some b
    /\ buf_at (job_buf (queued_job (snd (pispbe_schedule_internal g d)))) CONFIG_NODE
       = Some cb
    /\ buf_at (job_buf (queued_job (snd (pispbe_schedule_internal g d)))) MAIN_INPUT_NODE
       = Some b
    /\ job_node_group (queued_job (snd (pispbe_schedule_internal g d))) = Some g.
Proof.
  intros Hg Hnodes Hqlen Hok.
  destruct (pispbe_schedule_internal_inv g d Hok)
    as (ng0 & cb & buf & nodes & qbuf & Hg0 & Hmap & Hcb & Hpeek & Hpull & ->).
  rewrite Hg in Hg0. injection Hg0 as <-.
  destruct (admission_effect d ng cb buf nodes qbuf Hnodes Hqlen Hcb Hpeek Hpull)
    as (_ & _ & Hall).
  destruct (Hall CONFIG_NODE) as [Hc _]; [unfold CONFIG_NODE, PISPBE_NUM_NODES; lia |].
  destruct (Hall MAIN_INPUT_NODE) as [Hm _];
    [unfold MAIN_INPUT_NODE, PISPBE_NUM_NODES; lia |].
  cbn [Nat.eqb CONFIG_NODE MAIN_INPUT_NODE] in Hc, Hm.
  fold MAIN_INPUT_NODE in Hm. rewrite (streaming_main_input ng Hmap) in Hm.
  destruct (ready_queue (node_at ng MAIN_INPUT_NODE)) as [| b q] eqn:Hqm.
  { exfalso.
    rewrite (peek_buffers_blocked ng _ MAIN_INPUT_NODE) in Hpeek;
      [discriminate
      | apply in_seq; unfold MAIN_INPUT_NODE, PISPBE_NUM_NODES; lia
      | discriminate
      | now apply streaming_main_input
      | apply ignore_buffers_main_input
      | exact Hqm]. }
  cbn [snd].
  match goal with
  | |- context [pispbe_start_job ?c ?t ?b ?n ?x] =>
      destruct (pispbe_start_job_frame c t b n x) as (_ & _ & Hqj & _)
  end.
  rewrite Hqj. cbn [queued_job set_hw_busy set_queued_job job_buf job_node_group].
  unfold queue_of. rewrite (nth_lookup_Some _ _ _ _ Hg).
  exists cb, b. rewrite Hqm. repeat split; assumption.
Qed.

(** X8.  An admission for one group leaves every other group as it is, whether
    it succeeds or not. *)
Theorem admission_leaves_other_groups g g' d :
  g' <> g ->
  node_group (snd (pispbe_schedule_internal g d)) !! g' = node_group d !! g'.
Proof.
  intros Hne.
  destruct (Z.eq_dec (fst (pispbe_schedule_internal g d)) 0) as [H0 | Hok].
  - now rewrite pispbe_schedule_internal_fail.
  - destruct (pispbe_schedule_internal_inv g d Hok)
      as (ng0 & cb & buf & nodes & qbuf & _ & _ & _ & _ & _ & ->).
    cbn [snd].
    match goal with
    | |- context [pispbe_start_job ?c ?t ?b ?n ?x] =>
        destruct (pispbe_start_job_frame c t b n x) as (-> & _)
    end.
    cbn [node_group set_hw_busy set_queued_job set_node_group].
    apply list_lookup_insert_ne. congruence.
Qed.

Lemma needed_streams m :
  Z.land (Z.lor (BIT CONFIG_NODE) (BIT MAIN_INPUT_NODE)) m
  = Z.lor (BIT CONFIG_NODE) (BIT MAIN_INPUT_NODE)
  <-> Z.testbit m (Z.of_nat CONFIG_NODE) = true
      /\ Z.testbit m (Z.of_nat MAIN_INPUT_NODE) = true.
Proof.
  split.
  - intros Hmap. split.
    + assert (Hbit : Z.testbit (Z.land (Z.lor (BIT CONFIG_NODE) (BIT MAIN_INPUT_NODE)) m)
                       (Z.of_nat CONFIG_NODE) = true) by (rewrite Hmap; reflexivity).
      rewrite Z.land_spec in Hbit. now apply andb_true_iff in Hbit.
    + assert (Hbit : Z.testbit (Z.land (Z.lor (BIT CONFIG_NODE) (BIT MAIN_INPUT_NODE)) m)
                       (Z.of_nat MAIN_INPUT_NODE) = true) by (rewrite Hmap; reflexivity).
      rewrite Z.land_spec in Hbit. now apply andb_true_iff in Hbit.
  - intros [Hc Hm]. apply Z.bits_inj'. intros n Hn.
    rewrite Z.land_spec, Z.lor_spec. rewrite <- (Z2Nat.id n Hn), !testbit_BIT.
    destruct (Nat.eqb_spec CONFIG_NODE (Z.to_nat n)) as [<- | _];
      [now rewrite Hc |].
    destruct (Nat.eqb_spec MAIN_INPUT_NODE (Z.to_nat n)) as [<- | _];
      [now rewrite Hm | reflexivity].
Qed.

(** X9.  An admission succeeds exactly when the config node and the main input
    node of the group stream, a config buffer is ready, and every other
    node that streams and whose block the configuration of that buffer
    enables has a buffer ready.  No other condition stands in its way; in
    particular the busy flag is for the callers to check. *)
Theorem admission_succeeds_iff g d ng :
  node_group d !! g = Some ng ->
  (fst (pispbe_schedule_internal g d) = 0 \/ fst (pispbe_schedule_internal g d) = 1)
  /\ (fst (pispbe_schedule_internal g d) = 1 <->
      streaming ng CONFIG_NODE = true /\ streaming ng MAIN_INPUT_NODE = true
      /\ exists cb,
           list_first_entry_or_null (ready_queue (node_at ng CONFIG_NODE)) = Some cb
           /\ forall i,
                (i < PISPBE_NUM_NODES)%nat -> i <> CONFIG_NODE ->
                streaming ng i = true ->
                ~ feature_bit_unset (config_at ng (vb2_index cb)) i ->
                ready_queue (node_at ng i) <> []).
Proof.
  intros Hg. split; [apply pispbe_schedule_internal_ret |].
  rewrite (pispbe_schedule_internal_fst g d ng Hg), !streaming_testbit.
  pose proof (needed_streams (streaming_map ng)) as Hneed.
  destruct (Z.eqb_spec (Z.land (Z.lor (BIT CONFIG_NODE) (BIT MAIN_INPUT_NODE))
                          (streaming_map ng))
              (Z.lor (BIT CONFIG_NODE) (BIT MAIN_INPUT_NODE))) as [Hmap | Hmap];
    cbn [negb].
  2:{ split; [discriminate |]. intros (Hc & Hm & _). exfalso. apply Hmap, Hneed.
      now split. }
  apply Hneed in Hmap. destruct Hmap as [Hc Hm].
  destruct (list_first_entry_or_null (ready_queue (node_at ng CONFIG_NODE))) as [cb |];
    [| split; [discriminate | intros (_ & _ & cb & Hcb & _); discriminate]].
  assert (Hready : forallb (node_ready ng (config_at ng (vb2_index cb)))
                     (seq 0 PISPBE_NUM_NODES) = true
                   <-> forall i,
                         (i < PISPBE_NUM_NODES)%nat -> i <> CONFIG_NODE ->
                         streaming ng i = true ->
                         ~ feature_bit_unset (config_at ng (vb2_index cb)) i ->
                         ready_queue (node_at ng i) <> []).
  { rewrite forallb_forall. split.
    - intros Hall i Hi Hcfg Hstr Hfeat. specialize (Hall i ltac:(apply in_seq; lia)).
      unfold node_ready in Hall. rewrite Hstr in Hall.
      apply Nat.eqb_neq in Hcfg. rewrite Hcfg in Hall. cbn [negb orb] in Hall.
      destruct (ignore_buffers (config_at ng (vb2_index cb)) i) eqn:Hign;
        [apply ignore_buffers_spec in Hign; contradiction |].
      cbn [orb] in Hall. destruct (ready_queue (node_at ng i)); [discriminate Hall | discriminate].
    - intros Hall i Hi%in_seq. unfold node_ready.
      destruct (Nat.eqb_spec i CONFIG_NODE) as [-> | Hcfg]; [reflexivity |].
      destruct (streaming ng i) eqn:Hstr; [| reflexivity].
      destruct (ignore_buffers (config_at ng (vb2_index cb)) i) eqn:Hign; [reflexivity |].
      cbn [negb orb].
      assert (Hq : ready_queue (node_at ng i) <> []).
      { apply Hall; [lia | exact Hcfg | exact Hstr |].
        intros Hfeat. apply ignore_buffers_spec in Hfeat. congruence. }
      destruct (ready_queue (node_at ng i)); [contradiction | reflexivity]. }
  destruct (forallb _ _).
  - split; [intros _ | reflexivity].
    split; [exact Hc |]. split; [exact Hm |]. exists cb. split; [reflexivity |].
    now apply Hready.
  - split; [discriminate |]. intros (_ & _ & cb' & [= <-] & Hall).
    apply Hready in Hall. discriminate.
Qed.

End AdmissionRules.

(** ** The interrupt handler and the two job slots, continued *)

Section Transitions.
Context `{H_config : pisp_be_config_h} `{H_platform : platform}.

Lemma node_alter_bump g (gs : list pispbe_node_group) :
  node <$> alter (fun ng => set_sequence (u32 (sequence ng + 1)) ng) g gs = node <$> gs.
Proof.
  rewrite (list_fmap_alter node _ id) by (apply Forall_forall; reflexivity).
  apply list_alter_id. reflexivity.
Qed.

(** What the comparison of the counters leaves behind, whatever the
    counters were. *)
Lemma pispbe_isr_reconcile_shape hw_started hw_done d :
  let r := pispbe_isr_reconcile hw_started hw_done d in
  done (snd r) = hw_done /\ started (snd r) = hw_started
  /\ hw_busy (snd r) = hw_busy d /\ mmio (snd r) = mmio d
  /\ ((fst r = 0 /\ queued_job (snd r) = queued_job d)
      \/ (fst r = 1 /\ queued_job (snd r) = no_job))
  /\ node <$> node_group (snd r) = node <$> node_group d
  /\ streaming_map <$> node_group (snd r) = streaming_map <$> node_group d.
Proof.
  destruct d as [gs busy [qg qbuf] [rg rbuf] dn st tr vb jd].
  unfold pispbe_isr_reconcile, pispbe_isr_jobdone, job_present.
  cbn [started done queued_job running_job job_node_group job_buf jobs_done vb2_done
       node_group hw_busy mmio set_started set_done set_queued_job set_running_job
       set_node_group set_vb2_done set_jobs_done].
  destruct rg as [gR |]; destruct qg as [gQ |];
    repeat (match goal with
            | |- context [Z.eqb ?a ?b] => destruct (Z.eqb_spec a b)
            end;
            cbn [started done queued_job running_job job_node_group job_buf jobs_done
                 vb2_done node_group hw_busy mmio set_started set_done set_queued_job
                 set_running_job set_node_group set_vb2_done set_jobs_done
                 fst snd andb orb negb]);
    rewrite ?node_alter_bump, ?streaming_map_alter_sequence;
    (split; [first [reflexivity | assumption] |]);
    (split; [first [reflexivity | assumption] |]);
    (split; [reflexivity |]); (split; [reflexivity |]);
    (split; [first [left; split; reflexivity | right; split; reflexivity] |]);
    split; reflexivity.
Qed.

(** X10.  After an interrupt that it handles, the shadow counters of the driver
    are the two counters it read from the batch status register, whatever
    they were before and whatever jobs were in the slots. *)
Theorem pispbe_isr_resynchronises d :
  irq_status_read d <> 0 ->
  done (snd (pispbe_isr d)) = u8 (batch_status_read d)
  /\ started (snd (pispbe_isr d)) = u8 (Z.shiftr (batch_status_read d) 8).
Proof.
  intros Hirq. rewrite (pispbe_isr_handled d Hirq).
  match goal with
  | |- context [pispbe_schedule_any ?c ?x] =>
      destruct (pispbe_schedule_any_frame c x) as (_ & -> & -> & _)
  end.
  match goal with
  | |- context [pispbe_isr_reconcile ?s ?e ?x] =>
      destruct (pispbe_isr_reconcile_shape s e x) as (-> & -> & _)
  end.
  split; reflexivity.
Qed.

(** *** The register trace only grows *)

Lemma hw_queue_job_prefix t addrs en cfg tiles n :
  t `prefix_of` hw_queue_job t addrs en cfg tiles n.
Proof.
  etransitivity; [apply (hw_queue_job_writes_prefix t addrs en cfg) |].
  destruct (read_back_spec (seq 0 N_HW_ADDRESSES) addrs (hw_queue_job_writes t addrs en cfg))
    as (evs & Hsnd & _).
  unfold hw_queue_job, hw_queue_job_writes in *.
  destruct (read_reg t PISP_BE_STATUS_OFFSET) as [st t1].
  destruct (read_back _ _ _) as [ok t2]. cbn [snd] in Hsnd. subst t2.
  destruct ok; [| now apply prefix_app_r].
  unfold write_reg. rewrite <- !app_assoc. now apply prefix_app_r.
Qed.

Lemma pispbe_start_job_mmio cfg tiles buf ng d :
  mmio d `prefix_of` mmio (pispbe_start_job cfg tiles buf ng d).
Proof.
  unfold pispbe_start_job.
  destruct (fixup_addrs_enables (hw_dma_addrs_uninit (mmio d)) cfg buf ng) as [addrs en].
  cbn [mmio set_mmio]. apply hw_queue_job_prefix.
Qed.

Lemma pispbe_schedule_internal_mmio g d :
  mmio d `prefix_of` mmio (snd (pispbe_schedule_internal g d)).
Proof.
  destruct (Z.eq_dec (fst (pispbe_schedule_internal g d)) 0) as [H0 | Hok].
  - now rewrite pispbe_schedule_internal_fail.
  - destruct (pispbe_schedule_internal_inv g d Hok)
      as (ng0 & cb & buf & nodes & qbuf & _ & _ & _ & _ & _ & ->).
    cbn [snd].
    match goal with
    | |- context [pispbe_start_job ?c ?t ?b ?n ?x] =>
        exact (pispbe_start_job_mmio c t b n x)
    end.
Qed.

Lemma pispbe_schedule_any_mmio c d :
  mmio d `prefix_of` mmio (pispbe_schedule_any c d).
Proof.
  unfold pispbe_schedule_any.
  assert (Hd0 : mmio (if nz c then set_hw_busy 0 d else d) = mmio d)
    by (destruct (nz c); reflexivity).
  rewrite <- Hd0.
  destruct (hw_busy (if nz c then set_hw_busy 0 d else d) =? 0); [| reflexivity].
  rewrite schedule_scan_two.
  destruct (nz (fst (pispbe_schedule_internal 0 _)));
    apply pispbe_schedule_internal_mmio.
Qed.

(** X11.  The interrupt is handled exactly when the status register reads
    non-zero.  If it reads zero, nothing happens but that read.  If not,
    the handler writes the value it read back to the status register, to
    acknowledge exactly those bits, and reads the batch status next. *)
Theorem pispbe_isr_status_protocol d :
  (irq_status_read d = 0 ->
   fst (pispbe_isr d) = IRQ_NONE
   /\ snd (pispbe_isr d)
      = set_mmio (mmio d ++ [MmioRead PISP_BE_INTERRUPT_STATUS_OFFSET 0]) d)
  /\ (irq_status_read d <> 0 ->
      fst (pispbe_isr d) = IRQ_HANDLED
      /\ exists rest,
           mmio (snd (pispbe_isr d))
           = mmio d
             ++ [MmioRead PISP_BE_INTERRUPT_STATUS_OFFSET (irq_status_read d);
                 MmioWrite PISP_BE_INTERRUPT_STATUS_OFFSET (u32 (irq_status_read d));
                 MmioRead PISP_BE_BATCH_STATUS_OFFSET (batch_status_read d)]
             ++ rest).
Proof.
  split.
  - intros Hirq. unfold pispbe_isr, irq_status_read in *.
    unfold read_reg in *. cbn [fst snd mmio set_mmio] in *.
    rewrite Hirq. cbn [Z.eqb fst snd]. split; reflexivity.
  - intros Hirq. split.
    + unfold pispbe_isr, irq_status_read in *.
      unfold read_reg in *. cbn [fst snd mmio set_mmio] in *.
      apply Z.eqb_neq in Hirq. rewrite Hirq.
      destruct (pispbe_isr_reconcile _ _ _). reflexivity.
    + rewrite (pispbe_isr_handled d Hirq).
      match goal with
      | |- context [pispbe_schedule_any ?c ?x] =>
          destruct (pispbe_schedule_any_mmio c x) as [rest Hrest]
      end.
      match type of Hrest with
      | context [pispbe_isr_reconcile ?s ?e ?x] =>
          destruct (pispbe_isr_reconcile_shape s e x) as (_ & _ & _ & Hm & _)
      end.
      rewrite Hm in Hrest. exists rest. rewrite Hrest.
      unfold batch_status_read, irq_status_read, read_reg, write_reg.
      cbn [mmio set_mmio fst snd]. now rewrite <- !app_assoc.
Qed.

(** *** Every job is accounted for *)

Lemma returned_ids_complete ts seq_no buf log :
  returned_ids (complete_buffers ts seq_no buf log)
  = returned_ids log
    ++ map (fun b => (buffer_id b, VB2_BUF_STATE_DONE))
         (omap (buf_at buf) (seq 0 PISPBE_NUM_NODES)).
Proof.
  unfold complete_buffers.
  assert (Hfold : forall ids log,
             fold_left
               (fun log i =>
                  match buf_at buf i with
                  | Some b => log ++ [(stamped ts seq_no b, VB2_BUF_STATE_DONE)]
                  | None => log
                  end) ids log
             = log ++ map (fun b => (stamped ts seq_no b, VB2_BUF_STATE_DONE))
                        (omap (buf_at buf) ids)).
  { clear. intros ids. induction ids as [| i ids IH]; intros log; cbn [fold_left];
      [cbn; now rewrite app_nil_r |].
    rewrite IH. cbn [omap list_omap]. destruct (buf_at buf i) as [b |]; [| reflexivity].
    cbn [map]. now rewrite <- app_assoc. }
  rewrite Hfold. unfold returned_ids. rewrite map_app, map_map. reflexivity.
Qed.

Ltac accounts_finish :=
  cbn [List.filter job_present no_job job_node_group job_buf app omap list_omap map
       concat];
  rewrite ?returned_ids_complete, ?app_nil_r, <- ?app_assoc;
  repeat split; reflexivity.

(** X12.  The comparison of the counters accounts for every job.  Unless a
    start is reported while the running job is not reported done, a job
    leaves the slots only by being returned: the jobs that were in the slots
    are the jobs that were completed, the running one first, followed by
    the jobs that are in the slots afterwards, and the buffers returned are
    exactly the buffers of the completed jobs, in that order, in the state
    done.  In the excepted case the queued job takes the place of the
    running job, and the buffers of the running job are not returned. *)
Theorem pispbe_isr_reconcile_accounts hw_started hw_done d :
  let r := snd (pispbe_isr_reconcile hw_started hw_done d) in
  (~ (job_present (running_job d) = true /\ done d = hw_done
      /\ started d <> hw_started) ->
   exists completed,
     present_jobs d = completed ++ present_jobs r
     /\ jobs_done r = jobs_done d ++ omap job_node_group completed
     /\ returned_ids (vb2_done r) = returned_ids (vb2_done d) ++ done_ids completed)
  /\ (job_present (running_job d) = true -> done d = hw_done ->
      started d <> hw_started ->
      running_job r = queued_job d /\ queued_job r = no_job
      /\ vb2_done r = vb2_done d /\ jobs_done r = jobs_done d).
Proof.
  destruct d as [gs busy [qg qbuf] [rg rbuf] dn st tr vb jd].
  unfold pispbe_isr_reconcile, pispbe_isr_jobdone, job_present, present_jobs, done_ids,
    job_buffers.
  cbn [started done queued_job running_job job_node_group job_buf jobs_done vb2_done
       node_group hw_busy mmio set_started set_done set_queued_job set_running_job
       set_node_group set_vb2_done set_jobs_done].
  destruct rg as [gR |]; destruct qg as [gQ |];
    destruct (Z.eqb_spec dn hw_done) as [Hdn | Hdn];
    destruct (Z.eqb_spec st hw_started) as [Hst | Hst];
    cbn [started done queued_job running_job job_node_group job_buf jobs_done
         vb2_done node_group hw_busy mmio set_started set_done set_queued_job
         set_running_job set_node_group set_vb2_done set_jobs_done
         fst snd andb orb negb];
    repeat (match goal with
            | |- context [Z.eqb ?a ?b] => destruct (Z.eqb_spec a b)
            end;
            cbn [started done queued_job running_job job_node_group job_buf jobs_done
                 vb2_done node_group hw_busy mmio set_started set_done set_queued_job
                 set_running_job set_node_group set_vb2_done set_jobs_done
                 fst snd andb orb negb]);
    (split;
     [ intros Hno;
       first
         [ exfalso; apply Hno; repeat split; first [assumption | reflexivity]
         | exists []; accounts_finish
         | eexists [_]; accounts_finish
         | eexists [_; _]; accounts_finish ]
     | intros H1 H2 H3;
       first [ discriminate H1 | contradiction | repeat split; reflexivity ] ]).
Qed.

(** *** The busy flag and the queued slot *)

Lemma slot_invariant_frame d d' :
  hw_busy d' = hw_busy d -> queued_job d' = queued_job d ->
  slot_invariant d -> slot_invariant d'.
Proof. unfold slot_invariant. intros -> ->. exact id. Qed.

Lemma pispbe_schedule_internal_slot g d :
  slot_invariant d -> slot_invariant (snd (pispbe_schedule_internal g d)).
Proof.
  intros Hinv.
  destruct (Z.eq_dec (fst (pispbe_schedule_internal g d)) 0) as [H0 | Hok].
  - now rewrite pispbe_schedule_internal_fail.
  - destruct (pispbe_schedule_internal_busy g d Hok) as [Hb Hq].
    unfold slot_invariant, job_present. rewrite Hb, Hq. split; [reflexivity | discriminate].
Qed.

Lemma pispbe_schedule_one_slot g d :
  slot_invariant d -> slot_invariant (pispbe_schedule_one g d).
Proof.
  intros Hinv. unfold pispbe_schedule_one.
  destruct (nz (hw_busy d)); [exact Hinv | now apply pispbe_schedule_internal_slot].
Qed.

Lemma schedule_scan_slot d :
  slot_invariant d -> slot_invariant (schedule_scan (seq 0 PISPBE_NUM_NODE_GROUPS) d).
Proof.
  intros Hinv. rewrite schedule_scan_two.
  destruct (nz (fst (pispbe_schedule_internal 0 d)));
    now apply pispbe_schedule_internal_slot.
Qed.

Lemma pispbe_schedule_any_slot c d :
  ((c = 0 /\ slot_invariant d) \/ (c = 1 /\ queued_job d = no_job)) ->
  slot_invariant (pispbe_schedule_any c d).
Proof.
  intros Hc. unfold pispbe_schedule_any.
  assert (Hd0 : slot_invariant (if nz c then set_hw_busy 0 d else d)).
  { destruct Hc as [[-> Hinv] | [-> Hq]]; [exact Hinv |].
    unfold slot_invariant. cbn [nz Z.eqb negb hw_busy set_hw_busy queued_job].
    rewrite Hq. split; [congruence | discriminate]. }
  destruct (hw_busy (if nz c then set_hw_busy 0 d else d) =? 0);
    [now apply schedule_scan_slot | exact Hd0].
Qed.

Lemma run_call_slot c d :
  slot_invariant d -> slot_invariant (run_call c d).
Proof.
  intros Hinv. destruct c as [g i b | g i pm | g i | g i |]; cbn [run_call].
  - unfold pispbe_node_buffer_queue. apply pispbe_schedule_one_slot.
    revert Hinv. now apply slot_invariant_frame.
  - unfold pispbe_node_start_streaming. destruct (pm <? 0); cbn [snd]; [exact Hinv |].
    apply pispbe_schedule_one_slot. revert Hinv. now apply slot_invariant_frame.
  - unfold stop_streaming_drain. destruct (node_group d !! g); [| exact Hinv].
    revert Hinv. now apply slot_invariant_frame.
  - unfold stop_streaming_finish. revert Hinv. now apply slot_invariant_frame.
  - destruct (Z.eq_dec (irq_status_read d) 0) as [H0 | Hirq].
    + rewrite (pispbe_isr_none d H0). revert Hinv. now apply slot_invariant_frame.
    + rewrite (pispbe_isr_handled d Hirq).
      match goal with
      | |- context [pispbe_isr_reconcile ?s ?e ?x] =>
          destruct (pispbe_isr_reconcile_shape s e x)
            as (_ & _ & Hbusy & _ & Hslot & _)
      end.
      apply pispbe_schedule_any_slot.
      destruct Hslot as [[-> Hq] | [-> Hq]]; [left | right; now split].
      split; [reflexivity |].
      unfold slot_invariant. rewrite Hbusy, Hq. exact Hinv.
Qed.

(** X13.  The busy flag is set exactly while a job waits in the queued slot:
    every sequence of calls keeps it so. *)
Theorem busy_flag_tracks_queued_slot cs d :
  slot_invariant d -> slot_invariant (run_calls cs d).
Proof.
  revert d. induction cs as [| c cs IH]; intros d Hinv; [exact Hinv |].
  apply IH. now apply run_call_slot.
Qed.

End Transitions.

(** ** The ready queues *)

Section ReadyQueues.
Context `{H_config : pisp_be_config_h} `{H_platform : platform}.

Lemma nth_alter_eq {A} (f : A -> A) (l : list A) (i : nat) (x : A) :
  (i < length l)%nat -> nth i (alter f i l) x = f (nth i l x).
Proof.
  intros Hi. rewrite !nth_lookup, list_lookup_alter_eq.
  destruct (lookup_lt_is_Some_2 l i Hi) as [y ->]. reflexivity.
Qed.












End ReadyQueues.

(** ** Starting and stopping a stream; returning a job *)

Section Streaming.
Context `{H_config : pisp_be_config_h} `{H_platform : platform}.

Lemma lookup_fmap_eq {A B} (f : A -> B) (l l' : list A) g x :
  f <$> l' = f <$> l -> l !! g = Some x ->
  exists x', l' !! g = Some x' /\ f x' = f x.
Proof.
  intros Hf Hx.
  assert (Hl : (f <$> l') !! g = Some (f x))
    by (rewrite Hf, list_lookup_fmap, Hx; reflexivity).
  rewrite list_lookup_fmap in Hl. destruct (l' !! g) as [x' |]; [| discriminate].
  exists x'. split; [reflexivity | now injection Hl].
Qed.

(** X15.  [pispbe_node_start_streaming] fails with the error of the power
    management call and changes nothing; otherwise it returns 0, sets the
    bit of its node in the streaming map of the group, leaves every other
    bit as it is, and resets the sequence counter of the group. *)
Theorem start_streaming_sets_its_bit g i pm d ng :
  node_group d !! g = Some ng ->
  (pm < 0 -> pispbe_node_start_streaming g i pm d = (pm, d))
  /\ (0 <= pm ->
      fst (pispbe_node_start_streaming g i pm d) = 0
      /\ exists ng',
           node_group (snd (pispbe_node_start_streaming g i pm d)) !! g = Some ng'
           /\ sequence ng' = 0
           /\ forall j, streaming ng' j = (i =? j)%nat || streaming ng j).
Proof.
  intros Hg. unfold pispbe_node_start_streaming. split; intros Hpm.
  - apply Z.ltb_lt in Hpm. now rewrite Hpm.
  - apply Z.ltb_ge in Hpm. rewrite Hpm. cbn [fst snd]. split; [reflexivity |].
    match goal with
    | |- context [pispbe_schedule_one ?x ?y] =>
        destruct (pispbe_schedule_one_frame x y) as (_ & _ & _ & _ & _ & Hsq & Hmap);
        assert (Hg1 : node_group y !! g
                      = Some (set_sequence 0
                                (set_streaming_map (Z.lor (streaming_map ng) (BIT i)) ng)))
          by (cbn [node_group set_node_group];
              rewrite list_lookup_alter_eq, Hg; reflexivity)
    end.
    destruct (lookup_fmap_eq _ _ _ _ _ Hsq Hg1) as (ng' & Hg' & Hsq').
    destruct (lookup_fmap_eq _ _ _ _ _ Hmap Hg1) as (ng'' & Hg'' & Hmap').
    rewrite Hg' in Hg''. injection Hg'' as <-.
    exists ng'. split; [exact Hg' | split; [exact Hsq' |]].
    intros j. rewrite !streaming_testbit, Hmap'.
    cbn [streaming_map set_sequence set_streaming_map].
    rewrite Z.lor_spec, testbit_BIT. apply orb_comm.
Qed.

(** X16.  The last step of [pispbe_node_stop_streaming] clears the bit of its
    node in the streaming map of the group and nothing else: every other
    bit, the ready queues, the counters and the job slots stay. *)
Theorem stop_streaming_clears_its_bit g i d ng :
  node_group d !! g = Some ng ->
  exists ng',
    node_group (stop_streaming_finish g i d) !! g = Some ng'
    /\ (forall j, streaming ng' j = negb (i =? j)%nat && streaming ng j)
    /\ node ng' = node ng /\ sequence ng' = sequence ng
    /\ (forall g', g' <> g ->
          node_group (stop_streaming_finish g i d) !! g' = node_group d !! g')
    /\ queued_job (stop_streaming_finish g i d) = queued_job d
    /\ running_job (stop_streaming_finish g i d) = running_job d
    /\ hw_busy (stop_streaming_finish g i d) = hw_busy d
    /\ mmio (stop_streaming_finish g i d) = mmio d.
Proof.
  intros Hg. unfold stop_streaming_finish. cbn [node_group set_node_group].
  eexists. split; [rewrite list_lookup_alter_eq, Hg; reflexivity |].
  split; [| split; [reflexivity | split; [reflexivity | split; [| repeat split]]]].
  - intros j. rewrite !streaming_testbit. cbn [streaming_map set_streaming_map].
    rewrite clear_bits_spec, testbit_BIT by lia. apply andb_comm.
  - intros g' Hne. apply list_lookup_alter_ne. congruence.
Qed.

(** X17.  When [pispbe_node_stop_streaming] has returned the buffers of the
    config node or of the main input node, no job of that group is admitted:
    an admission fails and changes nothing. *)
Theorem drained_node_blocks_admission g i d ng :
  node_group d !! g = Some ng ->
  (i < length (node ng))%nat ->
  i = CONFIG_NODE \/ i = MAIN_INPUT_NODE ->
  queue_of (stop_streaming_drain g i d) g i = []
  /\ pispbe_schedule_internal g (stop_streaming_drain g i d)
     = (0, stop_streaming_drain g i d).
Proof.
  intros Hg Hi Hnode.
  assert (Hq : queue_of (stop_streaming_drain g i d) g i = []).
  { unfold stop_streaming_drain, queue_of. rewrite Hg.
    cbn [node_group set_node_group set_vb2_done].
    rewrite nth_alter_eq by (eapply lookup_lt_Some, Hg).
    unfold node_at. cbn [node set_node].
    rewrite (nth_lookup_Some _ _ _ _ Hg), nth_alter_eq by exact Hi. reflexivity. }
  split; [exact Hq |].
  destruct (Z.eq_dec (fst (pispbe_schedule_internal g (stop_streaming_drain g i d))) 0)
    as [H0 | Hok].
  { pose proof (pispbe_schedule_internal_fail _ _ H0) as Hs. revert H0 Hs.
    destruct (pispbe_schedule_internal g (stop_streaming_drain g i d)) as [r d'].
    cbn [fst snd]. now intros -> ->. }
  exfalso.
  destruct (pispbe_schedule_internal_inv _ _ Hok)
    as (ng1 & cb & buf & nodes & qbuf & Hg1 & Hmap & Hcb & Hpeek & _).
  unfold queue_of in Hq. rewrite (nth_lookup_Some _ _ _ _ Hg1) in Hq.
  destruct Hnode as [-> | ->].
  - rewrite Hq in Hcb. discriminate.
  - rewrite (peek_buffers_blocked ng1 _ MAIN_INPUT_NODE) in Hpeek;
      [discriminate
      | apply in_seq; unfold MAIN_INPUT_NODE, PISPBE_NUM_NODES; lia
      | discriminate
      | now apply streaming_main_input
      | apply ignore_buffers_main_input
      | exact Hq].
Qed.

Lemma complete_buffers_fold ts seq_no buf ids log :
  fold_left
    (fun log i =>
       match buf_at buf i with
       | Some b => log ++ [(stamped ts seq_no b, VB2_BUF_STATE_DONE)]
       | None => log
       end) ids log
  = log ++ map (fun b => (stamped ts seq_no b, VB2_BUF_STATE_DONE))
             (omap (buf_at buf) ids).
Proof.
  revert log. induction ids as [| i ids IH]; intros log; cbn [fold_left];
    [cbn; now rewrite app_nil_r |].
  rewrite IH. cbn [omap list_omap]. destruct (buf_at buf i) as [b |]; [| reflexivity].
  cbn [map]. now rewrite <- app_assoc.
Qed.

(** X18.  [pispbe_isr_jobdone] returns the buffers of the job and nothing else:
    each buffer once, in the order of the nodes, in the state done, all with
    one timestamp and with the sequence number the group had before the
    call; then it advances the sequence counter of that group alone. *)
Theorem pispbe_isr_jobdone_returns_job job g d :
  job_node_group job = Some g ->
  vb2_done (pispbe_isr_jobdone job d)
  = vb2_done d
    ++ map (fun b => (stamped (ktime_get_ns (length (jobs_done d)))
                        (sequence (nth g (node_group d) zero_group)) b,
                      VB2_BUF_STATE_DONE))
         (omap (buf_at (job_buf job)) (seq 0 PISPBE_NUM_NODES))
  /\ sequence <$> node_group (pispbe_isr_jobdone job d)
     = alter (fun s => u32 (s + 1)) g (sequence <$> node_group d)
  /\ node <$> node_group (pispbe_isr_jobdone job d) = node <$> node_group d
  /\ streaming_map <$> node_group (pispbe_isr_jobdone job d)
     = streaming_map <$> node_group d.
Proof.
  intros Hg. destruct (pispbe_isr_jobdone_spec job g d Hg) as (-> & -> & _).
  split; [apply complete_buffers_fold |].
  split; [apply sequence_alter_bump |].
  split; [apply node_alter_bump | apply streaming_map_alter_sequence].
Qed.

End Streaming.

(** ** Dispatch, continued: hardware that reads back what was written *)

Section Echo.
Context `{H_config : pisp_be_config_h} `{H_platform : platform}.

(** A 64-bit address written as two 32-bit halves and put together again
    as the read-back check does. *)
Lemma address_halves a :
  u64 (u32 a + u64 (Z.shiftl (u32 (Z.shiftr a 32)) 32)) = u64 a.
Proof.
  unfold u32, u64. rewrite Z.shiftr_div_pow2, Z.shiftl_mul_pow2 by lia.
  assert (H32 : 0 <= a mod 2 ^ 32 < 2 ^ 32) by (apply Z.mod_pos_bound; lia).
  assert (Hq : 0 <= (a / 2 ^ 32) mod 2 ^ 32 < 2 ^ 32) by (apply Z.mod_pos_bound; lia).
  rewrite (Z.mod_small ((a / 2 ^ 32) mod 2 ^ 32 * 2 ^ 32)) by lia.
  rewrite (Z.mod_small (a mod 2 ^ 32 + _)) by lia.
  change (2 ^ 64) with (2 ^ 32 * 2 ^ 32).
  rewrite Z.rem_mul_r by lia. lia.
Qed.

Lemma u32_idem x : u32 (u32 x) = u32 x.
Proof. unfold u32. apply Z.mod_mod. lia. Qed.

Lemma last_write_app t t' offset dflt :
  last_write (t ++ t') offset dflt = last_write t' offset (last_write t offset dflt).
Proof.
  revert dflt. induction t as [| [o v | o v] t IH]; intros dflt; cbn [app last_write];
    [reflexivity | apply IH | apply IH].
Qed.

Lemma last_write_write t o v offset dflt :
  last_write (write_reg t o v) offset dflt
  = if o =? offset then u32 v else last_write t offset dflt.
Proof. unfold write_reg. rewrite last_write_app. reflexivity. Qed.

Lemma last_write_read t o offset dflt :
  last_write (snd (read_reg t o)) offset dflt = last_write t offset dflt.
Proof. unfold read_reg. cbn [snd]. rewrite last_write_app. reflexivity. Qed.

Lemma write_address_last addrs t u v :
  (u < N_HW_ADDRESSES)%nat -> (v < N_HW_ADDRESSES)%nat ->
  (u = v ->
   last_write (write_address addrs t v) (0x40 + 8 * Z.of_nat u) 0 = u32 (nth u addrs 0)
   /\ last_write (write_address addrs t v) (0x44 + 8 * Z.of_nat u) 0
      = u32 (Z.shiftr (nth u addrs 0) 32))
  /\ (u <> v ->
      last_write (write_address addrs t v) (0x40 + 8 * Z.of_nat u) 0
      = last_write t (0x40 + 8 * Z.of_nat u) 0
      /\ last_write (write_address addrs t v) (0x44 + 8 * Z.of_nat u) 0
         = last_write t (0x44 + 8 * Z.of_nat u) 0).
Proof.
  intros Hu Hv. unfold write_address. cbn zeta.
  rewrite addr_offset_lo, addr_offset_hi by exact Hv.
  rewrite !last_write_write. split.
  - intros ->. rewrite !u32_idem, Z.eqb_refl.
    destruct (Z.eqb_spec (0x44 + 8 * Z.of_nat v) (0x40 + 8 * Z.of_nat v)); [lia |].
    rewrite Z.eqb_refl. now split.
  - intros Hne.
    destruct (Z.eqb_spec (0x44 + 8 * Z.of_nat v) (0x40 + 8 * Z.of_nat u)); [lia |].
    destruct (Z.eqb_spec (0x40 + 8 * Z.of_nat v) (0x40 + 8 * Z.of_nat u)); [lia |].
    destruct (Z.eqb_spec (0x44 + 8 * Z.of_nat v) (0x44 + 8 * Z.of_nat u)); [lia |].
    destruct (Z.eqb_spec (0x40 + 8 * Z.of_nat v) (0x44 + 8 * Z.of_nat u)); [lia |].
    now split.
Qed.

Lemma write_addresses_fold addrs us t u :
  Forall (fun v => (v < N_HW_ADDRESSES)%nat) us -> (u < N_HW_ADDRESSES)%nat ->
  (In u us ->
   last_write (fold_left (write_address addrs) us t) (0x40 + 8 * Z.of_nat u) 0
   = u32 (nth u addrs 0)
   /\ last_write (fold_left (write_address addrs) us t) (0x44 + 8 * Z.of_nat u) 0
      = u32 (Z.shiftr (nth u addrs 0) 32))
  /\ (~ In u us ->
      last_write (fold_left (write_address addrs) us t) (0x40 + 8 * Z.of_nat u) 0
      = last_write t (0x40 + 8 * Z.of_nat u) 0
      /\ last_write (fold_left (write_address addrs) us t) (0x44 + 8 * Z.of_nat u) 0
         = last_write t (0x44 + 8 * Z.of_nat u) 0).
Proof.
  intros Hus Hu. revert t. induction Hus as [| v us Hv Hus IH]; intros t;
    cbn [fold_left]; [split; [intros [] | now split] |].
  destruct (IH (write_address addrs t v)) as [IHin IHout].
  destruct (write_address_last addrs t u v Hu Hv) as [Heq Hne].
  destruct (in_dec Nat.eq_dec u us) as [Hin | Hnin].
  - split; [intros _; now apply IHin | intros Hno; exfalso; apply Hno; now right].
  - destruct (Nat.eq_dec u v) as [-> | Huv].
    + split; [| intros Hno; exfalso; apply Hno; now left].
      intros _. destruct (IHout Hnin) as [-> ->]. now apply Heq.
    + split; [intros [Hv' | Hin']; [congruence | contradiction] |].
      intros _. destruct (IHout Hnin) as [-> ->]. now apply Hne.
Qed.

Lemma write_addresses_holds addrs t : holds_addresses addrs (write_addresses addrs t).
Proof.
  intros u Hu. unfold write_addresses.
  apply (write_addresses_fold addrs (seq 0 N_HW_ADDRESSES) t u).
  - apply Forall_forall. intros v Hv%elem_of_seq. lia.
  - exact Hu.
  - apply in_seq. lia.
Qed.

Lemma holds_addresses_write addrs t o v :
  0xB0 <= o -> holds_addresses addrs t -> holds_addresses addrs (write_reg t o v).
Proof.
  intros Ho Ht u Hu. rewrite !last_write_write.
  unfold N_HW_ADDRESSES in Hu.
  destruct (Z.eqb_spec o (0x40 + 8 * Z.of_nat u)); [lia |].
  destruct (Z.eqb_spec o (0x44 + 8 * Z.of_nat u)); [lia |].
  now apply Ht.
Qed.

Lemma write_config_holds addrs cfg t :
  (28 <= config_begin)%nat ->
  PISP_BE_CONFIG_BASE_OFFSET + 4 * Z.of_nat config_end <= 2 ^ 32 ->
  holds_addresses addrs t -> holds_addresses addrs (write_config cfg t).
Proof.
  intros Hbegin Hend. unfold write_config.
  assert (Hus : Forall (fun u => (config_begin <= u < config_end)%nat)
                  (seq config_begin (config_end - config_begin)))
    by (apply Forall_forall; intros u Hu%elem_of_seq; lia).
  revert t. induction Hus as [| u us Hu Hus IH]; intros t Ht; cbn [fold_left];
    [exact Ht |].
  apply IH. apply holds_addresses_write; [| exact Ht].
  unfold PISP_BE_CONFIG_BASE_OFFSET in *. rewrite u32_small; lia.
Qed.

Section EchoingDevice.
Hypothesis Hecho :
  forall t offset, 0x40 <= offset < 0xB0 -> readl t offset = last_write t offset 0.

Lemma read_back_passes addrs us t :
  Forall (fun u => (u < N_HW_ADDRESSES)%nat) us ->
  holds_addresses addrs t ->
  fst (read_back us addrs t) = true.
Proof.
  intros Hus. revert t. induction Hus as [| u us Hu Hus IH]; intros t Ht;
    [reflexivity |].
  rewrite read_back_cons. cbn zeta.
  rewrite addr_offset_lo by exact Hu.
  assert (Hhi : u32 (0x40 + 8 * Z.of_nat u + 4) = 0x44 + 8 * Z.of_nat u)
    by (unfold N_HW_ADDRESSES in Hu; rewrite u32_small; lia).
  rewrite Hhi.
  unfold N_HW_ADDRESSES in Hu.
  rewrite !Hecho by lia.
  rewrite last_write_app. cbn [last_write].
  destruct (Ht u) as [-> ->]; [unfold N_HW_ADDRESSES; lia |].
  rewrite !u32_idem, address_halves, Z.eqb_refl.
  apply IH. intros v Hv. rewrite !last_write_app. cbn [last_write]. now apply Ht.
Qed.

(** X19.  On hardware whose address registers read back what was written, the
    read-back check of [hw_queue_job] passes for every set of addresses,
    and the call ends with the three writes that dispatch the job: the two
    halves of the tile pointer, then the control word with the go bits and
    the number of tiles.  Nothing before them writes those registers. *)
Theorem hw_queue_job_dispatches t addrs en cfg tiles n :
  (28 <= config_begin)%nat ->
  PISP_BE_CONFIG_BASE_OFFSET + 4 * Z.of_nat config_end <= 2 ^ 32 ->
  exists evs,
    hw_queue_job t addrs en cfg tiles n
    = t ++ evs
        ++ [MmioWrite PISP_BE_TILE_ADDR_LO_OFFSET (u32 tiles);
            MmioWrite PISP_BE_TILE_ADDR_HI_OFFSET (u32 (Z.shiftr tiles 32));
            MmioWrite PISP_BE_CONTROL_OFFSET (u32 (3 + 65536 * u32 n))]
    /\ existsb dispatch_write evs = false.
Proof.
  intros Hbegin Hend.
  assert (Hholds : holds_addresses addrs (hw_queue_job_writes t addrs en cfg)).
  { unfold hw_queue_job_writes.
    destruct (read_reg t PISP_BE_STATUS_OFFSET) as [st t1].
    apply write_config_holds; [exact Hbegin | exact Hend |].
    apply holds_addresses_write;
      [unfold PISP_BE_GLOBAL_RGB_ENABLE_OFFSET, PISP_BE_CONFIG_BASE_OFFSET; lia |].
    apply holds_addresses_write;
      [unfold PISP_BE_GLOBAL_BAYER_ENABLE_OFFSET, PISP_BE_CONFIG_BASE_OFFSET; lia |].
    apply write_addresses_holds. }
  assert (Hok : fst (read_back (seq 0 N_HW_ADDRESSES) addrs
                       (hw_queue_job_writes t addrs en cfg)) = true).
  { apply read_back_passes; [| exact Hholds].
    apply Forall_forall. intros v Hv%elem_of_seq. lia. }
  rewrite (hw_queue_job_go t addrs en cfg tiles n Hok).
  destruct (hw_queue_job_writes_extends t addrs en cfg Hend) as (ev1 & Hw & Hc1).
  destruct (read_back_spec (seq 0 N_HW_ADDRESSES) addrs
              (hw_queue_job_writes t addrs en cfg)) as (ev2 & Hsnd & Hc2 & _).
  exists (ev1 ++ ev2). rewrite Hsnd, Hw, !u32_idem, <- !app_assoc.
  split; [reflexivity |]. rewrite existsb_app, Hc1, Hc2. reflexivity.
Qed.

End EchoingDevice.

End Echo.

(** ** Probing the hardware *)

Section ProbeRules.
Context `{H_platform : platform}.

(** The version check, a mask and a comparison, accepts a range. *)
Lemma version_mask u :
  clear_bits u PISP_BE_VERSION_MINOR_BITS = PISP_BE_VERSION_2712C1
  <-> 0x02252700 <= u <= 0x0225270F.
Proof.
  unfold clear_bits, PISP_BE_VERSION_MINOR_BITS, PISP_BE_VERSION_2712C1.
  rewrite <- Z.ldiff_land. change 15 with (Z.ones 4).
  rewrite Z.ldiff_ones_r, Z.shiftr_div_pow2, Z.shiftl_mul_pow2 by lia.
  change (2 ^ 4) with 16.
  pose proof (Z.div_mod u 16 ltac:(lia)) as Hdm.
  pose proof (Z.mod_pos_bound u 16 ltac:(lia)) as Hm.
  lia.
Qed.

(** X20.  The three ways [hw_init] ends.  It fails with [-ENODEV] exactly when
    the version register reads outside 0x02252700..0x0225270F, and then has
    done nothing but that read.  Otherwise it clears the pending
    interrupts, loads the shadow counters from the batch status and reads
    the status; it succeeds exactly when the status is zero and the two
    counters agree, and only then programs the AXI register and enables the
    interrupts.  When it fails with [-EBUSY] the shadow counters stay
    loaded, and neither of those two registers is written. *)
Theorem hw_init_outcome d ret version d' :
  hw_init d = (ret, version, d') ->
  version = u32 (readl (mmio d) PISP_BE_VERSION_OFFSET)
  /\ (ret = 0 \/ ret = - ENODEV \/ ret = - EBUSY)
  /\ (ret = - ENODEV <-> ~ (0x02252700 <= version <= 0x0225270F))
  /\ (ret = - ENODEV ->
      d' = set_mmio (mmio d ++ [MmioRead PISP_BE_VERSION_OFFSET version]) d)
  /\ (ret <> - ENODEV ->
      exists batch status,
        mmio d'
        = mmio d
          ++ [MmioRead PISP_BE_VERSION_OFFSET version;
              MmioWrite PISP_BE_INTERRUPT_STATUS_OFFSET 0xFFFFFFFF;
              MmioRead PISP_BE_BATCH_STATUS_OFFSET batch;
              MmioRead PISP_BE_STATUS_OFFSET status]
          ++ (if ret =? 0
              then [MmioWrite PISP_BE_AXI_OFFSET 0x32703200;
                    MmioWrite PISP_BE_INTERRUPT_EN_OFFSET 3]
              else [])
        /\ done d' = u8 batch /\ started d' = u8 (Z.shiftr batch 8)
        /\ (ret = 0 <-> status = 0 /\ u8 batch = u8 (Z.shiftr batch 8)))
  /\ node_group d' = node_group d /\ hw_busy d' = hw_busy d
  /\ queued_job d' = queued_job d /\ running_job d' = running_job d
  /\ vb2_done d' = vb2_done d /\ jobs_done d' = jobs_done d.
Proof.
  unfold hw_init, read_reg, write_reg.
  cbn [mmio set_mmio set_done set_started done started].
  set (v := u32 (readl (mmio d) PISP_BE_VERSION_OFFSET)).
  destruct (Z.eqb_spec (clear_bits v PISP_BE_VERSION_MINOR_BITS) PISP_BE_VERSION_2712C1)
    as [Hv | Hv]; cbn [negb].
  2:{ intros [= <- <- <-]. rewrite version_mask in Hv.
      split; [reflexivity |].
      split; [right; now left |].
      split; [split; [intros _; exact Hv | reflexivity] |].
      split; [reflexivity |].
      split; [intros H; now contradiction H | repeat split]. }
  apply version_mask in Hv.
  set (t1 := (mmio d ++ [MmioRead PISP_BE_VERSION_OFFSET v])
             ++ [MmioWrite PISP_BE_INTERRUPT_STATUS_OFFSET (u32 0xFFFFFFFF)]).
  set (b := u32 (readl t1 PISP_BE_BATCH_STATUS_OFFSET)).
  set (s := u32 (readl (t1 ++ [MmioRead PISP_BE_BATCH_STATUS_OFFSET b])
                   PISP_BE_STATUS_OFFSET)).
  unfold nz.
  destruct (Z.eqb_spec s 0) as [Hs | Hs];
    destruct (Z.eqb_spec (u8 b) (u8 (Z.shiftr b 8))) as [Hb | Hb];
    cbn [negb orb]; intros [= <- <- <-];
    (split; [reflexivity |]);
    (split; [first [now left | right; now right] |]);
    (split; [split; [unfold ENODEV, EBUSY; intros; lia | intros H; now contradiction H] |]);
    (split; [unfold ENODEV, EBUSY; intros; lia |]);
    (split; [| repeat split]);
    intros _; exists b, s; cbn [mmio set_mmio set_done set_started done started];
    unfold t1; rewrite <- ?app_assoc; cbn [app Z.eqb EBUSY Z.opp];
    (split; [reflexivity |]); (split; [reflexivity |]); (split; [reflexivity |]);
    (split; [intros H; first [now split | discriminate H] | intros [H1 H2]; congruence]).
Qed.

End ProbeRules.

(** ** Formats *)

Section FormatRules.

Lemma verify_planes_spec f planes :
  (verify_planes f planes = 0 \/ verify_planes f planes = - EINVAL)
  /\ (verify_planes f planes = 0 <->
      forall i, In i planes ->
        bytesperline (plane_at f i) <> 0 /\ sizeimage (plane_at f i) <> 0).
Proof.
  induction planes as [| i planes [IHr IH]]; cbn [verify_planes].
  { split; [now left |]. split; [intros _ i [] | reflexivity]. }
  destruct (Z.eqb_spec (bytesperline (plane_at f i)) 0) as [Hb | Hb];
    destruct (Z.eqb_spec (sizeimage (plane_at f i)) 0) as [Hs | Hs]; cbn [orb];
    try (split; [now right |]; split; [discriminate |];
         intros H; destruct (H i (or_introl eq_refl)); contradiction).
  split; [exact IHr |]. rewrite IH. split.
  - intros H j [<- | Hj]; [now split | now apply H].
  - intros H j Hj. apply H. now right.
Qed.

(** X21.  [verify_be_pix_format] accepts a format exactly when its width and
    height are not zero, it has between one and three planes, and every one
    of these planes has a line length and an image size that are not zero;
    it fails with [-EINVAL] otherwise. *)
Theorem verify_be_pix_format_accepts f :
  (verify_be_pix_format f = 0 \/ verify_be_pix_format f = - EINVAL)
  /\ (verify_be_pix_format f = 0 <->
      width f <> 0 /\ height f <> 0
      /\ num_planes f <> 0 /\ num_planes f <= Z.of_nat MAX_PLANES
      /\ forall i, (i < Z.to_nat (num_planes f))%nat ->
           bytesperline (plane_at f i) <> 0 /\ sizeimage (plane_at f i) <> 0).
Proof.
  unfold verify_be_pix_format.
  destruct (Z.eqb_spec (width f) 0) as [Hw | Hw];
    [split; [now right |]; split; [discriminate | tauto] |].
  destruct (Z.eqb_spec (height f) 0) as [Hh | Hh];
    [split; [now right |]; split; [discriminate | tauto] |].
  destruct (Z.eqb_spec (num_planes f) 0) as [Hn | Hn];
    [split; [now right |]; split; [discriminate | tauto] |].
  destruct (Z.ltb_spec (Z.of_nat MAX_PLANES) (num_planes f)) as [Hm | Hm];
    [split; [now right |]; split; [discriminate | intros (_ & _ & _ & H & _); lia] |].
  cbn [orb].
  destruct (verify_planes_spec f (seq 0 (Z.to_nat (num_planes f)))) as [Hr Hiff].
  split; [exact Hr |]. rewrite Hiff. split.
  - intros H. repeat split; try assumption; apply H; apply in_seq; lia.
  - intros (_ & _ & _ & _ & H) i Hi%in_seq. apply H. lia.
Qed.

(** *** [set_plane_params] *)

Lemma ALIGN_pow2 x k :
  0 <= k < 32 -> ALIGN x (2 ^ k) = (u32 (x + (2 ^ k - 1)) / 2 ^ k) * 2 ^ k.
Proof.
  intros Hk. unfold ALIGN.
  assert (Hpow : 0 < 2 ^ k <= 2 ^ 31).
  { split; [apply Z.pow_pos_nonneg; lia |]. apply Z.pow_le_mono_r; lia. }
  rewrite (u32_small (2 ^ k - 1)) by lia.
  unfold clear_bits.
  replace (2 ^ k - 1) with (Z.ones k) by (rewrite Z.ones_equiv; lia).
  rewrite <- Z.ldiff_land.
  now rewrite Z.ldiff_ones_r, Z.shiftr_div_pow2, Z.shiftl_mul_pow2 by lia.
Qed.

Lemma pow2_divides_word k : 0 <= k < 32 -> 2 ^ 32 = 2 ^ (32 - k) * 2 ^ k.
Proof. intros Hk. rewrite <- Z.pow_add_r by lia. f_equal. lia. Qed.

(** Without wrap-around, [ALIGN] rounds up to the next multiple. *)
Lemma ALIGN_rounds_up x k :
  0 <= k < 32 -> 0 <= x -> x + (2 ^ k - 1) < 2 ^ 32 ->
  x <= ALIGN x (2 ^ k) < x + 2 ^ k /\ ALIGN x (2 ^ k) mod 2 ^ k = 0.
Proof.
  intros Hk Hx Hfit. rewrite ALIGN_pow2 by exact Hk.
  assert (Hpow : 0 < 2 ^ k) by (apply Z.pow_pos_nonneg; lia).
  rewrite u32_small by lia.
  pose proof (Z.div_mod (x + (2 ^ k - 1)) (2 ^ k) ltac:(lia)) as Hdm.
  pose proof (Z.mod_pos_bound (x + (2 ^ k - 1)) (2 ^ k) Hpow) as Hm.
  split; [nia |]. apply Z.mod_mul. lia.
Qed.

Lemma ALIGN_multiple x k : 0 <= k < 32 -> ALIGN x (2 ^ k) mod 2 ^ k = 0.
Proof.
  intros Hk. rewrite ALIGN_pow2 by exact Hk. apply Z.mod_mul.
  assert (0 < 2 ^ k) by (apply Z.pow_pos_nonneg; lia). lia.
Qed.

(** A value that is aligned already stays. *)
Lemma ALIGN_fixed y k :
  0 <= k < 32 -> 0 <= y < 2 ^ 32 -> y mod 2 ^ k = 0 -> ALIGN y (2 ^ k) = y.
Proof.
  intros Hk Hy Hmod.
  assert (Hpow : 0 < 2 ^ k) by (apply Z.pow_pos_nonneg; lia).
  pose proof (pow2_divides_word k Hk) as Hword.
  assert (Hpow' : 0 < 2 ^ (32 - k)) by (apply Z.pow_pos_nonneg; lia).
  apply Z.mod_divide in Hmod; [| lia]. destruct Hmod as [q Hq].
  assert (Hq' : q < 2 ^ (32 - k)) by nia.
  destruct (ALIGN_rounds_up y k Hk) as [Hr Hm]; [lia | nia |].
  apply Z.mod_divide in Hm; [| lia]. destruct Hm as [q' Hq''].
  rewrite Hq'' in *. clear Hq'' Hword Hpow' Hq' Hy.
  generalize dependent (2 ^ k). intros P HP Hq Hr. subst y.
  assert (q' = q) by nia. now subst.
Qed.

(** The effect of the second loop: every plane below the number of planes
    gets its new values, computed from its old values alone. *)
Lemma set_plane_params_fold f0 fmt planes :
  NoDup planes ->
  forall f,
    width f = width f0 -> height f = height f0 -> num_planes f = num_planes f0 ->
    let r :=
      fold_left
        (fun f i =>
           set_plane_fmt (<[i := plane_params f fmt i (plane_at f i)]> (plane_fmt f)) f)
        planes f in
    width r = width f0 /\ height r = height f0 /\ num_planes r = num_planes f0
    /\ length (plane_fmt r) = length (plane_fmt f)
    /\ forall i,
         (In i planes -> (i < length (plane_fmt f))%nat ->
          plane_at r i = plane_params f0 fmt i (plane_at f i))
         /\ (~ (In i planes /\ (i < length (plane_fmt f))%nat) ->
             plane_at r i = plane_at f i).
Proof.
  induction 1 as [| i0 planes Hnotin Hnd IH]; intros f Hw Hh Hn; cbn [fold_left].
  { split; [exact Hw |]. split; [exact Hh |]. split; [exact Hn |].
    split; [reflexivity |]. intros i. split; [intros [] | reflexivity]. }
  rewrite list_elem_of_In in Hnotin.
  specialize (IH (set_plane_fmt (<[i0 := plane_params f fmt i0 (plane_at f i0)]>
                                   (plane_fmt f)) f) Hw Hh Hn).
  cbn zeta in IH. destruct IH as (IHw & IHh & IHn & IHl & IHp).
  cbn [plane_fmt set_plane_fmt] in IHl, IHp. rewrite length_insert in IHl.
  split; [exact IHw |]. split; [exact IHh |]. split; [exact IHn |].
  split; [exact IHl |]. intros i. destruct (IHp i) as [IHin IHout].
  rewrite length_insert in IHin, IHout.
  assert (Hsame : plane_params f fmt i0 (plane_at f i0)
                  = plane_params f0 fmt i0 (plane_at f i0))
    by (unfold plane_params; now rewrite Hw, Hh, Hn).
  assert (Hstep : plane_at (set_plane_fmt
                              (<[i0 := plane_params f fmt i0 (plane_at f i0)]>
                                 (plane_fmt f)) f) i
                  = if decide (i0 = i /\ (i < length (plane_fmt f))%nat)
                    then plane_params f0 fmt i (plane_at f i) else plane_at f i).
  { unfold plane_at at 1. cbn [plane_fmt set_plane_fmt].
    destruct (decide (i0 = i /\ (i < length (plane_fmt f))%nat)) as [[<- Hlt] | Hno].
    - rewrite nth_insert_eq by exact Hlt. exact Hsame.
    - destruct (Nat.eq_dec i0 i) as [<- | Hne]; [| now rewrite nth_insert_ne].
      unfold plane_at. rewrite !nth_overflow; [reflexivity | lia |].
      rewrite length_insert. lia. }
  split.
  - intros [<- | Hin] Hlt.
    + rewrite IHout by tauto. rewrite Hstep.
      now rewrite decide_True by (split; [reflexivity | exact Hlt]).
    + rewrite (IHin Hin Hlt), Hstep.
      rewrite decide_False; [reflexivity |]. intros [<- _]. contradiction.
  - intros Hno. rewrite IHout by (intros [Hin Hlt]; apply Hno; split; [now right | exact Hlt]).
    rewrite Hstep. rewrite decide_False; [reflexivity |].
    intros [<- Hlt]. apply Hno. split; [now left | exact Hlt].
Qed.

Lemma set_plane_params_planes f fmt :
  width (set_plane_params f fmt) = width f
  /\ height (set_plane_params f fmt) = height f
  /\ num_planes (set_plane_params f fmt) = num_planes f
  /\ length (plane_fmt (set_plane_params f fmt)) = length (plane_fmt f)
  /\ forall i,
       ((i < Z.to_nat (num_planes f))%nat -> (i < length (plane_fmt f))%nat ->
        plane_at (set_plane_params f fmt) i = plane_params f fmt i (plane_at f i))
       /\ ((Z.to_nat (num_planes f) <= i)%nat ->
           plane_at (set_plane_params f fmt) i = plane_at f i).
Proof.
  unfold set_plane_params.
  destruct (set_plane_params_fold f fmt (seq 0 (Z.to_nat (num_planes f)))
              (NoDup_seq _ _) f eq_refl eq_refl eq_refl) as (Hw & Hh & Hn & Hl & Hp).
  split; [exact Hw |]. split; [exact Hh |]. split; [exact Hn |]. split; [exact Hl |].
  intros i. destruct (Hp i) as [Hin Hout]. split.
  - intros Hi Hlt. apply Hin; [apply in_seq; lia | exact Hlt].
  - intros Hi. apply Hout. rewrite in_seq. lia.
Qed.

Lemma bpl_min_nonneg f fmt : 0 <= Z.shiftr (u32 (width f * bit_depth fmt)) 3.
Proof. apply Z.shiftr_nonneg. apply u32_range. Qed.

Lemma ALIGN_wraps x k :
  0 <= k < 32 -> x < 2 ^ 32 -> 2 ^ 32 <= x + (2 ^ k - 1) -> ALIGN x (2 ^ k) = 0.
Proof.
  intros Hk Hx Hwrap. rewrite ALIGN_pow2 by exact Hk.
  assert (Hpow : 0 < 2 ^ k <= 2 ^ 31).
  { split; [apply Z.pow_pos_nonneg; lia |]. apply Z.pow_le_mono_r; lia. }
  assert (Hu : u32 (x + (2 ^ k - 1)) = x + (2 ^ k - 1) - 2 ^ 32).
  { unfold u32. symmetry. apply (Z.mod_unique _ _ 1); lia. }
  rewrite Hu, Z.div_small by lia. reflexivity.
Qed.

(** X22.  What [set_plane_params] does to a plane it covers.  The image size
    never shrinks and is at least the size computed from the new line
    length.  The new line length is a multiple of the alignment of the
    format (a power of two).  It is the requested line length, or the
    minimum for the width if that is larger, rounded up to the alignment,
    as long as rounding up does not pass 2^32; if it does, the sum wraps
    around and the new line length is 0. *)
Theorem set_plane_params_rounds_up f fmt k i :
  align fmt = 2 ^ k -> 0 <= k < 32 ->
  (i < Z.to_nat (num_planes f))%nat -> (i < length (plane_fmt f))%nat ->
  let want :=
    Z.max (bytesperline (plane_at f i)) (Z.shiftr (u32 (width f * bit_depth fmt)) 3) in
  let p' := plane_at (set_plane_params f fmt) i in
  sizeimage (plane_at f i) <= sizeimage p'
  /\ Z.shiftr
       (u32 (u32 (bytesperline p' * height f)
             * (if 1 <? num_planes f then factor_at (factors fmt) i
                else total_plane_factor fmt))) 3 <= sizeimage p'
  /\ bytesperline p' mod 2 ^ k = 0
  /\ (want + (2 ^ k - 1) < 2 ^ 32 -> want <= bytesperline p' < want + 2 ^ k)
  /\ (want < 2 ^ 32 -> 2 ^ 32 <= want + (2 ^ k - 1) -> bytesperline p' = 0).
Proof.
  intros Halign Hk Hi Hlen want p'.
  destruct (set_plane_params_planes f fmt) as (_ & _ & _ & _ & Hp).
  destruct (Hp i) as [Hin _]. unfold p'. rewrite (Hin Hi Hlen).
  unfold plane_params. cbn [sizeimage bytesperline]. rewrite Halign. fold want.
  pose proof (bpl_min_nonneg f fmt) as Hmin.
  split; [apply Z.le_max_l |]. split; [apply Z.le_max_r |].
  split; [now apply ALIGN_multiple |]. split.
  - intros Hfit. apply ALIGN_rounds_up; [exact Hk | unfold want; lia | exact Hfit].
  - intros Hlt Hwrap. now apply ALIGN_wraps.
Qed.

Lemma plane_params_fields f f' fmt i p :
  width f' = width f -> height f' = height f -> num_planes f' = num_planes f ->
  plane_params f' fmt i p = plane_params f fmt i p.
Proof. intros Hw Hh Hn. unfold plane_params. now rewrite Hw, Hh, Hn. Qed.

Lemma plane_params_idempotent f fmt k i p :
  align fmt = 2 ^ k -> 0 <= k < 32 ->
  Z.max (bytesperline p) (Z.shiftr (u32 (width f * bit_depth fmt)) 3) + (2 ^ k - 1)
  < 2 ^ 32 ->
  plane_params f fmt i (plane_params f fmt i p) = plane_params f fmt i p.
Proof.
  intros Halign Hk Hfit. unfold plane_params. cbn [sizeimage bytesperline].
  rewrite Halign.
  pose proof (bpl_min_nonneg f fmt) as Hmin.
  set (bpl_min := Z.shiftr (u32 (width f * bit_depth fmt)) 3) in *.
  set (want := Z.max (bytesperline p) bpl_min) in *.
  destruct (ALIGN_rounds_up want k Hk) as [Hr Hm]; [unfold want; lia | exact Hfit |].
  assert (Hpow : 0 < 2 ^ k) by (apply Z.pow_pos_nonneg; lia).
  assert (Hmax : Z.max (ALIGN want (2 ^ k)) bpl_min = ALIGN want (2 ^ k))
    by (apply Z.max_l; unfold want in *; lia).
  rewrite Hmax.
  assert (Hfix : ALIGN (ALIGN want (2 ^ k)) (2 ^ k) = ALIGN want (2 ^ k))
    by (apply ALIGN_fixed; [exact Hk | unfold want in *; lia | exact Hm]).
  rewrite Hfix. f_equal. apply Z.max_l. apply Z.le_max_r.
Qed.

Lemma pix_format_eq (f f' : v4l2_pix_format_mplane) :
  width f = width f' -> height f = height f' -> num_planes f = num_planes f' ->
  plane_fmt f = plane_fmt f' -> f = f'.
Proof. destruct f, f'. cbn. now intros -> -> -> ->. Qed.

(** X23.  [set_plane_params] is idempotent: applied to its own result, for
    the same format description, it changes nothing, as long as rounding up
    the line lengths does not pass 2^32: the line lengths it has computed
    are already aligned and the sizes it has computed are already large
    enough. *)
Theorem set_plane_params_idempotent f fmt k :
  align fmt = 2 ^ k -> 0 <= k < 32 ->
  (forall i, (i < Z.to_nat (num_planes f))%nat ->
     Z.max (bytesperline (plane_at f i)) (Z.shiftr (u32 (width f * bit_depth fmt)) 3)
     + (2 ^ k - 1) < 2 ^ 32) ->
  set_plane_params (set_plane_params f fmt) fmt = set_plane_params f fmt.
Proof.
  intros Halign Hk Hfit.
  destruct (set_plane_params_planes f fmt) as (Hw & Hh & Hn & Hl & Hp).
  destruct (set_plane_params_planes (set_plane_params f fmt) fmt)
    as (Hw2 & Hh2 & Hn2 & Hl2 & Hp2).
  apply pix_format_eq; [assumption | assumption | assumption |].
  apply (nth_ext _ _ zero_plane zero_plane); [exact Hl2 |].
  intros i Hi. rewrite Hl2 in Hi. fold (plane_at (set_plane_params (set_plane_params f fmt) fmt) i).
  fold (plane_at (set_plane_params f fmt) i).
  destruct (Hp2 i) as [Hin2 Hout2]. destruct (Hp i) as [Hin Hout].
  rewrite Hn in Hin2, Hout2. rewrite Hl in Hi.
  destruct (Nat.lt_ge_cases i (Z.to_nat (num_planes f))) as [Hlt | Hge];
    [| now apply Hout2].
  rewrite Hin2 by (rewrite ?Hl; assumption).
  rewrite (plane_params_fields f _ fmt i _ Hw Hh Hn).
  rewrite (Hin Hlt Hi). apply (plane_params_idempotent f fmt k); try assumption.
  now apply Hfit.
Qed.

End FormatRules.

(** ** Validation of a configuration *)

Section ValidationRules.
Context `{H_config : pisp_be_config_h} `{H_formats : pisp_be_formats_h}.

Lemma validate_bayer_output_spec fmt image :
  (validate_bayer_output fmt image = None
   \/ validate_bayer_output fmt image = Some (- EINVAL))
  /\ (validate_bayer_output fmt image = None <->
      plane_fits (plane_at fmt 0) (u32 (stride image))
        (u32 (u32 (stride image) * image_height image))).
Proof.
  unfold validate_bayer_output, plane_fits.
  destruct (Z.ltb_spec (bytesperline (plane_at fmt 0)) (u32 (stride image)));
    [split; [now right |]; split; [discriminate | lia] |].
  destruct (Z.ltb_spec (sizeimage (plane_at fmt 0))
              (u32 (u32 (stride image) * image_height image)));
    [split; [now right |]; split; [discriminate | lia] |].
  split; [now left |]. split; [intros _; lia | reflexivity].
Qed.

Lemma validate_output_planes_spec fmt image planes :
  (validate_output_planes fmt image planes = None
   \/ validate_output_planes fmt image planes = Some (- EINVAL))
  /\ (validate_output_planes fmt image planes = None <->
      forall i, In i planes ->
        plane_fits (plane_at fmt i) (output_bpl image i) (output_size image i)).
Proof.
  induction planes as [| i planes [IHr IH]]; cbn [validate_output_planes].
  { split; [now left |]. split; [intros _ i [] | reflexivity]. }
  cbn zeta. unfold plane_fits in *.
  destruct (Z.ltb_spec (bytesperline (plane_at fmt i)) (output_bpl image i));
    [split; [now right |]; split; [discriminate |];
     intros H'; specialize (H' i (or_introl eq_refl)); lia |].
  destruct (Z.ltb_spec (sizeimage (plane_at fmt i)) (output_size image i));
    [split; [now right |]; split; [discriminate |];
     intros H'; specialize (H' i (or_introl eq_refl)); lia |].
  split; [exact IHr |]. rewrite IH. split.
  - intros Hall j [<- | Hj]; [lia | now apply Hall].
  - intros Hall j Hj. apply Hall. now right.
Qed.

Lemma validate_outputs_spec formats rgb cf outputs :
  (validate_outputs formats rgb cf outputs = None
   \/ validate_outputs formats rgb cf outputs = Some (- EINVAL))
  /\ (validate_outputs formats rgb cf outputs = None <->
      forall j, In j outputs ->
        Z.land rgb (PISP_BE_RGB_ENABLE_OUTPUT j) <> 0 ->
        Z.land (image_format (nth j (output_format cf) zero_image))
               PISP_IMAGE_FORMAT_WALLPAPER_ROLL = 0 ->
        forall i,
          (i < Z.to_nat (num_planes (nth (OUTPUT0_NODE + j) formats zero_pix_mp)))%nat ->
          plane_fits (plane_at (nth (OUTPUT0_NODE + j) formats zero_pix_mp) i)
            (output_bpl (nth j (output_format cf) zero_image) i)
            (output_size (nth j (output_format cf) zero_image) i)).
Proof.
  induction outputs as [| j outputs [IHr IH]]; cbn [validate_outputs].
  { split; [now left |]. split; [intros _ j [] | reflexivity]. }
  cbn zeta.
  destruct (nz (Z.land rgb (PISP_BE_RGB_ENABLE_OUTPUT j))) eqn:Hen; cbn [negb].
  2:{ apply nz_false in Hen. split; [exact IHr |]. rewrite IH. split.
      - intros Hall j' [<- | Hj']; [congruence | now apply Hall].
      - intros Hall j' Hj'. apply Hall. now right. }
  apply nz_true in Hen.
  destruct (nz (Z.land (image_format (nth j (output_format cf) zero_image))
                  PISP_IMAGE_FORMAT_WALLPAPER_ROLL)) eqn:Hwp.
  { apply nz_true in Hwp. split; [exact IHr |]. rewrite IH. split.
    - intros Hall j' [<- | Hj']; [congruence | now apply Hall].
    - intros Hall j' Hj'. apply Hall. now right. }
  apply nz_false in Hwp.
  destruct (validate_output_planes_spec (nth (OUTPUT0_NODE + j) formats zero_pix_mp)
              (nth j (output_format cf) zero_image)
              (seq 0 (Z.to_nat (num_planes (nth (OUTPUT0_NODE + j) formats zero_pix_mp)))))
    as [Hr Hiff].
  destruct (validate_output_planes _ _ _) as [e |].
  - split; [right; destruct Hr as [Hr | Hr]; [discriminate | exact Hr] |].
    split; [discriminate |]. intros Hall. apply Hiff.
    intros i Hi%in_seq. apply (Hall j); [now left | exact Hen | exact Hwp | lia].
  - split; [exact IHr |]. rewrite IH. split.
    + intros Hall j' [<- | Hj']; [| now apply Hall].
      intros _ _ i Hi. apply (proj1 Hiff eq_refl). apply in_seq. lia.
    + intros Hall j' Hj'. apply Hall. now right.
Qed.

Lemma one_input_spec a b :
  Bool.eqb (negb (nz a)) (negb (nz b)) = true <-> (a = 0 <-> b = 0).
Proof.
  unfold nz. destruct (Z.eqb_spec a 0), (Z.eqb_spec b 0); cbn; split; intros; try tauto;
    try discriminate; try reflexivity.
Qed.

(** X25.  [pisp_be_validate_config] returns 0, [-EIO] or [-EINVAL].  It returns
    [-EIO] exactly when the Bayer input and the RGB input are both enabled
    or both disabled.  It accepts exactly when one input is enabled and the
    format of every node whose output the configuration enables is large
    enough: the first plane of the TDN and of the stitch output for the
    stride and the stride times the height; every plane of an enabled
    output whose image format is not a wallpaper format for its stride and
    size (halved for 4:2:0 sampling).  Strides and sizes are computed in
    32-bit arithmetic. *)
Theorem pisp_be_validate_config_accepts formats config cf :
  let r := pisp_be_validate_config formats config cf in
  let one_input :=
    ~ (Z.land (bayer_enables config) PISP_BE_BAYER_ENABLE_INPUT = 0
       <-> Z.land (rgb_enables config) PISP_BE_RGB_ENABLE_INPUT = 0) in
  (r = 0 \/ r = - EIO \/ r = - EINVAL)
  /\ (r = - EIO <-> ~ one_input)
  /\ (r = 0 <->
      one_input
      /\ (Z.land (bayer_enables config) PISP_BE_BAYER_ENABLE_TDN_OUTPUT <> 0 ->
          plane_fits (plane_at (nth TDN_OUTPUT_NODE formats zero_pix_mp) 0)
            (u32 (stride (tdn_output_format cf)))
            (u32 (u32 (stride (tdn_output_format cf))
                  * image_height (tdn_output_format cf))))
      /\ (Z.land (bayer_enables config) PISP_BE_BAYER_ENABLE_STITCH_OUTPUT <> 0 ->
          plane_fits (plane_at (nth STITCH_OUTPUT_NODE formats zero_pix_mp) 0)
            (u32 (stride (stitch_output_format cf)))
            (u32 (u32 (stride (stitch_output_format cf))
                  * image_height (stitch_output_format cf))))
      /\ forall j,
           (j < PISP_BACK_END_NUM_OUTPUTS)%nat ->
           Z.land (rgb_enables config) (PISP_BE_RGB_ENABLE_OUTPUT j) <> 0 ->
           Z.land (image_format (nth j (output_format cf) zero_image))
                  PISP_IMAGE_FORMAT_WALLPAPER_ROLL = 0 ->
           forall i,
             (i < Z.to_nat (num_planes (nth (OUTPUT0_NODE + j) formats zero_pix_mp)))%nat ->
             plane_fits (plane_at (nth (OUTPUT0_NODE + j) formats zero_pix_mp) i)
               (output_bpl (nth j (output_format cf) zero_image) i)
               (output_size (nth j (output_format cf) zero_image) i)).
Proof.
  intros r one_input. unfold r, pisp_be_validate_config. cbn zeta.
  pose proof (one_input_spec (Z.land (bayer_enables config) PISP_BE_BAYER_ENABLE_INPUT)
                (Z.land (rgb_enables config) PISP_BE_RGB_ENABLE_INPUT)) as Hone.
  destruct (Bool.eqb _ _).
  { assert (Hno : ~ one_input) by (unfold one_input; tauto).
    split; [right; now left |]. split; [tauto |].
    split; [discriminate | tauto]. }
  assert (Hyes : one_input) by (unfold one_input; intros H; apply Hone in H; discriminate).
  clear Hone.
  assert (Heio : forall x, x = 0 \/ x = - EINVAL -> (x = - EIO <-> ~ one_input))
    by (intros x [-> | ->]; split; try discriminate; tauto).
  destruct (validate_bayer_output_spec (nth TDN_OUTPUT_NODE formats zero_pix_mp)
              (tdn_output_format cf)) as [Hr1 Hiff1].
  destruct (validate_bayer_output_spec (nth STITCH_OUTPUT_NODE formats zero_pix_mp)
              (stitch_output_format cf)) as [Hr2 Hiff2].
  destruct (validate_outputs_spec formats (rgb_enables config) cf
              (seq 0 PISP_BACK_END_NUM_OUTPUTS)) as [Hr3 Hiff3].
  assert (Hseq : forall P : nat -> Prop,
             (forall j, In j (seq 0 PISP_BACK_END_NUM_OUTPUTS) -> P j)
             <-> (forall j, (j < PISP_BACK_END_NUM_OUTPUTS)%nat -> P j)).
  { intros P. split; intros H j Hj; apply H; [apply in_seq; lia | apply in_seq in Hj; lia]. }
  rewrite Hseq in Hiff3. clear Hseq.
  destruct (nz (Z.land (bayer_enables config) PISP_BE_BAYER_ENABLE_TDN_OUTPUT)) eqn:Htdn;
    [apply nz_true in Htdn | apply nz_false in Htdn].
  - destruct (validate_bayer_output (nth TDN_OUTPUT_NODE formats zero_pix_mp) _) as [e |].
    { assert (He : e = - EINVAL) by (destruct Hr1 as [Hr1 | Hr1]; congruence). subst e.
      split; [right; now right |]. split; [apply Heio; now right |].
      split; [discriminate |]. intros (_ & H1 & _).
      apply Hiff1 in H1; [discriminate | exact Htdn]. }
    pose proof (proj1 Hiff1 eq_refl) as Hfit1.
    destruct (nz (Z.land (bayer_enables config) PISP_BE_BAYER_ENABLE_STITCH_OUTPUT))
      eqn:Hst; [apply nz_true in Hst | apply nz_false in Hst].
    + destruct (validate_bayer_output (nth STITCH_OUTPUT_NODE formats zero_pix_mp) _)
        as [e |].
      { assert (He : e = - EINVAL) by (destruct Hr2 as [Hr2 | Hr2]; congruence). subst e.
        split; [right; now right |]. split; [apply Heio; now right |].
        split; [discriminate |]. intros (_ & _ & H2 & _).
        apply Hiff2 in H2; [discriminate | exact Hst]. }
      pose proof (proj1 Hiff2 eq_refl) as Hfit2.
      destruct (validate_outputs formats (rgb_enables config) cf _) as [e |].
      { assert (He : e = - EINVAL) by (destruct Hr3 as [Hr3 | Hr3]; congruence). subst e.
        split; [right; now right |]. split; [apply Heio; now right |].
        split; [discriminate |]. intros (_ & _ & _ & H3).
        apply Hiff3 in H3. discriminate. }
      split; [now left |]. split; [apply Heio; now left |].
      split; [intros _ | reflexivity].
      split; [exact Hyes |]. split; [intros _; exact Hfit1 |].
      split; [intros _; exact Hfit2 |]. now apply Hiff3.
    + destruct (validate_outputs formats (rgb_enables config) cf _) as [e |].
      { assert (He : e = - EINVAL) by (destruct Hr3 as [Hr3 | Hr3]; congruence). subst e.
        split; [right; now right |]. split; [apply Heio; now right |].
        split; [discriminate |]. intros (_ & _ & _ & H3).
        apply Hiff3 in H3. discriminate. }
      split; [now left |]. split; [apply Heio; now left |].
      split; [intros _ | reflexivity].
      split; [exact Hyes |]. split; [intros _; exact Hfit1 |].
      split; [intros H; contradiction |]. now apply Hiff3.
  - destruct (nz (Z.land (bayer_enables config) PISP_BE_BAYER_ENABLE_STITCH_OUTPUT))
      eqn:Hst; [apply nz_true in Hst | apply nz_false in Hst].
    + destruct (validate_bayer_output (nth STITCH_OUTPUT_NODE formats zero_pix_mp) _)
        as [e |].
      { assert (He : e = - EINVAL) by (destruct Hr2 as [Hr2 | Hr2]; congruence). subst e.
        split; [right; now right |]. split; [apply Heio; now right |].
        split; [discriminate |]. intros (_ & _ & H2 & _).
        apply Hiff2 in H2; [discriminate | exact Hst]. }
      pose proof (proj1 Hiff2 eq_refl) as Hfit2.
      destruct (validate_outputs formats (rgb_enables config) cf _) as [e |].
      { assert (He : e = - EINVAL) by (destruct Hr3 as [Hr3 | Hr3]; congruence). subst e.
        split; [right; now right |]. split; [apply Heio; now right |].
        split; [discriminate |]. intros (_ & _ & _ & H3).
        apply Hiff3 in H3. discriminate. }
      split; [now left |]. split; [apply Heio; now left |].
      split; [intros _ | reflexivity].
      split; [exact Hyes |]. split; [intros H; contradiction |].
      split; [intros _; exact Hfit2 |]. now apply Hiff3.
    + destruct (validate_outputs formats (rgb_enables config) cf _) as [e |].
      { assert (He : e = - EINVAL) by (destruct Hr3 as [Hr3 | Hr3]; congruence). subst e.
        split; [right; now right |]. split; [apply Heio; now right |].
        split; [discriminate |]. intros (_ & _ & _ & H3).
        apply Hiff3 in H3. discriminate. }
      split; [now left |]. split; [apply Heio; now left |].
      split; [intros _ | reflexivity].
      split; [exact Hyes |]. split; [intros H; contradiction |].
      split; [intros H; contradiction |]. now apply Hiff3.
Qed.

Lemma pisp_be_validate_config_values formats config cf :
  pisp_be_validate_config formats config cf = 0
  \/ pisp_be_validate_config formats config cf = - EIO
  \/ pisp_be_validate_config formats config cf = - EINVAL.
Proof.
  unfold pisp_be_validate_config. cbn zeta.
  destruct (Bool.eqb _ _); [right; now left |].
  destruct (validate_bayer_output_spec (nth TDN_OUTPUT_NODE formats zero_pix_mp)
              (tdn_output_format cf)) as [[-> | ->] _];
    destruct (validate_bayer_output_spec (nth STITCH_OUTPUT_NODE formats zero_pix_mp)
                (stitch_output_format cf)) as [[-> | ->] _];
    destruct (validate_outputs_spec formats (rgb_enables config) cf
                (seq 0 PISP_BACK_END_NUM_OUTPUTS)) as [[-> | ->] _];
    destruct (nz (Z.land (bayer_enables config) PISP_BE_BAYER_ENABLE_TDN_OUTPUT));
    destruct (nz (Z.land (bayer_enables config) PISP_BE_BAYER_ENABLE_STITCH_OUTPUT));
    tauto.
Qed.

End ValidationRules.

(** ** Buffer set-up *)

Section BufferSetupRules.
Context `{H_config : pisp_be_config_h} `{H_formats : pisp_be_formats_h}
        `{H_videobuf2 : videobuf2_h}.

Lemma queue_setup_planes_spec f planes sizes :
  NoDup planes ->
  let r := queue_setup_planes f planes sizes in
  (fst r = 0 \/ fst r = - EINVAL)
  /\ length (snd r) = length sizes
  /\ (fst r = 0 <->
      forall i, In i planes ->
        nth i sizes 0 = 0 \/ sizeimage (plane_at f i) <= nth i sizes 0)
  /\ (fst r = 0 ->
      forall i, In i planes -> (i < length sizes)%nat ->
        nth i (snd r) 0 = sizeimage (plane_at f i))
  /\ (forall i, ~ In i planes -> nth i (snd r) 0 = nth i sizes 0).
Proof.
  intros Hnd. revert sizes.
  induction Hnd as [| i0 planes Hnotin Hnd IH]; intros sizes;
    cbn [queue_setup_planes].
  { cbn [fst snd]. split; [now left |]. split; [reflexivity |].
    split; [split; [intros _ i [] | reflexivity] |].
    split; [intros _ i [] | reflexivity]. }
  rewrite list_elem_of_In in Hnotin. cbn zeta.
  assert (Hcond : nz (nth i0 sizes 0) && (nth i0 sizes 0 <? sizeimage (plane_at f i0))
                  = false
                  <-> (nth i0 sizes 0 = 0 \/ sizeimage (plane_at f i0) <= nth i0 sizes 0)).
  { unfold nz. destruct (Z.eqb_spec (nth i0 sizes 0) 0);
      destruct (Z.ltb_spec (nth i0 sizes 0) (sizeimage (plane_at f i0))); cbn;
      split; intros; try tauto; try discriminate; try lia. }
  destruct (nz (nth i0 sizes 0) && (nth i0 sizes 0 <? sizeimage (plane_at f i0))).
  { cbn [fst snd]. split; [now right |]. split; [reflexivity |].
    split; [split; [discriminate |] |].
    - intros Hall. specialize (Hall i0 (or_introl eq_refl)).
      apply Hcond in Hall. discriminate.
    - split; [discriminate | reflexivity]. }
  pose proof (proj1 Hcond eq_refl) as Hok. clear Hcond.
  specialize (IH (<[i0 := sizeimage (plane_at f i0)]> sizes)). cbn zeta in IH.
  destruct IH as (IHr & IHl & IHiff & IHin & IHout).
  rewrite length_insert in IHl, IHin.
  split; [exact IHr |]. split; [exact IHl |].
  assert (Hrest : forall i, In i planes ->
                    nth i (<[i0 := sizeimage (plane_at f i0)]> sizes) 0 = nth i sizes 0).
  { intros i Hi. apply nth_insert_ne. intros ->. contradiction. }
  split; [| split].
  - rewrite IHiff. split.
    + intros Hall i [<- | Hi]; [exact Hok |].
      specialize (Hall i Hi). now rewrite Hrest in Hall.
    + intros Hall i Hi. rewrite Hrest by exact Hi. apply Hall. now right.
  - intros Hret i [<- | Hi] Hlt; [| now apply IHin].
    rewrite IHout by exact Hnotin. now apply nth_insert_eq.
  - intros i Hno. rewrite IHout by (intros Hin; apply Hno; now right).
    apply nth_insert_ne. intros ->. apply Hno. now left.
Qed.

(** X26.  [pispbe_node_queue_setup] never raises the number of buffers, and
    lowers it only for the config node.  For an image node it accepts
    exactly when every plane size that the caller gives is zero or at least
    the image size of the format; it then reports the number of planes of
    the format and sets every plane size to the image size.  For a metadata
    node it always accepts, with one plane of the buffer size of the
    format. *)
Theorem pispbe_node_queue_setup_outcome id buf_type format nbuffers sizes :
  let r := pispbe_node_queue_setup id buf_type format nbuffers sizes in
  let ret := fst r in
  let nbuffers' := fst (fst (snd r)) in
  let nplanes' := snd (fst (snd r)) in
  let sizes' := snd (snd r) in
  (ret = 0 \/ ret = - EINVAL)
  /\ nbuffers' <= nbuffers
  /\ (id <> CONFIG_NODE -> nbuffers' = nbuffers)
  /\ length sizes' = length sizes
  /\ (NODE_IS_MPLANE buf_type = true ->
      nplanes' = num_planes (pix_mp format)
      /\ (ret = 0 <->
          forall i, (i < Z.to_nat (num_planes (pix_mp format)))%nat ->
            nth i sizes 0 = 0 \/ sizeimage (plane_at (pix_mp format) i) <= nth i sizes 0)
      /\ (ret = 0 ->
          forall i, (i < Z.to_nat (num_planes (pix_mp format)))%nat ->
            (i < length sizes)%nat ->
            nth i sizes' 0 = sizeimage (plane_at (pix_mp format) i))
      /\ (forall i, (Z.to_nat (num_planes (pix_mp format)) <= i)%nat ->
            nth i sizes' 0 = nth i sizes 0))
  /\ (NODE_IS_MPLANE buf_type = false ->
      ret = 0 /\ nplanes' = 1
      /\ (NODE_IS_META buf_type = true ->
          (0 < length sizes)%nat -> nth 0 sizes' 0 = meta_buffersize format)
      /\ (id = CONFIG_NODE -> NODE_IS_META buf_type = true ->
          nbuffers' = Z.min nbuffers VB2_MAX_FRAME)).
Proof.
  unfold pispbe_node_queue_setup. cbn zeta.
  destruct (NODE_IS_MPLANE buf_type).
  - destruct (queue_setup_planes_spec (pix_mp format)
                (seq 0 (Z.to_nat (num_planes (pix_mp format)))) sizes (NoDup_seq _ _))
      as (Hr & Hl & Hiff & Hin & Hout).
    destruct (queue_setup_planes _ _ _) as [ret sizes']. cbn [fst snd] in *.
    split; [exact Hr |]. split; [lia |]. split; [reflexivity |]. split; [exact Hl |].
    split; [| discriminate]. intros _. split; [reflexivity |].
    split; [| split].
    + rewrite Hiff. split; intros H i Hi; apply H; [apply in_seq; lia |].
      apply in_seq in Hi. lia.
    + intros Hret i Hi Hlt. apply Hin; [exact Hret | apply in_seq; lia | exact Hlt].
    + intros i Hi. apply Hout. rewrite in_seq. lia.
  - destruct (NODE_IS_META buf_type); cbn [fst snd].
    + split; [now left |].
      split; [destruct (id =? CONFIG_NODE)%nat; lia |].
      split; [intros Hid; apply Nat.eqb_neq in Hid; now rewrite Hid |].
      split; [apply length_insert |]. split; [discriminate |]. intros _.
      split; [reflexivity |]. split; [reflexivity |].
      split; [intros _ Hlen; now apply nth_insert_eq |].
      intros -> _. now rewrite Nat.eqb_refl.
    + split; [now left |]. split; [lia |]. split; [reflexivity |].
      split; [reflexivity |]. split; [discriminate |]. intros _.
      split; [reflexivity |]. split; [reflexivity |]. split; discriminate.
Qed.

Lemma prepare_planes_spec buf_type format plane_sizes planes payload :
  NoDup planes ->
  let r := prepare_planes buf_type format plane_sizes planes payload in
  (fst r = 0 \/ fst r = - EINVAL)
  /\ length (snd r) = length payload
  /\ (fst r = 0 <->
      forall i, In i planes -> prepare_size buf_type format i <= nth i plane_sizes 0)
  /\ (fst r = 0 ->
      forall i, In i planes -> (i < length payload)%nat ->
        nth i (snd r) 0 = prepare_size buf_type format i)
  /\ (forall i, ~ In i planes -> nth i (snd r) 0 = nth i payload 0).
Proof.
  intros Hnd. revert payload.
  induction Hnd as [| i0 planes Hnotin Hnd IH]; intros payload; cbn [prepare_planes].
  { cbn [fst snd]. split; [now left |]. split; [reflexivity |].
    split; [split; [intros _ i [] | reflexivity] |].
    split; [intros _ i [] | reflexivity]. }
  rewrite list_elem_of_In in Hnotin. cbn zeta.
  destruct (Z.ltb_spec (nth i0 plane_sizes 0) (prepare_size buf_type format i0))
    as [Hsmall | Hok].
  { cbn [fst snd]. split; [now right |]. split; [reflexivity |].
    split; [split; [discriminate |] |].
    - intros Hall. specialize (Hall i0 (or_introl eq_refl)). lia.
    - split; [discriminate | reflexivity]. }
  specialize (IH (<[i0 := prepare_size buf_type format i0]> payload)). cbn zeta in IH.
  destruct IH as (IHr & IHl & IHiff & IHin & IHout).
  rewrite length_insert in IHl, IHin.
  split; [exact IHr |]. split; [exact IHl |]. split; [| split].
  - rewrite IHiff. split.
    + intros Hall i [<- | Hi]; [exact Hok | now apply Hall].
    + intros Hall i Hi. apply Hall. now right.
  - intros Hret i [<- | Hi] Hlt; [| now apply IHin].
    rewrite IHout by exact Hnotin. now apply nth_insert_eq.
  - intros i Hno. rewrite IHout by (intros Hin; apply Hno; now right).
    apply nth_insert_ne. intros ->. apply Hno. now left.
Qed.

(** Where the loop of [pispbe_node_buffer_prepare] stops: if it fails on the
    planes [s .. s+n-1], there is a first plane [k] that is too small; the
    planes before it fit and have had their payload set, and no other
    payload has changed. *)
Lemma prepare_planes_first_small buf_type format plane_sizes n : forall s payload,
  let r := prepare_planes buf_type format plane_sizes (seq s n) payload in
  fst r <> 0 ->
  exists k, (s <= k < s + n)%nat
    /\ nth k plane_sizes 0 < prepare_size buf_type format k
    /\ (forall i, (s <= i < k)%nat -> prepare_size buf_type format i <= nth i plane_sizes 0)
    /\ (forall i, (s <= i < k)%nat -> (i < length payload)%nat ->
          nth i (snd r) 0 = prepare_size buf_type format i)
    /\ (forall i, ~ (s <= i < k)%nat -> nth i (snd r) 0 = nth i payload 0).
Proof.
  induction n as [| n IH]; intros s payload; cbn [seq prepare_planes]; cbn zeta.
  { cbn [fst]. intros H. now contradiction H. }
  destruct (Z.ltb_spec (nth s plane_sizes 0) (prepare_size buf_type format s))
    as [Hsmall | Hok].
  { cbn [fst snd]. intros _. exists s. split; [lia |]. split; [exact Hsmall |].
    split; [intros i Hi; lia |]. split; [intros i Hi; lia | reflexivity]. }
  intros Hfail.
  destruct (IH (S s) (<[s := prepare_size buf_type format s]> payload) Hfail)
    as (k & Hk & Hsmall & Hfit & Hset & Hkeep).
  rewrite length_insert in Hset.
  exists k. split; [lia |]. split; [exact Hsmall |]. split; [| split].
  - intros i Hi. destruct (Nat.eq_dec i s) as [-> | Hne]; [exact Hok | apply Hfit; lia].
  - intros i Hi Hlt. destruct (Nat.eq_dec i s) as [-> | Hne].
    + rewrite Hkeep by lia. now apply nth_insert_eq.
    + apply Hset; [lia | exact Hlt].
  - intros i Hi. rewrite Hkeep by lia. apply nth_insert_ne. lia.
Qed.

(** X27.  [pispbe_node_buffer_prepare] accepts a buffer only if each of its
    planes is at least as large as the format asks.  If a plane is too small
    the call fails with [-EINVAL] and leaves the configuration array as it
    was; the loop has stopped at the first such plane [k], so the payloads
    of the planes before [k] have already been set to the sizes of the
    format, and the payloads from [k] on are as they were.  If all planes
    fit, the payloads are set to the sizes of the format; for the config
    node the configuration is copied into the slot of the buffer index
    before it is validated, so it stays there whatever the validation
    returns, and the result of the call is the result of the validation. *)
Theorem pispbe_node_buffer_prepare_outcome id buf_type format formats plane_sizes index
    src src_formats payload config :
  let r := pispbe_node_buffer_prepare id buf_type format formats plane_sizes index
             src src_formats payload config in
  let ret := fst (fst r) in
  let payload' := snd (fst r) in
  let config' := snd r in
  let nplanes :=
    Z.to_nat (if NODE_IS_MPLANE buf_type then num_planes (pix_mp format) else 1) in
  let fits :=
    forall i, (i < nplanes)%nat -> prepare_size buf_type format i <= nth i plane_sizes 0 in
  (ret = 0 \/ ret = - EINVAL \/ ret = - EIO)
  /\ (ret = 0 -> fits)
  /\ (~ fits ->
      ret = - EINVAL /\ config' = config
      /\ exists k, (k < nplanes)%nat
           /\ nth k plane_sizes 0 < prepare_size buf_type format k
           /\ (forall i, (i < k)%nat ->
                 prepare_size buf_type format i <= nth i plane_sizes 0)
           /\ (forall i, (i < k)%nat -> (i < length payload)%nat ->
                 nth i payload' 0 = prepare_size buf_type format i)
           /\ (forall i, (k <= i)%nat -> nth i payload' 0 = nth i payload 0))
  /\ (fits ->
      (forall i, (i < nplanes)%nat -> (i < length payload)%nat ->
         nth i payload' 0 = prepare_size buf_type format i)
      /\ (id = CONFIG_NODE ->
          ret = pisp_be_validate_config formats src src_formats
          /\ config' = <[index := src]> config)
      /\ (id <> CONFIG_NODE -> ret = 0 /\ config' = config)).
Proof.
  unfold pispbe_node_buffer_prepare. cbn zeta.
  set (np := if NODE_IS_MPLANE buf_type then num_planes (pix_mp format) else 1).
  destruct (prepare_planes_spec buf_type format plane_sizes (seq 0 (Z.to_nat np)) payload
              (NoDup_seq _ _)) as (Hr & Hl & Hiff & Hin & Hout).
  pose proof (prepare_planes_first_small buf_type format plane_sizes (Z.to_nat np) 0 payload)
    as Hfirst. cbn zeta in Hfirst.
  assert (Hfits : fst (prepare_planes buf_type format plane_sizes (seq 0 (Z.to_nat np))
                         payload) = 0
                  <-> (forall i, (i < Z.to_nat np)%nat ->
                         prepare_size buf_type format i <= nth i plane_sizes 0)).
  { rewrite Hiff. split; intros H i Hi; apply H; [apply in_seq; lia |].
    apply in_seq in Hi. lia. }
  clear Hiff.
  destruct (prepare_planes _ _ _ _ _) as [ret payload']. cbn [fst snd] in *.
  destruct Hr as [-> | ->].
  - cbn [nz Z.eqb negb]. pose proof (proj1 Hfits eq_refl) as Hall.
    pose proof (pisp_be_validate_config_values formats src src_formats) as Hv.
    destruct (Nat.eqb_spec id CONFIG_NODE) as [Hid | Hid]; cbn [fst snd].
    + split; [tauto |]. split; [intros _; exact Hall |].
      split; [intros Hno; contradiction |]. intros _.
      split; [intros i Hi Hlt; apply Hin; [reflexivity | apply in_seq; lia | exact Hlt] |].
      split; [intros _; now split | intros Hne; contradiction].
    + split; [now left |]. split; [intros _; exact Hall |].
      split; [intros Hno; contradiction |]. intros _.
      split; [intros i Hi Hlt; apply Hin; [reflexivity | apply in_seq; lia | exact Hlt] |].
      split; [intros Heq; contradiction | intros _; now split].
  - change (nz (- EINVAL)) with true. cbn [fst snd].
    assert (Hno : ~ (forall i, (i < Z.to_nat np)%nat ->
                       prepare_size buf_type format i <= nth i plane_sizes 0))
      by (intros H; apply Hfits in H; discriminate).
    split; [right; now left |]. split; [discriminate |].
    split; [| intros H; contradiction].
    intros _. split; [reflexivity |]. split; [reflexivity |].
    destruct Hfirst as (k & Hk & Hsmall & Hfit & Hset & Hkeep); [discriminate |].
    exists k. split; [lia |]. split; [exact Hsmall |].
    split; [intros i Hi; apply Hfit; lia |].
    split; [intros i Hi Hlt; apply Hset; [lia | exact Hlt] |].
    intros i Hi. apply Hkeep. lia.
Qed.

End BufferSetupRules.

(** ** Plane addresses and the image size *)

Section PlanesWithinImage.

Lemma ALIGN_nonneg x a : 0 <= ALIGN x a.
Proof. unfold ALIGN, clear_bits. apply Z.land_nonneg. left. apply u32_range. Qed.

(** X24.  For a format with three planes in one buffer, the size that
    [set_plane_params] sets and the addresses that [get_addr_3] derives fit
    together: the second and the third plane start at the offsets given by
    the plane factors, in eighths of the size of the first plane, and the
    third plane ends within the image size.  The node has the format that
    [set_plane_params] returned; sizes and addresses are taken not to wrap
    around. *)
Theorem derived_planes_within_image a off b n fv fmt f0 f1 f2 :
  plane_factor (factors fmt) = [f0; f1; f2] -> 0 < f0 -> 0 < f1 -> 0 < f2 ->
  f0 + f1 + f2 < 2 ^ 32 ->
  num_planes fv = 1 -> (0 < length (plane_fmt fv))%nat ->
  pisp_format n = Some (factors fmt) -> fmt_num_planes n = 1 ->
  fmt_bytesperline n = bytesperline (plane_at (set_plane_params fv fmt) 0) ->
  fmt_height n = height (set_plane_params fv fmt) ->
  0 <= height fv ->
  bytesperline (plane_at (set_plane_params fv fmt) 0) * height fv * (f0 + f1 + f2)
  < 2 ^ 32 ->
  (off + 2 < length a)%nat ->
  0 <= vb2_dma_contig_plane_dma_addr b 0 ->
  vb2_dma_contig_plane_dma_addr b 0 + sizeimage (plane_at (set_plane_params fv fmt) 0)
  < 2 ^ 64 ->
  let base := vb2_dma_contig_plane_dma_addr b 0 in
  let size := bytesperline (plane_at (set_plane_params fv fmt) 0) * height fv in
  let a' := snd (get_addr_3 a off (Some b) n) in
  nth off a' 0 = base
  /\ nth (off + 1) a' 0 = base + size * f0 / 8
  /\ nth (off + 2) a' 0 = base + size * (f0 + f1) / 8
  /\ nth (off + 2) a' 0 + size * f2 / 8
     <= base + sizeimage (plane_at (set_plane_params fv fmt) 0).
Proof.
  intros Hfactors Hf0 Hf1 Hf2 Hsmall Hone Hlen Hfmt Hplanes Hbpl Hheight Hh Hfit Hoff Hbase
    Himage base size a'.
  destruct (set_plane_params_planes fv fmt) as (_ & Hh' & _ & _ & Hp).
  destruct (Hp 0%nat) as [Hin _].
  assert (Hp0 : plane_at (set_plane_params fv fmt) 0
                = plane_params fv fmt 0 (plane_at fv 0))
    by (apply Hin; [rewrite Hone; cbn; lia | exact Hlen]).
  assert (Hnn : 0 <= bytesperline (plane_at (set_plane_params fv fmt) 0))
    by (rewrite Hp0; cbn [plane_params bytesperline]; apply ALIGN_nonneg).
  assert (Htotal : total_plane_factor fmt = f0 + f1 + f2).
  { unfold total_plane_factor, factor_at. rewrite Hfactors. cbn [seq MAX_PLANES fold_left nth].
    rewrite (u32_small (0 + f0)) by lia. rewrite (u32_small (0 + f0 + f1)) by lia.
    rewrite u32_small by lia. lia. }
  assert (Hsz : 0 <= size) by (unfold size; nia).
  assert (Hfit' : size * (f0 + f1 + f2) < 2 ^ 32) by exact Hfit.
  assert (Hsize_le : size * (f0 + f1 + f2) / 8
                     <= sizeimage (plane_at (set_plane_params fv fmt) 0)).
  { assert (Hmax : Z.shiftr
                     (u32 (u32 (bytesperline (plane_at (set_plane_params fv fmt) 0)
                                * height fv) * total_plane_factor fmt)) 3
                   <= sizeimage (plane_at (set_plane_params fv fmt) 0)).
    { rewrite Hp0. unfold plane_params. cbn [sizeimage bytesperline]. rewrite Hone.
      change (1 <? 1) with false. apply Z.le_max_r. }
    fold size in Hmax. rewrite Htotal in Hmax.
    rewrite (u32_small size) in Hmax by nia.
    rewrite u32_small in Hmax by nia.
    now rewrite Z.shiftr_div_pow2 in Hmax by lia. }
  destruct (get_addr_3_one_plane a off b n (factors fmt) f0 f1 f2 Hfmt Hfactors Hplanes
              Hoff ltac:(lia) ltac:(lia)) as (_ & H0 & H1 & H2).
  fold a' in H0, H1, H2. fold base in H0, H1, H2.
  rewrite Hbpl, Hheight, Hh' in H1, H2. fold size in H1, H2.
  rewrite (u32_small size) in H1, H2 by nia.
  rewrite (u32_small f0) in H1, H2 by nia.
  rewrite (u32_small (f0 + f1)) in H2 by nia.
  rewrite (u32_small (size * f0)) in H1 by nia.
  rewrite (u32_small (size * (f0 + f1))) in H2 by nia.
  rewrite Z.shiftr_div_pow2 in H1, H2 by lia. change (2 ^ 3) with 8 in H1, H2.
  assert (Hd0 : 0 <= size * f0 / 8 <= size * (f0 + f1 + f2) / 8)
    by (split; [apply Z.div_pos; nia | apply Z.div_le_mono; nia]).
  assert (Hd1 : 0 <= size * (f0 + f1) / 8)
    by (apply Z.div_pos; nia).
  assert (Hd2 : size * (f0 + f1) / 8 + size * f2 / 8 <= size * (f0 + f1 + f2) / 8).
  { pose proof (Z.div_mod (size * (f0 + f1)) 8 ltac:(lia)).
    pose proof (Z.div_mod (size * f2) 8 ltac:(lia)).
    pose proof (Z.div_mod (size * (f0 + f1 + f2)) 8 ltac:(lia)).
    pose proof (Z.mod_pos_bound (size * (f0 + f1)) 8 ltac:(lia)).
    pose proof (Z.mod_pos_bound (size * f2) 8 ltac:(lia)).
    pose proof (Z.mod_pos_bound (size * (f0 + f1 + f2)) 8 ltac:(lia)).
    nia. }
  assert (Hd3 : 0 <= size * f2 / 8) by (apply Z.div_pos; nia).
  fold base in Hbase, Himage.
  rewrite u64_small in H1 by lia. rewrite u64_small in H2 by lia.
  split; [exact H0 |]. split; [exact H1 |]. split; [exact H2 |]. lia.
Qed.

End PlanesWithinImage.

(** ** The further theorems at concrete inputs *)

(** A reset of the temporal denoise with the TDN input enabled: the
    sanitiser clears the TDN input and keeps the TDN block. *)
Lemma fixup_addrs_enables_tdn_reset_sample :
  Z.land (fst (snd (fixup_addrs_enables (H_config := sample_config_h) (repeat 0 14)
                      sample_tdn_reset_config sample_job_buffers
                      (streaming_group [] sample_tdn_reset_config 0))))
         (Z.lor 0x10 0x20) = 0.
Proof.
  apply (proj1 (fixup_addrs_enables_tdn_reset (H_config := sample_config_h) (repeat 0 14)
                  sample_tdn_reset_config sample_job_buffers
                  (streaming_group [] sample_tdn_reset_config 0)
                  ltac:(vm_compute; discriminate))).
Defined.

(** Plane 0 of a single-plane buffer. *)
Lemma get_addr_3_filled_planes_sample :
  nth 0 (snd (get_addr_3 (repeat 0 14) 0 (Some input_buffer) (sample_node [] 64 16))) 0
  = 0x10000000.
Proof.
  apply (get_addr_3_filled_planes (repeat 0 14) 0 input_buffer (sample_node [] 64 16)
           {| plane_factor := [4; 2; 2] |} 0);
    [reflexivity | lia | reflexivity | cbn; lia].
Defined.

(** The admission on [dev_output0_unused] takes the main-input buffer. *)
Lemma admission_conserves_buffers_sample :
  queue_of dev_output0_unused 0 MAIN_INPUT_NODE
  = option_list
      (buf_at (job_buf (queued_job
                          (snd (pispbe_schedule_internal (H_config := sample_config_h)
                                  (H_platform := sample_platform 0 0 true) 0
                                  dev_output0_unused)))) MAIN_INPUT_NODE)
    ++ queue_of (snd (pispbe_schedule_internal (H_config := sample_config_h)
                        (H_platform := sample_platform 0 0 true) 0 dev_output0_unused))
         0 MAIN_INPUT_NODE.
Proof.
  apply (admission_conserves_buffers (H_config := sample_config_h)
           (H_platform := sample_platform 0 0 true) 0 dev_output0_unused
           (streaming_group [output_buffer] (sample_tiles_config 0x1 0 1) 0));
    [reflexivity | reflexivity | reflexivity | vm_compute; discriminate
    | unfold MAIN_INPUT_NODE, PISPBE_NUM_NODES; lia].
Defined.

Lemma admitted_job_has_config_and_input_sample :
  exists cb b,
    list_first_entry_or_null (queue_of dev_output0_unused 0 CONFIG_NODE) = Some cb
    /\ list_first_entry_or_null (queue_of dev_output0_unused 0 MAIN_INPUT_NODE) = Some b
    /\ buf_at (job_buf (queued_job
                          (snd (pispbe_schedule_internal (H_config := sample_config_h)
                                  (H_platform := sample_platform 0 0 true) 0
                                  dev_output0_unused)))) CONFIG_NODE = Some cb
    /\ buf_at (job_buf (queued_job
                          (snd (pispbe_schedule_internal (H_config := sample_config_h)
                                  (H_platform := sample_platform 0 0 true) 0
                                  dev_output0_unused)))) MAIN_INPUT_NODE = Some b
    /\ job_node_group (queued_job
                         (snd (pispbe_schedule_internal (H_config := sample_config_h)
                                 (H_platform := sample_platform 0 0 true) 0
                                 dev_output0_unused))) = Some 0%nat.
Proof.
  apply (admitted_job_has_config_and_input (H_config := sample_config_h)
           (H_platform := sample_platform 0 0 true) 0 dev_output0_unused
           (streaming_group [output_buffer] (sample_tiles_config 0x1 0 1) 0));
    [reflexivity | reflexivity | reflexivity | vm_compute; discriminate].
Defined.

(** The admission for group 0 leaves group 1 alone. *)
Lemma admission_leaves_other_groups_sample :
  node_group (snd (pispbe_schedule_internal (H_config := sample_config_h)
                     (H_platform := sample_platform 0 0 true) 0 dev_output0_unused))
    !! 1%nat
  = node_group dev_output0_unused !! 1%nat.
Proof.
  apply (admission_leaves_other_groups (H_config := sample_config_h)
           (H_platform := sample_platform 0 0 true) 0 1 dev_output0_unused).
  lia.
Defined.

(** Shadow counters (3, 3), batch status 0x0405: after the interrupt the
    shadow counters are (4, 5). *)
Lemma pispbe_isr_resynchronises_sample :
  done (snd (pispbe_isr (H_config := sample_config_h)
               (H_platform := sample_platform 1 0x0405 true) dev_queued_and_running))
  = u8 (batch_status_read (H_platform := sample_platform 1 0x0405 true)
          dev_queued_and_running)
  /\ started (snd (pispbe_isr (H_config := sample_config_h)
                     (H_platform := sample_platform 1 0x0405 true)
                     dev_queued_and_running))
     = u8 (Z.shiftr (batch_status_read (H_platform := sample_platform 1 0x0405 true)
                       dev_queued_and_running) 8).
Proof.
  apply (pispbe_isr_resynchronises (H_config := sample_config_h)
           (H_platform := sample_platform 1 0x0405 true) dev_queued_and_running).
  vm_compute. discriminate.
Defined.

(** A buffer is queued on output 0, then an interrupt arrives. *)
Lemma busy_flag_tracks_queued_slot_sample :
  slot_invariant
    (run_calls (H_config := sample_config_h) (H_platform := sample_platform 1 0x0101 true)
       [CallBufferQueue 0 OUTPUT0_NODE output_buffer; CallIsr] dev_output0_missing).
Proof.
  apply (busy_flag_tracks_queued_slot (H_config := sample_config_h)
           (H_platform := sample_platform 1 0x0101 true)).
  vm_compute. split; [congruence | discriminate].
Defined.


(** Output 0 of a group that streams on its main input and config nodes. *)
Lemma start_streaming_sets_its_bit_sample :
  pispbe_node_start_streaming (H_config := sample_config_h)
    (H_platform := sample_platform 0 0 true) 0 OUTPUT0_NODE (-1) dev_five_frames
  = (-1, dev_five_frames)
  /\ fst (pispbe_node_start_streaming (H_config := sample_config_h)
            (H_platform := sample_platform 0 0 true) 0 OUTPUT0_NODE 0 dev_five_frames)
     = 0.
Proof.
  split.
  - apply (proj1 (start_streaming_sets_its_bit (H_config := sample_config_h)
                    (H_platform := sample_platform 0 0 true) 0 OUTPUT0_NODE (-1)
                    dev_five_frames _ eq_refl)).
    lia.
  - apply (proj2 (start_streaming_sets_its_bit (H_config := sample_config_h)
                    (H_platform := sample_platform 0 0 true) 0 OUTPUT0_NODE 0
                    dev_five_frames _ eq_refl)).
    lia.
Defined.

Lemma stop_streaming_clears_its_bit_sample :
  exists ng',
    node_group (stop_streaming_finish 0 MAIN_INPUT_NODE dev_five_frames) !! 0%nat
    = Some ng'
    /\ (forall j, streaming ng' j
                  = negb (MAIN_INPUT_NODE =? j)%nat
                    && streaming (sample_group (repeat [] 9)
                                    (Z.lor (BIT MAIN_INPUT_NODE) (BIT CONFIG_NODE)) [] 5) j).
Proof.
  destruct (stop_streaming_clears_its_bit 0 MAIN_INPUT_NODE dev_five_frames _ eq_refl)
    as (ng' & Hg & Hbits & _).
  exists ng'. split; [exact Hg | exact Hbits].
Defined.

(** The config node of [dev_output0_unused] is stopped. *)
Lemma drained_node_blocks_admission_sample :
  queue_of (stop_streaming_drain 0 CONFIG_NODE dev_output0_unused) 0 CONFIG_NODE = []
  /\ pispbe_schedule_internal (H_config := sample_config_h)
       (H_platform := sample_platform 0 0 true) 0
       (stop_streaming_drain 0 CONFIG_NODE dev_output0_unused)
     = (0, stop_streaming_drain 0 CONFIG_NODE dev_output0_unused).
Proof.
  apply (drained_node_blocks_admission (H_config := sample_config_h)
           (H_platform := sample_platform 0 0 true) 0 CONFIG_NODE dev_output0_unused
           (streaming_group [output_buffer] (sample_tiles_config 0x1 0 1) 0));
    [reflexivity | unfold CONFIG_NODE; cbn; lia | now left].
Defined.

(** The first job of group 0 is returned. *)
Lemma pispbe_isr_jobdone_returns_job_sample :
  vb2_done (pispbe_isr_jobdone (H_platform := sample_platform 1 0x0404 true)
              job_first dev_queued_and_running)
  = vb2_done dev_queued_and_running
    ++ map (fun b =>
              (stamped (ktime_get_ns (platform := sample_platform 1 0x0404 true)
                          (length (jobs_done dev_queued_and_running)))
                 (sequence (nth 0 (node_group dev_queued_and_running) zero_group)) b,
               VB2_BUF_STATE_DONE))
        (omap (buf_at (job_buf job_first)) (seq 0 PISPBE_NUM_NODES)).
Proof.
  apply (proj1 (pispbe_isr_jobdone_returns_job
                  (H_platform := sample_platform 1 0x0404 true)
                  job_first 0 dev_queued_and_running eq_refl)).
Defined.

(** A device that echoes its address registers. *)
Lemma hw_queue_job_dispatches_sample :
  exists evs,
    hw_queue_job (H_config := sample_config_h) (H_platform := sample_platform 0 0 true)
      [] (0x10000000 :: repeat 0 13) (1, 0) (sample_tiles_config 1 0 1) 0x40000000 1
    = [] ++ evs
        ++ [MmioWrite PISP_BE_TILE_ADDR_LO_OFFSET (u32 0x40000000);
            MmioWrite PISP_BE_TILE_ADDR_HI_OFFSET (u32 (Z.shiftr 0x40000000 32));
            MmioWrite PISP_BE_CONTROL_OFFSET (u32 (3 + 65536 * u32 1))]
    /\ existsb dispatch_write evs = false.
Proof.
  apply (hw_queue_job_dispatches (H_config := sample_config_h)
           (H_platform := sample_platform 0 0 true)).
  - intros t offset Hoff. cbn [readl sample_platform].
    unfold PISP_BE_INTERRUPT_STATUS_OFFSET, PISP_BE_BATCH_STATUS_OFFSET,
      PISP_BE_STATUS_OFFSET.
    destruct (Z.eqb_spec offset 28); [lia |].
    destruct (Z.eqb_spec offset 20); [lia |].
    destruct (Z.eqb_spec offset 16); [lia | reflexivity].
  - cbn. lia.
  - vm_compute. discriminate.
Defined.

(** A back end of version 2 whose counters agree and whose status is
    clear is accepted and enabled. *)
Lemma hw_init_outcome_sample :
  0x02252702 = u32 (readl (platform := probe_platform 0x02252702 0x0303 0)
                      (mmio dev_unprobed) PISP_BE_VERSION_OFFSET)
  /\ (0 = 0 \/ 0 = - ENODEV \/ 0 = - EBUSY)
  /\ (0 = - ENODEV <-> ~ (0x02252700 <= 0x02252702 <= 0x0225270F)).
Proof.
  destruct (hw_init_outcome (H_platform := probe_platform 0x02252702 0x0303 0)
              dev_unprobed 0 0x02252702
              (snd (hw_init (H_platform := probe_platform 0x02252702 0x0303 0)
                      dev_unprobed)) eq_refl) as (H1 & H2 & H3 & _).
  split; [exact H1 | split; [exact H2 | exact H3]].
Defined.

(** The three outcomes of [hw_init] on concrete devices. *)
Example hw_init_runs :
  fst (fst (hw_init (H_platform := probe_platform 0x02252702 0x0303 0) dev_unprobed)) = 0
  /\ mmio (snd (hw_init (H_platform := probe_platform 0x02252702 0x0303 0) dev_unprobed))
     = [MmioRead 0x0 0x02252702; MmioWrite 0x1c 0xFFFFFFFF; MmioRead 0x14 0x0303;
        MmioRead 0x10 0; MmioWrite 0x20 0x32703200; MmioWrite 0x18 3]
  /\ fst (fst (hw_init (H_platform := probe_platform 0x02252802 0x0303 0) dev_unprobed))
     = - ENODEV
  /\ fst (fst (hw_init (H_platform := probe_platform 0x02252702 0x0304 0) dev_unprobed))
     = - EBUSY
  /\ fst (fst (hw_init (H_platform := probe_platform 0x02252702 0x0303 1) dev_unprobed))
     = - EBUSY.
Proof. vm_compute. repeat split. Qed.

(** 1920 x 1080 at 8 bits: lines of 1920 bytes, an image of 12/8 of
    1920 x 1080 bytes. *)
Lemma set_plane_params_rounds_up_sample :
  sizeimage (plane_at sample_request 0)
  <= sizeimage (plane_at (set_plane_params sample_request sample_format_params) 0)
  /\ Z.shiftr
       (u32 (u32 (bytesperline
                    (plane_at (set_plane_params sample_request sample_format_params) 0)
                  * height sample_request)
             * (if 1 <? num_planes sample_request
                then factor_at (factors sample_format_params) 0
                else total_plane_factor sample_format_params))) 3
     <= sizeimage (plane_at (set_plane_params sample_request sample_format_params) 0)
  /\ bytesperline (plane_at (set_plane_params sample_request sample_format_params) 0)
     mod 2 ^ 6 = 0.
Proof.
  destruct (set_plane_params_rounds_up sample_request sample_format_params 6 0)
    as (H1 & H2 & H3 & _);
    [reflexivity | lia | cbn; lia | cbn; lia |].
  split; [exact H1 | split; [exact H2 | exact H3]].
Defined.

Example set_plane_params_runs :
  plane_at (set_plane_params sample_request sample_format_params) 0
  = {| sizeimage := 3110400; bytesperline := 1920 |}
  /\ bytesperline
       (plane_at (set_plane_params
                    {| width := 1920; height := 1080;
                       plane_fmt := [{| sizeimage := 0; bytesperline := 0xFFFFFFFF |}];
                       num_planes := 1 |} sample_format_params) 0) = 0.
Proof. vm_compute. split; reflexivity. Qed.

Lemma set_plane_params_idempotent_sample :
  set_plane_params (set_plane_params sample_request sample_format_params)
    sample_format_params
  = set_plane_params sample_request sample_format_params.
Proof.
  apply (set_plane_params_idempotent sample_request sample_format_params 6);
    [reflexivity | lia |].
  intros i Hi. assert (i = 0%nat) as -> by (cbn in Hi; lia). vm_compute. reflexivity.
Defined.

(** A configuration with the Bayer input and output 0 enabled: accepted
    with a stride of 1920, refused with a stride of 2048, and refused with
    [-EIO] when the RGB input is enabled as well. *)
Example pisp_be_validate_config_runs :
  pisp_be_validate_config (H_config := sample_config_h) (H_formats := sample_formats_h)
    sample_node_formats (sample_tiles_config 0x1 0x040000 1) (sample_config_formats 1920)
  = 0
  /\ pisp_be_validate_config (H_config := sample_config_h) (H_formats := sample_formats_h)
       sample_node_formats (sample_tiles_config 0x1 0x040000 1)
       (sample_config_formats 2048)
     = - EINVAL
  /\ pisp_be_validate_config (H_config := sample_config_h) (H_formats := sample_formats_h)
       sample_node_formats (sample_tiles_config 0x1 0x040001 1)
       (sample_config_formats 1920)
     = - EIO.
Proof. vm_compute. repeat split. Qed.

(** The config node asks for at most [VB2_MAX_FRAME] buffers; an image
    node refuses a plane that is smaller than the image. *)
Example pispbe_node_queue_setup_runs :
  pispbe_node_queue_setup (H_videobuf2 := {| VB2_MAX_FRAME := 32 |}) CONFIG_NODE
    V4L2_BUF_TYPE_META_OUTPUT {| pix_mp := zero_pix_mp; meta_buffersize := 0x2000 |}
    64 (repeat 0 8)
  = (0, (32, 1, 0x2000 :: repeat 0 7))
  /\ fst (pispbe_node_queue_setup (H_videobuf2 := {| VB2_MAX_FRAME := 32 |}) OUTPUT0_NODE
            V4L2_BUF_TYPE_VIDEO_CAPTURE_MPLANE
            {| pix_mp := nth OUTPUT0_NODE sample_node_formats zero_pix_mp;
               meta_buffersize := 0 |}
            4 (3110399 :: repeat 0 7))
     = - EINVAL.
Proof. vm_compute. split; reflexivity. Qed.

(** A capture buffer of two planes whose second plane is too small is
    refused, after the payload of its first plane has been set; the
    configuration array is not touched. *)
Example pispbe_node_buffer_prepare_runs :
  pispbe_node_buffer_prepare (H_config := sample_config_h)
    (H_formats := sample_formats_h) OUTPUT0_NODE
    V4L2_BUF_TYPE_VIDEO_CAPTURE_MPLANE
    {| pix_mp := {| width := 1920; height := 1080;
                    plane_fmt := [{| sizeimage := 2073600; bytesperline := 1920 |};
                                  {| sizeimage := 1036800; bytesperline := 960 |}];
                    num_planes := 2 |};
       meta_buffersize := 0 |}
    sample_node_formats [2073600; 1000] 0
    (sample_tiles_config 0x1 0 1) (sample_config_formats 1920) [0; 0] []
  = (- EINVAL, [2073600; 0], []).
Proof. vm_compute. reflexivity. Qed.

(** Group 0 of [dev_output0_unused] is ready. *)
Lemma admission_succeeds_iff_sample :
  fst (pispbe_schedule_internal (H_config := sample_config_h)
         (H_platform := sample_platform 0 0 true) 0 dev_output0_unused) = 0
  \/ fst (pispbe_schedule_internal (H_config := sample_config_h)
            (H_platform := sample_platform 0 0 true) 0 dev_output0_unused) = 1.
Proof.
  apply (proj1 (admission_succeeds_iff (H_config := sample_config_h)
                  (H_platform := sample_platform 0 0 true) 0 dev_output0_unused
                  (streaming_group [output_buffer] (sample_tiles_config 0x1 0 1) 0)
                  eq_refl)).
Defined.

(** 1920 x 1080 with the plane factors 8/2/2: the three planes start at
    offsets 0, 2073600 and 2592000 and end within the 3110400 bytes of the
    image. *)
Lemma derived_planes_within_image_sample :
  nth 0 (snd (get_addr_3 (repeat 0 14) 0 (Some input_buffer) sample_image_node)) 0
  = 0x10000000
  /\ nth 1 (snd (get_addr_3 (repeat 0 14) 0 (Some input_buffer) sample_image_node)) 0
     = 0x10000000 + 2073600
  /\ nth 2 (snd (get_addr_3 (repeat 0 14) 0 (Some input_buffer) sample_image_node)) 0
     = 0x10000000 + 2592000
  /\ nth 2 (snd (get_addr_3 (repeat 0 14) 0 (Some input_buffer) sample_image_node)) 0
     + 518400
     <= 0x10000000 + 3110400.
Proof.
  apply (derived_planes_within_image (repeat 0 14) 0 input_buffer sample_image_node
           sample_request sample_format_params 8 2 2);
    first [reflexivity | lia | (cbn; lia) | (vm_compute; congruence)
          | (vm_compute; reflexivity)].
Defined.

(** * tools/objtool/noreturns.h *)

From Stdlib Require Strings.String.

Module Noreturns.
Import Stdlib.Strings.String.

(** The list of the header: one entry for each [NORETURN(...)] line, in
    the order of the file. *)
Definition noreturns : list string :=
  ["__kunit_abort"%string;
   "__module_put_and_kthread_exit"%string;
   "__reiserfs_panic"%string;
   "__stack_chk_fail"%string;
   "__ubsan_handle_builtin_unreachable"%string;
   "arch_call_rest_init"%string;
   "arch_cpu_idle_dead"%string;
   "cpu_bringup_and_idle"%string;
   "cpu_startup_entry"%string;
   "do_exit"%string;
   "do_group_exit"%string;
   "do_task_dead"%string;
   "ex_handler_msr_mce"%string;
   "fortify_panic"%string;
   "hlt_play_dead"%string;
   "hv_ghcb_terminate"%string;
   "kthread_complete_and_exit"%string;
   "kthread_exit"%string;
   "kunit_try_catch_throw"%string;
   "machine_real_restart"%string;
   "make_task_dead"%string;
   "mpt_halt_firmware"%string;
   "nmi_panic_self_stop"%string;
   "panic"%string;
   "panic_smp_self_stop"%string;
   "rest_init"%string;
   "rewind_stack_and_make_dead"%string;
   "sev_es_terminate"%string;
   "snp_abort"%string;
   "start_kernel"%string;
   "stop_this_cpu"%string;
   "usercopy_abort"%string;
   "x86_64_start_kernel"%string;
   "x86_64_start_reservations"%string;
   "xen_cpu_bringup_again"%string;
   "xen_start_kernel"%string].

(** [s] comes before [t] in the order of their bytes. *)
Definition before (s t : string) : bool :=
  match String.compare s t with Lt => true | _ => false end.

(** Every entry comes before every later entry. *)
Fixpoint ascending (l : list string) : bool :=
  match l with
  | [] => true
  | s :: l' => forallb (before s) l' && ascending l'
  end.

Lemma ascending_spec l :
  ascending l = true ->
  forall i j s t,
    (i < j)%nat -> l !! i = Some s -> l !! j = Some t -> String.compare s t = Lt.
Proof.
  induction l as [| x l IH]; intros Hasc i j s t Hij Hi Hj; [discriminate Hi |].
  cbn [ascending] in Hasc. apply andb_true_iff in Hasc. destruct Hasc as [Hx Hl].
  destruct j as [| j]; [lia |]. cbn in Hj.
  destruct i as [| i].
  - injection Hi as <-. rewrite forallb_forall in Hx.
    assert (Hin : In t l) by (apply list_elem_of_In; eapply list_elem_of_lookup_2, Hj).
    specialize (Hx t Hin). unfold before in Hx.
    now destruct (String.compare x t).
  - cbn in Hi. apply (IH Hl i j); [lia | exact Hi | exact Hj].
Qed.

(** X28.  The list of noreturns.h is sorted, as its comment says: every entry
    comes before every later entry in byte order.  So no function is listed
    twice. *)
Theorem noreturns_sorted :
  (forall i j s t,
     (i < j)%nat -> noreturns !! i = Some s -> noreturns !! j = Some t ->
     String.compare s t = Lt)
  /\ NoDup noreturns.
Proof.
  assert (Hsorted : forall i j s t,
             (i < j)%nat -> noreturns !! i = Some s -> noreturns !! j = Some t ->
             String.compare s t = Lt)
    by (apply ascending_spec; vm_compute; reflexivity).
  split; [exact Hsorted |].
  apply NoDup_alt. intros i j s Hi Hj.
  destruct (Nat.lt_trichotomy i j) as [Hlt | [Heq | Hgt]]; [| exact Heq |].
  - specialize (Hsorted i j s s Hlt Hi Hj).
    pose proof (String.compare_antisym s s) as Hanti.
    rewrite Hsorted in Hanti. discriminate.
  - specialize (Hsorted j i s s Hgt Hj Hi).
    pose proof (String.compare_antisym s s) as Hanti.
    rewrite Hsorted in Hanti. discriminate.
Qed.

End Noreturns.
